(** * BaseMatch: daily swipe quota and mutual-like match detection

    A shallow embedding of the quota and match logic of the BaseMatch
    prototypes.  The repository holds several variants of one React
    application backed by Firestore; each variant is embedded in a module
    of its own:

    - [SwipeLimiter]: the transactional limiter ([DAILY_LIMIT],
      [resetSwipeCount], [handleSwipe], [handleGoPremium] and the status
      listener);
    - [SwipeScreen]: the variant that resets on a new calendar day
      ([isNewDay], [handleSwipe], [handleMintOnBase]);
    - [BaseMatchNew]: src/Basematch-new.jsx ([handleSwipe],
      [handleMintNFT]);
    - [MatchMaker]: the variant with likes and matches ([checkForMatch],
      [handleSwipe]), with [MatchMakerLoad] for its loader ([loadData],
      [handleGenderSelect], [handleMockNFTPurchase]);
    - [SwipeLimiterView], [SwipeScreenDays], [BaseMatchNewCard]: the
      rendering, the sessions and the card gestures of the three quota
      variants;
    - [ChatApp], [Retry], [Advisor]: the chat application ([handleLike],
      [handlePass], [handleSendMessage]), [fetchWithRetry] and
      [handleChatbotSubmit];
    - [WavEncoding], [DocumentPath]: the utilities [pcmToWav] and
      [getSafeAppId].

    Conventions.  A JavaScript [Date] is its [getTime()] value, a [Z]
    number of milliseconds.  A Firestore document that may be missing is an
    [option]; a collection keyed by document id is a [gmap]; a collection
    filled by [addDoc] (fresh id per call) is a list.  React state is a
    record that the handlers read and replace.  The store is reliable: the
    only failures modelled are the ones the handlers themselves raise or
    that Firestore raises deterministically ([updateDoc] on a missing
    document). *)

From Stdlib Require Import ZArith Lia List Bool.
From stdpp Require Import gmap strings list fin_maps.

Local Open Scope Z_scope.

(** Milliseconds in a day: [24 * 60 * 60 * 1000]. *)
Definition MILLISECONDS_IN_DAY : Z := 24 * 60 * 60 * 1000.

(* ================================================================== *)
(** * The transactional limiter *)
(* ================================================================== *)

Module SwipeLimiter.

(** The status document [userStatus/statusDoc]: the document is created
    from [INITIAL_USER_STATUS] and every later write updates fields that
    are already there, so all three fields are always present. *)
Record UserStatus : Type := mkStatus {
  swipeCount : Z;
  lastSwipeDate : Z;
  isPremium : bool
}.

Definition DAILY_LIMIT : Z := 50.

(** [new Date(0)], not premium, nothing swiped. *)
Definition INITIAL_USER_STATUS : UserStatus :=
  {| swipeCount := 0; lastSwipeDate := 0; isPremium := false |}.

Definition set_count_date (c d : Z) (s : UserStatus) : UserStatus :=
  {| swipeCount := c; lastSwipeDate := d; isPremium := isPremium s |}.

Definition set_premium_count (p : bool) (c : Z) (s : UserStatus) : UserStatus :=
  {| swipeCount := c; lastSwipeDate := lastSwipeDate s; isPremium := p |}.

(** What [setMessage] was last called with. *)
Inductive Message : Type :=
| MsgNone
| MsgResetDone
| MsgResetError
| MsgUnlimited
| MsgLimitReached
| MsgRemaining (n : Z)
| MsgSwipeError
| MsgPremiumOk
| MsgPremiumError.

(** The component state the handlers read and set.  [connected] stands for
    [db && userId && isAuthReady]. *)
Record Client : Type := mkClient {
  connected : bool;
  isLoading : bool;
  userStatus : UserStatus;
  showLimitModal : bool;
  message : Message
}.

Definition set_message (m : Message) (c : Client) : Client :=
  {| connected := connected c; isLoading := isLoading c;
     userStatus := userStatus c; showLimitModal := showLimitModal c;
     message := m |}.

Definition set_modal (b : bool) (c : Client) : Client :=
  {| connected := connected c; isLoading := isLoading c;
     userStatus := userStatus c; showLimitModal := b;
     message := message c |}.

Definition set_status (s : UserStatus) (c : Client) : Client :=
  {| connected := connected c; isLoading := isLoading c;
     userStatus := s; showLimitModal := showLimitModal c;
     message := message c |}.

Definition set_loading (b : bool) (c : Client) : Client :=
  {| connected := connected c; isLoading := b;
     userStatus := userStatus c; showLimitModal := showLimitModal c;
     message := message c |}.

(** The stored document together with one client looking at it. *)
Record World : Type := mkWorld {
  store : option UserStatus;
  client : Client
}.

Definition initialClient : Client :=
  {| connected := true; isLoading := true;
     userStatus := INITIAL_USER_STATUS; showLimitModal := false;
     message := MsgNone |}.

(** A signed-in user whose status document does not exist yet. *)
Definition freshWorld : World :=
  {| store := None; client := initialClient |}.

Section Limit.

(** The limit is the module constant [DAILY_LIMIT] in the source.  The
    handlers are written over a variable so that statements about every
    limit can be made; the application is the instance [DAILY_LIMIT]. *)
Variable limit : Z.

(** [resetSwipeCount(currentStatus, docRef)]: the reset writes blindly
    (no read in its transaction), so it fails only when the document is
    missing. *)
Definition resetSwipeCount (now : Z) (currentStatus : UserStatus) (w : World) : World :=
  if isPremium currentStatus then w
  else
    let timeElapsed := now - lastSwipeDate currentStatus in
    if (timeElapsed >=? MILLISECONDS_IN_DAY) && (swipeCount currentStatus >? 0) then
      match store w with
      | Some data =>
          {| store := Some (set_count_date 0 now data);
             client := set_message MsgResetDone (client w) |}
      | None =>
          {| store := None; client := set_message MsgResetError (client w) |}
      end
    else w.

(** The [onSnapshot] callback of the status listener. *)
Definition onSnapshot (now : Z) (w : World) : World :=
  match store w with
  | Some data =>
      let updatedStatus := data in
      let c := set_loading false (set_status updatedStatus (client w)) in
      resetSwipeCount now updatedStatus {| store := store w; client := c |}
  | None =>
      {| store := Some INITIAL_USER_STATUS;
         client := set_loading false (client w) |}
  end.

(** The body of the transaction in [handleSwipe]: [None] is the thrown
    "Document not found"; otherwise the returned count, whether
    [transaction.update] was called, and the document afterwards. *)
Record TxResult : Type := mkTx {
  returned : Z;
  updated : bool;
  after : UserStatus
}.

Definition swipeTransaction (now : Z) (doc : option UserStatus) : option TxResult :=
  match doc with
  | None => None
  | Some data =>
      let currentCount := swipeCount data in
      if currentCount >=? limit then
        Some {| returned := limit; updated := false; after := data |}
      else
        let newCount := currentCount + 1 in
        Some {| returned := newCount; updated := true;
                after := set_count_date newCount now data |}
  end.

(** Which way a call of [handleSwipe] went. *)
Inductive SwipeResult : Type :=
| NotReady
| Unlimited
| LimitModal
| Transacted (newCount : Z) (wrote : bool)
| TransactionFailed.

Definition handleSwipe (now : Z) (w : World) : World * SwipeResult :=
  let c := client w in
  if negb (connected c) || isLoading c then (w, NotReady)
  else if isPremium (userStatus c) then
    ({| store := store w; client := set_message MsgUnlimited c |}, Unlimited)
  else if swipeCount (userStatus c) >=? limit then
    ({| store := store w; client := set_modal true c |}, LimitModal)
  else
    match swipeTransaction now (store w) with
    | None =>
        ({| store := store w; client := set_message MsgSwipeError c |},
         TransactionFailed)
    | Some tx =>
        let newCount := returned tx in
        let c' :=
          if newCount =? limit then
            set_message MsgLimitReached (set_modal true c)
          else if newCount >? limit then set_modal true c
          else set_message (MsgRemaining (limit - newCount)) c in
        ({| store := Some (after tx); client := c' |},
         Transacted newCount (updated tx))
    end.

(** [handleGoPremium]: [updateDoc] rejects when the document is missing. *)
Definition handleGoPremium (w : World) : World :=
  let c := client w in
  if negb (connected c) then w
  else
    match store w with
    | Some data =>
        {| store := Some (set_premium_count true 0 data);
           client := set_message MsgPremiumOk c |}
    | None =>
        {| store := None; client := set_message MsgPremiumError c |}
    end.

(** The rendered counter: [None] is the text "Unlimited". *)
Definition swipesRemaining (s : UserStatus) : option Z :=
  if isPremium s then None else Some (Z.max 0 (limit - swipeCount s)).

(** A swipe is granted on the premium branch and when the transaction
    wrote the incremented count.  (The transaction also returns [limit]
    when it finds the limit already reached and writes nothing; the
    number returned does not tell the two apart, the write does.) *)
Definition allowed (r : SwipeResult) : bool :=
  match r with
  | Unlimited => true
  | Transacted _ wrote => wrote
  | _ => false
  end.

(** The number of swipes left that the call reports: [limit - newCount]
    after a transaction, the rendered counter of the status the call
    looked at otherwise. *)
Definition remaining (s : UserStatus) (r : SwipeResult) : option Z :=
  match r with
  | Transacted newCount _ => Some (limit - newCount)
  | _ => swipesRemaining s
  end.

Definition wroteDocument (r : SwipeResult) : bool :=
  match r with
  | Transacted _ wrote => wrote
  | _ => false
  end.

(** The listener fires when it is attached and after every change of the
    document.  Its callback may write itself (first document, reset),
    which makes it fire once more; the second round never writes. *)
Definition settle (now : Z) (w : World) : World :=
  onSnapshot now (onSnapshot now w).

(** One swipe of a running client: the handler, then the listener when
    the document changed. *)
Definition tryConsume (now : Z) (w : World) : World * SwipeResult :=
  let (w', r) := handleSwipe now w in
  ((if wroteDocument r then settle now w' else w'), r).

(** The purchase, then the listener. *)
Definition upgradeToPremium (now : Z) (w : World) : World :=
  settle now (handleGoPremium w).

(** A session of swipes at the given times; every call is observed as
    (allowed, remaining). *)
Fixpoint consumeAll (ts : list Z) (w : World) : list (bool * option Z) * World :=
  match ts with
  | [] => ([], w)
  | t :: ts' =>
      let (w', r) := tryConsume t w in
      let (obs, w'') := consumeAll ts' w' in
      ((allowed r, remaining (userStatus (client w)) r) :: obs, w'')
  end.

(** Calls from any number of clients of one user: each call comes with
    the state of the client that issues it, which may show any cached
    status; the transactions are applied to the document one after the
    other. *)
Record Call : Type := mkCall {
  callTime : Z;
  callClient : Client
}.

Fixpoint serve (calls : list Call) (doc : option UserStatus)
  : option UserStatus * list SwipeResult :=
  match calls with
  | [] => (doc, [])
  | c :: calls' =>
      let (w', r) :=
        handleSwipe (callTime c) {| store := doc; client := callClient c |} in
      let (doc', rs) := serve calls' (store w') in
      (doc', r :: rs)
  end.

(** How many of the calls were granted. *)
Definition grantedCount (rs : list SwipeResult) : Z :=
  Z.of_nat (length (List.filter allowed rs)).

(** The calling client shows a status that is not premium. *)
Definition freeClient (c : Call) : Prop :=
  isPremium (userStatus (callClient c)) = false.

(** What a user does with the application. *)
Inductive Event : Type :=
| Open (t : Z)
| Swipe (t : Z).

Definition step (e : Event) (w : World) : World :=
  match e with
  | Open t => settle t w
  | Swipe t => fst (tryConsume t w)
  end.

Definition run (es : list Event) (w : World) : World :=
  fold_left (fun w e => step e w) es w.

End Limit.

(** The client shows the stored document and is ready to swipe. *)
Definition synced (w : World) (d : UserStatus) : Prop :=
  store w = Some d /\ userStatus (client w) = d /\
  connected (client w) = true /\ isLoading (client w) = false.

Definition isSwipe (e : Event) : bool :=
  match e with Swipe _ => true | Open _ => false end.

(** Every [Open] comes less than a day after the latest swipe before it
    ([last] is the time of that swipe). *)
Fixpoint opensWithinADay (last : Z) (es : list Event) : Prop :=
  match es with
  | [] => True
  | Open t :: es' => t - last < MILLISECONDS_IN_DAY /\ opensWithinADay last es'
  | Swipe t :: es' => opensWithinADay t es'
  end.

(** The guard of [resetSwipeCount] as one test on the stored document. *)
Definition rolloverDue (now : Z) (d : UserStatus) : bool :=
  negb (isPremium d) &&
  ((now - lastSwipeDate d >=? MILLISECONDS_IN_DAY) && (swipeCount d >? 0)).

Definition countSwipes (es : list Event) : Z :=
  Z.of_nat (length (List.filter isSwipe es)).

(** The time of the latest swipe of a session ([last] when there is none). *)
Fixpoint lastSwipeTime (last : Z) (es : list Event) : Z :=
  match es with
  | [] => last
  | Open _ :: es' => lastSwipeTime last es'
  | Swipe t :: es' => lastSwipeTime t es'
  end.

(** ** Sample clients and sessions *)

(** A client that is ready to swipe and shows the status [s]. *)
Definition readyClient (s : UserStatus) : Client :=
  {| connected := true; isLoading := false; userStatus := s;
     showLimitModal := false; message := MsgNone |}.

(** A call from a client whose cached status is still the initial one. *)
Definition staleCall (t : Z) : Call :=
  {| callTime := t; callClient := readyClient INITIAL_USER_STATUS |}.

(** Fifty swipes, one per hour. *)
Definition hourlyTimes : list Z :=
  map (fun k => Z.of_nat k * 3600000) (seq 1 50).

Definition atLimitStatus : UserStatus :=
  {| swipeCount := 50; lastSwipeDate := 0; isPremium := false |}.

Definition usedStatus : UserStatus :=
  {| swipeCount := 7; lastSwipeDate := 0; isPremium := false |}.

Definition premiumStatus : UserStatus :=
  {| swipeCount := 50; lastSwipeDate := 0; isPremium := true |}.

Definition atLimitWorld : World :=
  {| store := Some atLimitStatus; client := readyClient atLimitStatus |}.

Definition usedWorld : World :=
  {| store := Some usedStatus; client := readyClient usedStatus |}.

Definition premiumWorld : World :=
  {| store := Some premiumStatus; client := readyClient premiumStatus |}.

(** The document is at the limit but the client still shows seven swipes. *)
Definition staleWorld : World :=
  {| store := Some atLimitStatus; client := readyClient usedStatus |}.

(** A swipe every 23 hours, the application reopened in between. *)
Definition threeDays : list Event :=
  [ Open 3600000; Swipe 82800000; Open (82800000 + 3600000);
    Swipe (2 * 82800000); Open (2 * 82800000 + 80000000);
    Swipe (3 * 82800000); Open (3 * 82800000 + 1) ].

End SwipeLimiter.

(* ================================================================== *)
(** * The variant that resets on a new calendar day *)
(* ================================================================== *)

Module SwipeScreen.

Definition DAILY_SWIPE_LIMIT : Z := 50.

(** The [status] map of the user document; the document is created with
    all three fields and every write keeps them. *)
Record Status : Type := mkStatus {
  swipesToday : Z;
  isPremium : bool;
  lastResetDate : Z
}.

(** The [swipeData] state: [lastReset] is [null] until the first snapshot. *)
Record SwipeData : Type := mkSwipeData {
  count : Z;
  dataIsPremium : bool;
  lastReset : option Z
}.

Inductive Direction : Type := LIKE | DISLIKE.

Inductive ModalStep : Type := StepLimit | StepConnect | StepMint | StepMinting.

Inductive Message : Type :=
| MsgNone
| MsgAuthNotReady
| MsgSwiped (d : Direction)
| MsgSaveError
| MsgPremium.


(** [connected] stands for [db && userId]. *)
Record Client : Type := mkClient {
  connected : bool;
  isAuthReady : bool;
  swipeData : SwipeData;
  currentProfile : nat;
  message : Message;
  showModal : bool;
  modalStep : ModalStep
}.

Record World : Type := mkWorld {
  store : option Status;
  client : Client
}.

Section Zone.

(** [toDateString()] gives the calendar date in the local time zone.
    [zoneOffset t] is the offset of the zone from UTC that is in force at
    the instant [t], in milliseconds; it changes when the clocks of the
    zone are put forward or back. *)
Variable zoneOffset : Z -> Z.

Definition dayOf (t : Z) : Z := (t + zoneOffset t) / MILLISECONDS_IN_DAY.

(** [isNewDay(lastResetDate)] called at time [now]. *)
Definition isNewDay (now : Z) (lastResetDate : option Z) : bool :=
  match lastResetDate with
  | None => true
  | Some lastReset => negb (dayOf now =? dayOf lastReset)
  end.

(** The effect that checks and resets the daily limit. *)
Definition resetEffect (now : Z) (w : World) : World :=
  let c := client w in
  match lastReset (swipeData c) with
  | Some _ =>
      if isAuthReady c && connected c && isNewDay now (lastReset (swipeData c)) then
        match store w with
        | Some st =>
            {| store := Some {| swipesToday := 0; isPremium := isPremium st;
                                lastResetDate := now |};
               client := c |}
        | None => w
        end
      else w
  | None => w
  end.

End Zone.

(** A zone whose clocks are never changed: UTC. *)
Definition utc : Z -> Z := fun _ => 0.

(** A zone two hours ahead of UTC in summer and one hour in winter, about
    the instant 90000000 at which its clocks are put back, and about the
    one at which they are put forward. *)
Definition autumnZone (t : Z) : Z :=
  if t <? 90000000 then 7200000 else 3600000.

Definition springZone (t : Z) : Z :=
  if t <? 90000000 then 3600000 else 7200000.

(** The [onSnapshot] callback. *)
Definition onSnapshot (now : Z) (w : World) : World :=
  let c := client w in
  match store w with
  | Some status =>
      {| store := store w;
         client :=
           {| connected := connected c; isAuthReady := isAuthReady c;
              swipeData :=
                {| count := swipesToday status;
                   dataIsPremium := isPremium status;
                   lastReset := Some (lastResetDate status) |};
              currentProfile := currentProfile c; message := message c;
              showModal := showModal c; modalStep := modalStep c |} |}
  | None =>
      {| store := Some {| swipesToday := 0; isPremium := false;
                          lastResetDate := now |};
         client := c |}
  end.

Inductive SwipeResult : Type :=
| NotReady
| LimitModal
| Swiped (wrote : bool)
| SaveFailed.

Definition handleSwipe (direction : Direction) (w : World) : World * SwipeResult :=
  let c := client w in
  if negb (connected c) then
    ({| store := store w;
        client :=
          {| connected := connected c; isAuthReady := isAuthReady c;
             swipeData := swipeData c; currentProfile := currentProfile c;
             message := MsgAuthNotReady;
             showModal := showModal c; modalStep := modalStep c |} |},
     NotReady)
  else
    let canSwipe :=
      dataIsPremium (swipeData c) || (count (swipeData c) <? DAILY_SWIPE_LIMIT) in
    if negb canSwipe then
      ({| store := store w;
          client :=
            {| connected := connected c; isAuthReady := isAuthReady c;
               swipeData := swipeData c; currentProfile := currentProfile c;
               message := message c;
               showModal := true; modalStep := StepLimit |} |},
       LimitModal)
    else
      let c1 :=
        {| connected := connected c; isAuthReady := isAuthReady c;
           swipeData := swipeData c; currentProfile := S (currentProfile c);
           message := MsgSwiped direction;
           showModal := showModal c; modalStep := modalStep c |} in
      if negb (dataIsPremium (swipeData c)) then
        match store w with
        | Some st =>
            ({| store := Some {| swipesToday := count (swipeData c) + 1;
                                 isPremium := isPremium st;
                                 lastResetDate := lastResetDate st |};
                client := c1 |},
             Swiped true)
        | None =>
            ({| store := None;
                client :=
                  {| connected := connected c1; isAuthReady := isAuthReady c1;
                     swipeData := swipeData c1;
                     currentProfile := currentProfile c1;
                     message := MsgSaveError;
                     showModal := showModal c1; modalStep := modalStep c1 |} |},
             SaveFailed)
        end
      else ({| store := store w; client := c1 |}, Swiped false).

Definition allowed (r : SwipeResult) : bool :=
  match r with Swiped _ => true | _ => false end.

(** [handleMintOnBase], at the time the simulated transaction completes. *)
Definition handleMintOnBase (now : Z) (w : World) : World :=
  let c := client w in
  if negb (connected c) then w
  else
    {| store := Some {| swipesToday := 0; isPremium := true;
                        lastResetDate := now |};
       client :=
         {| connected := connected c; isAuthReady := isAuthReady c;
            swipeData := swipeData c; currentProfile := currentProfile c;
            message := MsgPremium;
            showModal := false; modalStep := StepMinting |} |}.

(** One swipe of a running client: the handler, then the listener and the
    reset effect. *)
Definition swipeAndSync (zoneOffset : Z -> Z) (direction : Direction) (now : Z)
    (w : World) : World * SwipeResult :=
  let (w1, r) := handleSwipe direction w in
  (resetEffect zoneOffset now (onSnapshot now w1), r).

Fixpoint swipeAll (zoneOffset : Z -> Z) (swipes : list (Direction * Z)) (w : World)
  : list bool * World :=
  match swipes with
  | [] => ([], w)
  | (direction, now) :: swipes' =>
      let (w', r) := swipeAndSync zoneOffset direction now w in
      let (obs, w'') := swipeAll zoneOffset swipes' w' in
      (allowed r :: obs, w'')
  end.

(** The client shows the stored status and is signed in. *)
Definition synced (w : World) (st : Status) : Prop :=
  store w = Some st /\
  swipeData (client w) =
    {| count := swipesToday st; dataIsPremium := isPremium st;
       lastReset := Some (lastResetDate st) |} /\
  connected (client w) = true /\ isAuthReady (client w) = true.

End SwipeScreen.

(* ================================================================== *)
(** * src/Basematch-new.jsx *)
(* ================================================================== *)

Module BaseMatchNew.

Definition DAILY_SWIPE_LIMIT : Z := 50.
Definition UNLIMITED_SWIPE_SIMULATION : Z := 9999.

(** [new Date().toISOString().split('T')[0]]: the UTC calendar date, here
    the number of the day. *)
Definition getTodayDateString (now : Z) : Z := now / MILLISECONDS_IN_DAY.

(** The [status] map.  [handleMintNFT] replaces the stored map by one
    without [lastResetDate], [matches] and [farcasterConnected], so these
    may be missing. *)
Record Status : Type := mkStatus {
  swipesToday : Z;
  isPremium : bool;
  lastResetDate : option Z;
  matches : option (list string);
  walletAddress : option string;
  farcasterConnected : option bool
}.

Definition initialStatus (now : Z) : Status :=
  {| swipesToday := 49; isPremium := false;
     lastResetDate := Some (getTodayDateString now);
     matches := Some []; walletAddress := None;
     farcasterConnected := Some false |}.

Inductive Direction : Type := LIKE | DISLIKE.

Inductive ModalStep : Type :=
| LimitReached
| ConnectWallet
| MintConfirm
| MintProcessing.

(** [hasDb] tells whether Firestore was initialised, that is whether
    [getUserDocRef] returns a reference; [profiles] holds the ids of the
    cards. *)
Record Client : Type := mkClient {
  hasDb : bool;
  userStatus : Status;
  profiles : list string;
  currentIndex : nat;
  isModalOpen : bool;
  modalStep : ModalStep
}.

Record World : Type := mkWorld {
  store : option Status;
  client : Client
}.

Definition set_swipes (n : Z) (s : Status) : Status :=
  {| swipesToday := n; isPremium := isPremium s;
     lastResetDate := lastResetDate s; matches := matches s;
     walletAddress := walletAddress s;
     farcasterConnected := farcasterConnected s |}.

Definition set_matches (m : option (list string)) (s : Status) : Status :=
  {| swipesToday := swipesToday s; isPremium := isPremium s;
     lastResetDate := lastResetDate s; matches := m;
     walletAddress := walletAddress s;
     farcasterConnected := farcasterConnected s |}.

Definition set_status (s : Status) (c : Client) : Client :=
  {| hasDb := hasDb c; userStatus := s; profiles := profiles c;
     currentIndex := currentIndex c; isModalOpen := isModalOpen c;
     modalStep := modalStep c |}.

Definition next_profile (c : Client) : Client :=
  {| hasDb := hasDb c; userStatus := userStatus c; profiles := profiles c;
     currentIndex := S (currentIndex c); isModalOpen := isModalOpen c;
     modalStep := modalStep c |}.

(** [arrayUnion(id)] on a field that may be missing. *)
Definition arrayUnion (id : string) (field : option (list string)) : list string :=
  match field with
  | None => [id]
  | Some ids => if existsb (String.eqb id) ids then ids else ids ++ [id]
  end.

Definition swipeLimit (s : Status) : Z :=
  if isPremium s then UNLIMITED_SWIPE_SIMULATION else DAILY_SWIPE_LIMIT.

Definition swipesRemaining (s : Status) : Z := swipeLimit s - swipesToday s.

Definition handleUpgrade (step : ModalStep) (c : Client) : Client :=
  if negb (isPremium (userStatus c)) then
    {| hasDb := hasDb c; userStatus := userStatus c; profiles := profiles c;
       currentIndex := currentIndex c; isModalOpen := true;
       modalStep := step |}
  else c.

Inductive SwipeResult : Type :=
| LimitModal
| NoProfile
| Swiped
| UpdateFailed.

Definition handleSwipe (direction : Direction) (w : World) : World * SwipeResult :=
  let c := client w in
  let s := userStatus c in
  if negb (isPremium s) && (swipesRemaining s <=? 0) then
    ({| store := store w; client := handleUpgrade LimitReached c |}, LimitModal)
  else
    match profiles c !! (currentIndex c `mod` length (profiles c))%nat with
    | None => (w, NoProfile)
    | Some currentProfile =>
        let newSwipes :=
          if negb (isPremium s) then swipesToday s + 1 else swipesToday s in
        if hasDb c then
          match store w with
          | Some st =>
              let st1 := set_swipes newSwipes st in
              let st2 :=
                match direction with
                | LIKE => set_matches (Some (arrayUnion currentProfile (matches st1))) st1
                | DISLIKE => st1
                end in
              ({| store := Some st2; client := next_profile c |}, Swiped)
          | None => (w, UpdateFailed)
          end
        else
          match direction, matches s with
          | LIKE, None => (w, UpdateFailed)
          | LIKE, Some ms =>
              ({| store := store w;
                  client :=
                    next_profile
                      (set_status
                         (set_matches (Some (ms ++ [currentProfile]))
                            (set_swipes newSwipes s)) c) |},
               Swiped)
          | DISLIKE, _ =>
              ({| store := store w;
                  client := next_profile (set_status (set_swipes newSwipes s) c) |},
               Swiped)
          end
    end.

Definition allowed (r : SwipeResult) : bool :=
  match r with Swiped => true | _ => false end.

(** The callback, at time [now], of the status listener that the effect
    attached at time [mounted]: the effect builds [initialStatus] when it
    runs, and the callback takes today's date when it is called. *)
Definition onSnapshot (mounted now : Z) (w : World) : World :=
  let today := getTodayDateString now in
  let data :=
    match store w with Some st => st | None => initialStatus mounted end in
  let due :=
    match lastResetDate data with
    | Some d => negb (d =? today)
    | None => true
    end in
  let data' :=
    if due then
      {| swipesToday := 0; isPremium := isPremium data;
         lastResetDate := Some today; matches := matches data;
         walletAddress := walletAddress data;
         farcasterConnected := farcasterConnected data |}
    else data in
  let store1 :=
    match store w with
    | Some _ => if due then Some data' else store w
    | None => Some (initialStatus mounted)
    end in
  {| store := store1; client := set_status data' (client w) |}.

(** [handleMintNFT(walletAddress)], at the end of the simulated payment. *)
Definition handleMintNFT (wallet : option string) (w : World) : World :=
  let c := client w in
  let stored :=
    {| swipesToday := 0; isPremium := true; lastResetDate := None;
       matches := None; walletAddress := wallet;
       farcasterConnected := None |} in
  let s := userStatus c in
  let local :=
    {| swipesToday := 0; isPremium := true;
       lastResetDate := lastResetDate s; matches := matches s;
       walletAddress := wallet;
       farcasterConnected := farcasterConnected s |} in
  {| store :=
       if hasDb c then
         match store w with Some _ => Some stored | None => None end
       else store w;
     client :=
       {| hasDb := hasDb c; userStatus := local; profiles := profiles c;
          currentIndex := currentIndex c; isModalOpen := false;
          modalStep := MintProcessing |} |}.

(** One swipe of a running client: the handler, then the listener. *)
Definition swipeAndSync (mounted : Z) (direction : Direction) (now : Z)
    (w : World) : World * SwipeResult :=
  let (w1, r) := handleSwipe direction w in
  (onSnapshot mounted now w1, r).

Fixpoint swipeAll (mounted : Z) (swipes : list (Direction * Z)) (w : World)
  : list bool * World :=
  match swipes with
  | [] => ([], w)
  | (direction, now) :: swipes' =>
      let (w', r) := swipeAndSync mounted direction now w in
      let (obs, w'') := swipeAll mounted swipes' w' in
      (allowed r :: obs, w'')
  end.

Definition grantedCount (obs : list bool) : Z :=
  Z.of_nat (length (List.filter (fun b => b) obs)).

(** The client shows the stored status, Firestore is there and there is a
    card to swipe. *)
Definition synced (w : World) (st : Status) : Prop :=
  store w = Some st /\ userStatus (client w) = st /\
  hasDb (client w) = true /\ profiles (client w) <> [].

End BaseMatchNew.

(* ================================================================== *)
(** * Likes and matches *)
(* ================================================================== *)

Module MatchMaker.

Definition MAX_SWIPES_PER_DAY : Z := 50.

(** A card of [MOCK_PROFILES]; the handlers read [id] and [name] only. *)
Record Profile : Type := mkProfile {
  profileId : string;
  profileName : string
}.

(** The [action] argument of [handleSwipe]: ['like'] or anything else. *)
Inductive Action : Type := Like | Pass.

(** [users/{userId}/metadata/data]; every field may be missing. *)
Record Metadata : Type := mkMetadata {
  docDailySwipeCount : option Z;
  docLastSwipeReset : option Z;
  docHasSubscriptionNFT : option bool;
  docHasPaidToViewLikes : option bool;
  docUserGender : option string
}.

(** [users/{userId}/likes/{profileId}] *)
Record SwipeDoc : Type := mkSwipeDoc {
  likedProfileId : string;
  swipeAction : Action;
  swipeTimestamp : Z
}.

(** A document of [public/data/likes] *)
Record PublicLike : Type := mkPublicLike {
  likerId : string;
  likedId : string;
  likeTimestamp : Z
}.

(** [users/{userId}/matches/{matchId}] *)
Record MatchDoc : Type := mkMatchDoc {
  partnerId : string;
  matchTimestamp : Z
}.

(** The four collections.  Documents under [users/{userId}/...] are keyed
    by the pair (userId, document id); [publicLikes] is filled by [addDoc],
    which picks a fresh id each time, so it is a list in order of
    insertion. *)
Record Firestore : Type := mkFirestore {
  metadata : gmap string Metadata;
  likes : gmap (string * string) SwipeDoc;
  publicLikes : list PublicLike;
  matches : gmap (string * string) MatchDoc
}.

Definition emptyFirestore : Firestore :=
  {| metadata := ∅; likes := ∅; publicLikes := []; matches := ∅ |}.

(** An entry of the [matchesList] state and the [matchNotification]. *)
Record MatchEntry : Type := mkMatchEntry {
  entryId : string;
  entryName : string;
  entryMatchId : string
}.

Record Notification : Type := mkNotification {
  notifiedName : string;
  notifiedId : string
}.

Inductive ErrorMessage : Type :=
| NoError
| SwipeLimitError
| SwipeSaveError.

(** The state of one signed-in client.  [connected] stands for
    [db && userId]. *)
Record Client : Type := mkClient {
  userId : string;
  connected : bool;
  isLoading : bool;
  profiles : list Profile;
  currentProfileIndex : nat;
  swipedProfileIds : gset string;
  dailySwipeCount : Z;
  hasSubscriptionNFT : bool;
  matchesList : list MatchEntry;
  matchNotification : option Notification;
  error : ErrorMessage
}.

(** [Array.prototype.sort()] without a comparator orders strings by code
    unit; [String.leb] orders them by character code, which is the same
    order on ASCII identifiers.  The sort is stable. *)
Fixpoint insertSorted (s : string) (l : list string) : list string :=
  match l with
  | [] => [s]
  | x :: l' => if String.leb s x then s :: l else x :: insertSorted s l'
  end.

Definition sortStrings (l : list string) : list string :=
  fold_right insertSorted [] l.

(** [[userId, likedProfileId].sort().join('_')] *)
Definition matchIdOf (userId likedProfileId : string) : string :=
  String.concat "_" (sortStrings [userId; likedProfileId]).

(** The query of [checkForMatch]:
    [where("likerId", "==", liker), where("likedId", "==", liked)]. *)
Definition queryLikes (liker liked : string) (db : Firestore) : list PublicLike :=
  List.filter
    (fun l => String.eqb (likerId l) liker && String.eqb (likedId l) liked)
    (publicLikes db).

Definition snapshotEmpty (docs : list PublicLike) : bool :=
  match docs with [] => true | _ => false end.

(** [checkForMatch(likedProfileId, likedProfileName)]; the third component
    is the match id when the branch was taken. *)
Definition checkForMatch (likedProfileId likedProfileName : string) (now : Z)
    (db : Firestore) (c : Client) : Firestore * Client * option string :=
  let snapshot := queryLikes likedProfileId (userId c) db in
  if negb (snapshotEmpty snapshot) then
    let matchId := matchIdOf (userId c) likedProfileId in
    let db' :=
      {| metadata := metadata db; likes := likes db;
         publicLikes := publicLikes db;
         matches :=
           <[ (userId c, matchId) :=
                {| partnerId := likedProfileId; matchTimestamp := now |} ]>
             (matches db) |} in
    let c' :=
      {| userId := userId c; connected := connected c;
         isLoading := isLoading c; profiles := profiles c;
         currentProfileIndex := currentProfileIndex c;
         swipedProfileIds := swipedProfileIds c;
         dailySwipeCount := dailySwipeCount c;
         hasSubscriptionNFT := hasSubscriptionNFT c;
         matchesList :=
           matchesList c ++
             [ {| entryId := likedProfileId; entryName := likedProfileName;
                  entryMatchId := matchId |} ];
         matchNotification :=
           Some {| notifiedName := likedProfileName;
                   notifiedId := likedProfileId |};
         error := error c |} in
    (db', c', Some matchId)
  else (db, c, None).

(** [setDoc(userDocRef, { dailySwipeCount, lastSwipeReset }, { merge: true })] *)
Definition mergeSwipeCount (newCount now : Z) (old : option Metadata) : Metadata :=
  {| docDailySwipeCount := Some newCount;
     docLastSwipeReset := Some now;
     docHasSubscriptionNFT := old ≫= docHasSubscriptionNFT;
     docHasPaidToViewLikes := old ≫= docHasPaidToViewLikes;
     docUserGender := old ≫= docUserGender |}.

(** Which way a call of [handleSwipe] went. *)
Inductive SwipeResult : Type :=
| Ignored
| Limited
| Swiped (matched : option string).

Definition handleSwipe (action : Action) (now : Z) (db : Firestore) (c : Client)
  : Firestore * Client * SwipeResult :=
  if negb (connected c) || isLoading c then (db, c, Ignored)
  else
    match profiles c !! currentProfileIndex c with
    | None => (db, c, Ignored)
    | Some currentProfile =>
        let isSwipeLimited :=
          (dailySwipeCount c >=? MAX_SWIPES_PER_DAY) && negb (hasSubscriptionNFT c) in
        if isSwipeLimited then
          (db,
           {| userId := userId c; connected := connected c;
              isLoading := isLoading c; profiles := profiles c;
              currentProfileIndex := currentProfileIndex c;
              swipedProfileIds := swipedProfileIds c;
              dailySwipeCount := dailySwipeCount c;
              hasSubscriptionNFT := hasSubscriptionNFT c;
              matchesList := matchesList c;
              matchNotification := matchNotification c;
              error := SwipeLimitError |},
           Limited)
        else
          let newCount := dailySwipeCount c + 1 in
          let c1 :=
            {| userId := userId c; connected := connected c;
               isLoading := true; profiles := profiles c;
               currentProfileIndex := currentProfileIndex c;
               swipedProfileIds := swipedProfileIds c ∪ {[ profileId currentProfile ]};
               dailySwipeCount := newCount;
               hasSubscriptionNFT := hasSubscriptionNFT c;
               matchesList := matchesList c;
               matchNotification := matchNotification c;
               error := error c |} in
          let db1 :=
            {| metadata :=
                 <[ userId c :=
                      mergeSwipeCount newCount now (metadata db !! userId c) ]>
                   (metadata db);
               likes :=
                 <[ (userId c, profileId currentProfile) :=
                      {| likedProfileId := profileId currentProfile;
                         swipeAction := action; swipeTimestamp := now |} ]>
                   (likes db);
               publicLikes := publicLikes db;
               matches := matches db |} in
          let '(db2, c2, matched) :=
            match action with
            | Like =>
                let db1' :=
                  {| metadata := metadata db1; likes := likes db1;
                     publicLikes :=
                       publicLikes db1 ++
                         [ {| likerId := userId c;
                              likedId := profileId currentProfile;
                              likeTimestamp := now |} ];
                     matches := matches db1 |} in
                checkForMatch (profileId currentProfile)
                  (profileName currentProfile) now db1' c1
            | Pass => (db1, c1, None)
            end in
          (db2,
           {| userId := userId c2; connected := connected c2;
              isLoading := false; profiles := profiles c2;
              currentProfileIndex := S (currentProfileIndex c2);
              swipedProfileIds := swipedProfileIds c2;
              dailySwipeCount := dailySwipeCount c2;
              hasSubscriptionNFT := hasSubscriptionNFT c2;
              matchesList := matchesList c2;
              matchNotification := matchNotification c2;
              error := error c2 |},
           Swiped matched)
    end.

(** A swipe that some client makes; any number of clients of any users
    share the database. *)
Record SwipeEvent : Type := mkSwipeEvent {
  swipeClient : Client;
  swipeChoice : Action;
  swipeTime : Z
}.

Definition applySwipe (db : Firestore) (e : SwipeEvent) : Firestore :=
  fst (fst (handleSwipe (swipeChoice e) (swipeTime e) db (swipeClient e))).

Definition runSwipes (es : list SwipeEvent) (db : Firestore) : Firestore :=
  fold_left applySwipe es db.

(** A public like document from [a] to [b] exists. *)
Definition likeExists (db : Firestore) (a b : string) : Prop :=
  queryLikes a b db <> [].

Definition countLikes (db : Firestore) (a b : string) : nat :=
  length (queryLikes a b db).

(** A match document for the pair exists: under the pair's match id, in
    the matches collection of one of the two. *)
Definition matchExists (db : Firestore) (a b : string) : Prop :=
  is_Some (matches db !! (a, matchIdOf a b)) \/
  is_Some (matches db !! (b, matchIdOf a b)).

(** A client of [user] that is ready to swipe on the profile [p]. *)
Definition swipingOn (c : Client) (user : string) (p : Profile) : Prop :=
  userId c = user /\ connected c = true /\ isLoading c = false /\
  profiles c !! currentProfileIndex c = Some p /\
  (dailySwipeCount c < MAX_SWIPES_PER_DAY \/ hasSubscriptionNFT c = true).

(** The database after the like of a ready client, before the match check. *)
Definition afterLike (u : string) (p : Profile) (now : Z) (c : Client) (db : Firestore) : Firestore :=
  {| metadata :=
       <[ u := mergeSwipeCount (dailySwipeCount c + 1) now (metadata db !! u) ]>
         (metadata db);
     likes :=
       <[ (u, profileId p) :=
            {| likedProfileId := profileId p; swipeAction := Like;
               swipeTimestamp := now |} ]> (likes db);
     publicLikes :=
       publicLikes db ++
         [ {| likerId := u; likedId := profileId p; likeTimestamp := now |} ];
     matches := matches db |}.



(** ** Sample clients *)

(** A ready client of [uid] whose only card is [p]. *)
Definition sampleClient (uid : string) (p : Profile) : Client :=
  {| userId := uid; connected := true; isLoading := false;
     profiles := [p]; currentProfileIndex := 0;
     swipedProfileIds := ∅; dailySwipeCount := 0;
     hasSubscriptionNFT := false; matchesList := [];
     matchNotification := None; error := NoError |}.

(** [uid] likes the profile with id [liked] at time [t]. *)
Definition likeEvent (uid liked : string) (t : Z) : SwipeEvent :=
  {| swipeClient := sampleClient uid {| profileId := liked; profileName := liked |};
     swipeChoice := Like; swipeTime := t |}.

End MatchMaker.

(* ================================================================== *)
(** * More of the three quota variants *)
(* ================================================================== *)

(** The rendering of the transactional limiter. *)
Module SwipeLimiterView.

Import SwipeLimiter.

(** [isLimitReached]: the value that disables the two swipe buttons.
    The counter is compared with [===], so the text "Unlimited" of a
    premium user is never equal to 0. *)
Definition isLimitReached (limit : Z) (s : UserStatus) : bool :=
  negb (isPremium s) &&
  match swipesRemaining limit s with
  | Some n => n =? 0
  | None => false
  end.

(** A click on a swipe button: nothing happens while it is disabled. *)
Definition clickSwipe (limit now : Z) (w : World) : World * option SwipeResult :=
  if isLimitReached limit (userStatus (client w)) then (w, None)
  else let (w', r) := handleSwipe limit now w in (w', Some r).

End SwipeLimiterView.

(** Sessions of the calendar-day variant that last longer than a day. *)
Module SwipeScreenDays.

Import SwipeScreen.

(** The listener and the reset effect until nothing is written any more:
    the effect runs after each snapshot, and its write brings one more
    snapshot. *)
Definition settle (zoneOffset : Z -> Z) (now : Z) (w : World) : World :=
  resetEffect zoneOffset now
    (onSnapshot now (resetEffect zoneOffset now (onSnapshot now w))).

(** The screen when it has just been mounted: [swipeData] holds its
    initial value until the first snapshot arrives, and [handleSwipe] does
    not wait for it. *)
Definition mount (w : World) : World :=
  let c := client w in
  {| store := store w;
     client :=
       {| connected := connected c; isAuthReady := isAuthReady c;
          swipeData := {| count := 0; dataIsPremium := false; lastReset := None |};
          currentProfile := 0; message := MsgNone; showModal := false;
          modalStep := StepLimit |} |}.

(** What happens on a screen, one thing at a time: it is mounted, the
    callback of the listener runs on a snapshot, the reset effect runs,
    the user swipes, the purchase completes.  A snapshot follows a write
    when it arrives, not at once, and the effect runs after a callback
    that has changed [lastReset]. *)
Inductive Act : Type :=
| Mount
| Snapshot (t : Z)
| Reset (t : Z)
| Swipe (direction : Direction)
| Mint (t : Z).

Definition act (zoneOffset : Z -> Z) (w : World) (a : Act) : World :=
  match a with
  | Mount => mount w
  | Snapshot t => onSnapshot t w
  | Reset t => resetEffect zoneOffset t w
  | Swipe direction => fst (handleSwipe direction w)
  | Mint t => handleMintOnBase t w
  end.

(** The acts of the screen that is followed, and those of any other
    screen of the user, whatever it shows, on the same document. *)
Inductive Event : Type :=
| Here (a : Act)
| Elsewhere (c' : Client) (a : Act).

Definition step (zoneOffset : Z -> Z) (w : World) (e : Event) : World :=
  match e with
  | Here a => act zoneOffset w a
  | Elsewhere c' a =>
      {| store := store (act zoneOffset {| store := store w; client := c' |} a);
         client := client w |}
  end.

Definition run (zoneOffset : Z -> Z) (es : list Event) (w : World) : World :=
  fold_left (step zoneOffset) es w.

(** No swipe of the session is refused. *)
Fixpoint neverRefused (zoneOffset : Z -> Z) (es : list Event) (w : World) : Prop :=
  match es with
  | [] => True
  | e :: es' =>
      match e with
      | Here (Swipe direction) => allowed (snd (handleSwipe direction w)) = true
      | _ => True
      end /\ neverRefused zoneOffset es' (step zoneOffset w e)
  end.

(** The document is premium. *)
Definition premiumStored (w : World) : Prop :=
  exists st, store w = Some st /\ isPremium st = true.

(** What holds from the first snapshot after the purchase on: the document
    is premium, and the screen shows a premium user or, when it has just
    been mounted, a count below the limit. *)
Definition premiumKept (w : World) : Prop :=
  connected (client w) = true /\ isAuthReady (client w) = true /\
  premiumStored w /\
  (dataIsPremium (swipeData (client w)) = true \/
   count (swipeData (client w)) < DAILY_SWIPE_LIMIT).

(** ** Sample sessions *)

Definition signedInClient (d : SwipeData) : Client :=
  {| connected := true; isAuthReady := true; swipeData := d;
     currentProfile := 0; message := MsgNone; showModal := false;
     modalStep := StepLimit |}.

Definition statusAt (n last : Z) : Status :=
  {| swipesToday := n; isPremium := false; lastResetDate := last |}.

Definition worldAt (n last : Z) : World :=
  {| store := Some (statusAt n last);
     client :=
       signedInClient
         {| count := n; dataIsPremium := false; lastReset := Some last |} |}.

(** Fifty swipes, one a minute, from 08:00 of the day that starts at 0. *)
Definition minuteSwipes : list (Direction * Z) :=
  map (fun k => (LIKE, 28800000 + Z.of_nat k * 60000)) (seq 0 50).

End SwipeScreenDays.

Module BaseMatchNewSamples.

Import BaseMatchNew.

Definition cards : list string := ["p1"; "p2"; "p3"]%string.

Definition statusWith (n day : Z) (liked : list string) : Status :=
  {| swipesToday := n; isPremium := false; lastResetDate := Some day;
     matches := Some liked; walletAddress := None;
     farcasterConnected := Some false |}.

Definition worldWith (st : Status) : World :=
  {| store := Some st;
     client :=
       {| hasDb := true; userStatus := st; profiles := cards;
          currentIndex := 0; isModalOpen := false;
          modalStep := LimitReached |} |}.

(** Calls of [handleSwipe] from several clients of one user (tabs,
    devices) that share the document: each call is served with the status
    that its client shows, and no snapshot arrives in between. *)
Fixpoint serveClients (clients : list Client) (doc : option Status)
  : list bool * option Status :=
  match clients with
  | [] => ([], doc)
  | c :: clients' =>
      let (w', r) := handleSwipe LIKE {| store := doc; client := c |} in
      let (obs, doc') := serveClients clients' (store w') in
      (allowed r :: obs, doc')
  end.

End BaseMatchNewSamples.

(* ================================================================== *)
(** * src/Basematch-new.jsx: the card, its buttons and the drag gesture *)
(* ================================================================== *)

Module BaseMatchNewCard.

Import BaseMatchNew.

(** The [message] state of [DatingSwipeScreen]; the timers that clear it
    are left out. *)
Inductive CardMessage : Type :=
| NoMessage
| LimitMessage
| SwipedMessage (direction : Direction) (profile : string).

(** The [cardPosition] state, by the statement that set it: the initial
    and the snapped-back [{x: 0, y: 0, rotate: 0}], the
    [{x: deltaX, y: 0, rotate: deltaX / 20}] of a drag, and the position
    off the screen after a swipe, [x] being the width of the window to the
    right or to the left. *)
Inductive CardPosition : Type :=
| Centered
| Dragged (deltaX : Z)
| ThrownOut (direction : Direction).

Record Card : Type := mkCard {
  message : CardMessage;
  cardPosition : CardPosition;
  isDragging : bool;
  startX : Z
}.

(** The component and the application around it. *)
Definition Screen : Type := (World * Card)%type.

(** The [profile] property: [profiles[currentIndex % profiles.length]]. *)
Definition currentProfile (w : World) : option string :=
  profiles (client w) !! (currentIndex (client w) `mod` length (profiles (client w)))%nat.

(** [!isPremium && swipesRemaining <= 0] *)
Definition limitReached (w : World) : bool :=
  negb (isPremium (userStatus (client w))) &&
  (swipesRemaining (userStatus (client w)) <=? 0).

Section Window.

(** [window.innerWidth] *)
Variable innerWidth : Z.

(** [cardPosition.x] *)
Definition cardX (p : CardPosition) : Z :=
  match p with
  | Centered => 0
  | Dragged deltaX => deltaX
  | ThrownOut LIKE => innerWidth
  | ThrownOut DISLIKE => - innerWidth
  end.

(** [handleSwipeClick(direction)]; without a profile the message cannot
    be built and the handler throws before it has set anything. *)
Definition handleSwipeClick (direction : Direction) (s : Screen) : Screen :=
  let (w, k) := s in
  if limitReached w then
    ({| store := store w; client := handleUpgrade LimitReached (client w) |},
     {| message := LimitMessage; cardPosition := cardPosition k;
        isDragging := isDragging k; startX := startX k |})
  else
    match currentProfile w with
    | None => s
    | Some profile =>
        (fst (handleSwipe direction w),
         {| message := SwipedMessage direction profile;
            cardPosition := ThrownOut direction;
            isDragging := isDragging k; startX := startX k |})
    end.

(** A click on one of the two buttons, which are rendered with
    [disabled={!isPremium && swipesRemaining <= 0}]: a disabled button
    does not call its handler. *)
Definition clickButton (direction : Direction) (s : Screen) : Screen :=
  if limitReached (fst s) then s else handleSwipeClick direction s.

(** [startDrag(clientX)] *)
Definition startDrag (clientX : Z) (s : Screen) : Screen :=
  let (w, k) := s in
  match currentProfile w with
  | None => s
  | Some _ =>
      if limitReached w then s
      else
        (w, {| message := NoMessage; cardPosition := cardPosition k;
               isDragging := true; startX := clientX |})
  end.

(** [onDrag(clientX)] *)
Definition onDrag (s : Screen) (clientX : Z) : Screen :=
  let (w, k) := s in
  if negb (isDragging k) then s
  else
    (w, {| message := message k;
           cardPosition := Dragged (clientX - startX k);
           isDragging := isDragging k; startX := startX k |}).

(** [endDrag()], with its [threshold] of 100. *)
Definition endDrag (s : Screen) : Screen :=
  let (w, k) := s in
  if negb (isDragging k) then s
  else
    let k1 :=
      {| message := message k; cardPosition := cardPosition k;
         isDragging := false; startX := startX k |} in
    if cardX (cardPosition k) >? 100 then handleSwipeClick LIKE (w, k1)
    else if cardX (cardPosition k) <? -100 then handleSwipeClick DISLIKE (w, k1)
    else
      (w, {| message := message k; cardPosition := Centered;
             isDragging := false; startX := startX k |}).

(** A gesture: the pointer goes down at [x0], moves through [moves] and
    goes up. *)
Definition drag (x0 : Z) (moves : list Z) (s : Screen) : Screen :=
  endDrag (fold_left onDrag moves (startDrag x0 s)).

End Window.

Definition restingCard : Card :=
  {| message := NoMessage; cardPosition := Centered; isDragging := false;
     startX := 0 |}.

End BaseMatchNewCard.

(* ================================================================== *)
(** * Likes and matches: loading the data, gender and purchases *)
(* ================================================================== *)

Module MatchMakerLoad.

Import MatchMaker.

(** An entry of [MOCK_PROFILES] with the [gender] that [loadData] filters
    on. *)
Record Card : Type := mkCard {
  cardProfile : Profile;
  cardGender : string
}.

Definition card (id name gender : string) : Card :=
  {| cardProfile := {| profileId := id; profileName := name |};
     cardGender := gender |}.

Definition MOCK_PROFILES : list Card :=
  [ card "profile_1" "Luna" "female";
    card "profile_2" "Kore" "male";
    card "profile_3" "Anya" "female";
    card "profile_4" "Zeta" "female";
    card "profile_5" "Nova" "male";
    card "profile_6" "Rian" "male";
    card "profile_7" "Tania" "female";
    card "profile_8" "Yoga" "male";
    card "profile_9" "Sari" "female";
    card "profile_10" "Aron" "male" ].

(** An entry of the [likesYouList] state. *)
Record LikedBy : Type := mkLikedBy {
  likedByCard : Card;
  likedByTime : Z
}.

(** The state of the component: the part that [handleSwipe] uses, and the
    three states that only the loader and the purchases use.  The messages
    that the handlers of this module put in the [error] state are not
    among the [ErrorMessage]s of [handleSwipe]; the result of a handler
    tells which message it set, and [error] keeps the last message of
    [handleSwipe]. *)
Record Session : Type := mkSession {
  client : Client;
  userGender : option string;
  hasPaidToViewLikes : bool;
  likesYouList : list LikedBy
}.

(** The state of a component that has just been mounted for [uid]. *)
Definition freshSession (uid : string) : Session :=
  {| client :=
       {| userId := uid; connected := true; isLoading := true;
          profiles := []; currentProfileIndex := 0;
          swipedProfileIds := ∅; dailySwipeCount := 0;
          hasSubscriptionNFT := false; matchesList := [];
          matchNotification := None; error := NoError |};
     userGender := None; hasPaidToViewLikes := false; likesYouList := [] |}.

(** A string in a condition: the empty string is falsy. *)
Definition truthy (s : string) : bool := negb (String.eqb s "").

(** The documents of the collection [users/{uid}/<name>], with their ids.
    Firestore returns them ordered by id; here they come in the order of
    [map_to_list]. *)
Definition docsOf {A : Type} (uid : string) (m : gmap (string * string) A)
  : list (string * A) :=
  (fun kv => (snd (fst kv), snd kv)) <$>
    filter (fun kv => fst (fst kv) = uid) (map_to_list m).

(** [MOCK_PROFILES.find(p => p.id === id)] *)
Definition findCard (id : string) : option Card :=
  List.find (fun p => String.eqb (profileId (cardProfile p)) id) MOCK_PROFILES.

(** [gender === 'male' ? 'female' : 'male'] *)
Definition targetGender (gender : string) : string :=
  if String.eqb gender "male" then "female" else "male".

(** The set of the [likedProfileId]s of my likes documents. *)
Definition mySwipes (uid : string) (db : Firestore) : gset string :=
  list_to_set ((fun kd => likedProfileId (snd kd)) <$> docsOf uid (likes db)).

(** The filter of step 3. *)
Definition unwipedProfiles (uid gender : string) (db : Firestore) : list Card :=
  List.filter
    (fun p =>
       negb (String.eqb (profileId (cardProfile p)) uid) &&
       negb (bool_decide (profileId (cardProfile p) ∈ mySwipes uid db)) &&
       String.eqb (cardGender p) (targetGender gender))
    MOCK_PROFILES.

(** Step 4: the public likes addressed to me whose liker is a card. *)
Definition likedList (uid : string) (db : Firestore) : list LikedBy :=
  omap
    (fun l =>
       match findCard (likerId l) with
       | Some c => Some {| likedByCard := c; likedByTime := likeTimestamp l |}
       | None => None
       end)
    (List.filter (fun l => String.eqb (likedId l) uid) (publicLikes db)).

(** Step 5: my match documents whose partner is a card. *)
Definition confirmedMatches (uid : string) (db : Firestore) : list MatchEntry :=
  omap
    (fun kd =>
       match findCard (partnerId (snd kd)) with
       | Some c =>
           Some {| entryId := profileId (cardProfile c);
                   entryName := profileName (cardProfile c);
                   entryMatchId := fst kd |}
       | None => None
       end)
    (docsOf uid (matches db)).

(** [setDoc(userDocRef, { userGender: gender }, { merge: true })] *)
Definition mergeGender (gender : string) (old : option Metadata) : Metadata :=
  {| docDailySwipeCount := old ≫= docDailySwipeCount;
     docLastSwipeReset := old ≫= docLastSwipeReset;
     docHasSubscriptionNFT := old ≫= docHasSubscriptionNFT;
     docHasPaidToViewLikes := old ≫= docHasPaidToViewLikes;
     docUserGender := Some gender |}.

Definition set_metadata (db : Firestore) (uid : string) (m : Metadata) : Firestore :=
  {| metadata := <[ uid := m ]> (metadata db); likes := likes db;
     publicLikes := publicLikes db; matches := matches db |}.

Inductive LoadResult : Type :=
| LoadIgnored
| AwaitGender
| Loaded.

Inductive PurchaseResult : Type :=
| PurchaseIgnored
| Purchased
| PurchaseFailed.

Section Zone.

(** The offset of the local time zone from UTC at an instant, in
    milliseconds. *)
Variable zoneOffset : Z -> Z.

(** [isNewDay(lastDate)] called at time [now]. *)
Definition isNewDay (now : Z) (lastDate : option Z) : bool :=
  match lastDate with
  | None => true
  | Some last =>
      negb (SwipeScreen.dayOf zoneOffset last =? SwipeScreen.dayOf zoneOffset now)
  end.

(** The effect that loads the data: [loadData()] at the time [now]. *)
Definition loadData (now : Z) (db : Firestore) (s : Session)
  : Firestore * Session * LoadResult :=
  let c := client s in
  if negb (connected c) then (db, s, LoadIgnored)
  else
    let uid := userId c in
    let userData := metadata db !! uid in
    let lastReset := userData ≫= docLastSwipeReset in
    let newDay := isNewDay now lastReset in
    let currentSwipeCount :=
      if newDay then 0 else default 0 (userData ≫= docDailySwipeCount) in
    let db1 :=
      if newDay then set_metadata db uid (mergeSwipeCount 0 now userData)
      else db in
    let nft := default false (userData ≫= docHasSubscriptionNFT) in
    let paid := default false (userData ≫= docHasPaidToViewLikes) in
    let gender :=
      match userData ≫= docUserGender with
      | Some g => if truthy g then Some g else None
      | None => None
      end in
    match gender with
    | None =>
        (db1,
         {| client :=
              {| userId := uid; connected := connected c; isLoading := false;
                 profiles := profiles c;
                 currentProfileIndex := currentProfileIndex c;
                 swipedProfileIds := swipedProfileIds c;
                 dailySwipeCount := currentSwipeCount;
                 hasSubscriptionNFT := nft;
                 matchesList := matchesList c;
                 matchNotification := matchNotification c;
                 error := error c |};
            userGender := None; hasPaidToViewLikes := paid;
            likesYouList := likesYouList s |},
         AwaitGender)
    | Some g =>
        (db1,
         {| client :=
              {| userId := uid; connected := connected c; isLoading := false;
                 profiles := cardProfile <$> unwipedProfiles uid g db1;
                 currentProfileIndex := currentProfileIndex c;
                 swipedProfileIds := mySwipes uid db1;
                 dailySwipeCount := currentSwipeCount;
                 hasSubscriptionNFT := nft;
                 matchesList := confirmedMatches uid db1;
                 matchNotification := matchNotification c;
                 error := error c |};
            userGender := Some g; hasPaidToViewLikes := paid;
            likesYouList := likedList uid db1 |},
         Loaded)
    end.

(** Mounting the component for [uid]: the effect runs on the fresh
    state. *)
Definition mount (uid : string) (now : Z) (db : Firestore)
  : Firestore * Session * LoadResult :=
  loadData now db (freshSession uid).

End Zone.

(** [handleGenderSelect(gender)]; the loading flag stays up for the
    effect that follows. *)
Definition handleGenderSelect (gender : string) (db : Firestore) (s : Session)
  : Firestore * Session :=
  let c := client s in
  if negb (connected c) then (db, s)
  else
    (set_metadata db (userId c) (mergeGender gender (metadata db !! userId c)),
     {| client :=
          {| userId := userId c; connected := connected c; isLoading := true;
             profiles := profiles c;
             currentProfileIndex := currentProfileIndex c;
             swipedProfileIds := swipedProfileIds c;
             dailySwipeCount := dailySwipeCount c;
             hasSubscriptionNFT := hasSubscriptionNFT c;
             matchesList := matchesList c;
             matchNotification := matchNotification c;
             error := error c |};
        userGender := Some gender;
        hasPaidToViewLikes := hasPaidToViewLikes s;
        likesYouList := likesYouList s |}).

(** The button of the gender screen, shown while [userGender] is [null]:
    the handler, then the loading effect, which runs again because
    [userGender] has changed. *)
Definition chooseGender (zoneOffset : Z -> Z) (gender : string) (now : Z)
    (db : Firestore) (s : Session) : Firestore * Session * LoadResult :=
  let (db1, s1) := handleGenderSelect gender db s in
  loadData zoneOffset now db1 s1.

Definition set_loaded (s : Session) (nft paid : bool) : Session :=
  let c := client s in
  {| client :=
       {| userId := userId c; connected := connected c; isLoading := false;
          profiles := profiles c;
          currentProfileIndex := currentProfileIndex c;
          swipedProfileIds := swipedProfileIds c;
          dailySwipeCount := dailySwipeCount c;
          hasSubscriptionNFT := nft;
          matchesList := matchesList c;
          matchNotification := matchNotification c;
          error := error c |};
     userGender := userGender s; hasPaidToViewLikes := paid;
     likesYouList := likesYouList s |}.

(** [handleMockNFTPurchase()]: [updateDoc] fails on a missing document. *)
Definition handleMockNFTPurchase (db : Firestore) (s : Session)
  : Firestore * Session * PurchaseResult :=
  let c := client s in
  if negb (connected c) then (db, s, PurchaseIgnored)
  else
    match metadata db !! userId c with
    | Some m =>
        (set_metadata db (userId c)
           {| docDailySwipeCount := docDailySwipeCount m;
              docLastSwipeReset := docLastSwipeReset m;
              docHasSubscriptionNFT := Some true;
              docHasPaidToViewLikes := docHasPaidToViewLikes m;
              docUserGender := docUserGender m |},
         set_loaded s true (hasPaidToViewLikes s), Purchased)
    | None =>
        (db, set_loaded s (hasSubscriptionNFT c) (hasPaidToViewLikes s),
         PurchaseFailed)
    end.

(** [handleMockPaymentForLikes()] *)
Definition handleMockPaymentForLikes (db : Firestore) (s : Session)
  : Firestore * Session * PurchaseResult :=
  let c := client s in
  if negb (connected c) then (db, s, PurchaseIgnored)
  else
    match metadata db !! userId c with
    | Some m =>
        (set_metadata db (userId c)
           {| docDailySwipeCount := docDailySwipeCount m;
              docLastSwipeReset := docLastSwipeReset m;
              docHasSubscriptionNFT := docHasSubscriptionNFT m;
              docHasPaidToViewLikes := Some true;
              docUserGender := docUserGender m |},
         set_loaded s (hasSubscriptionNFT c) true, Purchased)
    | None =>
        (db, set_loaded s (hasSubscriptionNFT c) (hasPaidToViewLikes s),
         PurchaseFailed)
    end.

(** ** What the components do to the database, one call after another *)

(** The two buttons of the gender screen. *)
Inductive Gender : Type := Male | Female.

Definition genderName (g : Gender) : string :=
  match g with Male => "male" | Female => "female" end.

(** A call of a handler, or a run of the loading effect. *)
Inductive Request : Type :=
| ReqSwipe (action : Action) (t : Z)
| ReqLoad (t : Z)
| ReqGender (g : Gender)
| ReqBuyNFT
| ReqPayForLikes.

(** [handleSwipe] reads and sets the states of the client only. *)
Definition set_client (s : Session) (c : Client) : Session :=
  {| client := c; userGender := userGender s;
     hasPaidToViewLikes := hasPaidToViewLikes s;
     likesYouList := likesYouList s |}.

(** One request of the component in the state [s]. *)
Definition serve (zoneOffset : Z -> Z) (r : Request) (db : Firestore) (s : Session)
  : Firestore * Session :=
  match r with
  | ReqSwipe action t =>
      let '(db', c', _) := handleSwipe action t db (client s) in
      (db', set_client s c')
  | ReqLoad t => fst (loadData zoneOffset t db s)
  | ReqGender g => handleGenderSelect (genderName g) db s
  | ReqBuyNFT => fst (handleMockNFTPurchase db s)
  | ReqPayForLikes => fst (handleMockPaymentForLikes db s)
  end.

(** Requests of any components, of any users and in any state, one after
    the other on the shared database. *)
Definition applyOp (zoneOffset : Z -> Z) (db : Firestore) (op : Session * Request)
  : Firestore :=
  fst (serve zoneOffset (snd op) db (fst op)).

Definition applyOps (zoneOffset : Z -> Z) (ops : list (Session * Request))
    (db : Firestore) : Firestore :=
  fold_left (applyOp zoneOffset) ops db.

(** What happens next to one component and the database: a request of its
    own, a reload of the page (the component is mounted again for the same
    user and the effect runs), or a request of another component. *)
Inductive Turn : Type :=
| Mine (r : Request)
| Remount (t : Z)
| Theirs (s' : Session) (r : Request).

Definition turn (zoneOffset : Z -> Z) (st : Firestore * Session) (tn : Turn)
  : Firestore * Session :=
  match tn with
  | Mine r => serve zoneOffset r (fst st) (snd st)
  | Remount t => fst (mount zoneOffset (userId (client (snd st))) t (fst st))
  | Theirs s' r => (applyOp zoneOffset (fst st) (s', r), snd st)
  end.

Definition runTurns (zoneOffset : Z -> Z) (turns : list Turn)
    (st : Firestore * Session) : Firestore * Session :=
  fold_left (turn zoneOffset) turns st.

(** No swipe of the component is refused for the limit in the course of
    the turns. *)
Fixpoint neverLimited (zoneOffset : Z -> Z) (turns : list Turn)
    (st : Firestore * Session) : Prop :=
  match turns with
  | [] => True
  | tn :: rest =>
      match tn with
      | Mine (ReqSwipe action t) =>
          snd (handleSwipe action t (fst st) (client (snd st))) <> Limited
      | _ => True
      end /\ neverLimited zoneOffset rest (turn zoneOffset st tn)
  end.

(** ** Samples *)

(** A database in which [uid] has chosen [gender] today. *)
Definition dbWithGender (uid gender : string) (t : Z) : Firestore :=
  set_metadata emptyFirestore uid
    {| docDailySwipeCount := Some 0; docLastSwipeReset := Some t;
       docHasSubscriptionNFT := None; docHasPaidToViewLikes := None;
       docUserGender := Some gender |}.

Definition luna : Profile := {| profileId := "profile_1"; profileName := "Luna" |}.

Definition kore : Profile := {| profileId := "profile_2"; profileName := "Kore" |}.

(** The user [uid], ready on the card [p], likes it at the time [t]. *)
Definition likeOf (uid : string) (p : Profile) (t : Z) : SwipeEvent :=
  {| swipeClient := sampleClient uid p; swipeChoice := Like; swipeTime := t |}.

(** ** The ids that [handleSwipe] can see *)





(** The new document of a user keeps the subscription and the chosen
    gender of the old one, if there was one. *)
Definition keepsProfile (old new : option Metadata) : Prop :=
  forall m, old = Some m ->
    exists m', new = Some m' /\
      (docHasSubscriptionNFT m = Some true -> docHasSubscriptionNFT m' = Some true) /\
      (forall g, docUserGender m = Some g -> g <> ""%string ->
         exists g', docUserGender m' = Some g' /\ g' <> ""%string).

(** The likes document of the user [u] for the card [id] is there. *)
Definition swipeStored (db : Firestore) (u id : string) : Prop :=
  exists d, likes db !! (u, id) = Some d /\ likedProfileId d = id.

(** The component of [u] shows the subscription and the document of [u]
    holds it. *)
Definition subscribed (u : string) (st : Firestore * Session) : Prop :=
  userId (client (snd st)) = u /\
  hasSubscriptionNFT (client (snd st)) = true /\
  exists m, metadata (fst st) !! u = Some m /\ docHasSubscriptionNFT m = Some true.

End MatchMakerLoad.

(* ================================================================== *)
(** * The chat application: likes open chats, messages are appended *)
(* ================================================================== *)

Module ChatApp.

(** A document of [users/{fid}/profiles] with its id; the handlers read
    [id] and [name] only. *)
Record Profile : Type := mkProfile {
  profileId : string;
  profileName : string
}.

Inductive Sender : Type := system | me.

(** A message; the one written by [handleLike] has no [timestamp]. *)
Record Message : Type := mkMessage {
  sender : Sender;
  text : string;
  timestamp : option Z
}.

(** A document of [users/{fid}/chats]; [handleSendMessage] reads
    [messages || []], so the field may be missing. *)
Record ChatDoc : Type := mkChatDoc {
  user : string;
  chatProfileId : string;
  lastActive : Z;
  messages : option (list Message)
}.

Inductive Tab : Type := TabMatch | TabChat | TabSettings.

(** The state of [App] that the handlers read and write.  [connected]
    stands for [db && fid]; [currentProfileIndex] is [None] when the number
    is [NaN]; [chatInput] is the state and the ref, which
    [setChatInputStable] keeps equal. *)
Record Client : Type := mkClient {
  connected : bool;
  activeTab : Tab;
  profiles : list Profile;
  currentProfileIndex : option nat;
  selectedChatId : option string;
  chatInput : string;
  isMatchModalOpen : bool;
  matchedUserName : string;
  newChatId : option string
}.

(** The chats collection of the signed-in user, by document id, and the
    client. *)
Record World : Type := mkWorld {
  chats : gmap string ChatDoc;
  client : Client
}.

(** A string in a condition: the empty string is falsy. *)
Definition truthy (s : string) : bool := negb (String.eqb s "").

(** [profiles.length > 0 ? profiles[currentProfileIndex % profiles.length] : null] *)
Definition currentProfile (c : Client) : option Profile :=
  match profiles c with
  | [] => None
  | _ =>
      match currentProfileIndex c with
      | Some i => profiles c !! (i mod length (profiles c))%nat
      | None => None
      end
  end.

(** [prev => (prev + 1) % profiles.length]: [NaN] for an empty list. *)
Definition nextIndex (c : Client) : option nat :=
  match currentProfileIndex c with
  | Some prev =>
      match length (profiles c) with
      | O => None
      | n => Some ((prev + 1) mod n)%nat
      end
  | None => None
  end.

Definition matchGreeting (name : string) : Message :=
  {| sender := system;
     text := "You matched with " +:+ name +:+ "! Say hi to start chatting.";
     timestamp := None |}.

(** [handleLike()]: the [setDoc] gives all the four fields of the chat
    document, so the merge replaces the document. *)
Definition handleLike (now : Z) (w : World) : World :=
  let c := client w in
  match currentProfile c with
  | None => w
  | Some p =>
      if negb (connected c) then w
      else
        let chatId := "chat_" +:+ profileId p in
        {| chats :=
             <[ chatId :=
                  {| user := profileName p; chatProfileId := profileId p;
                     lastActive := now;
                     messages := Some [matchGreeting (profileName p)] |} ]>
               (chats w);
           client :=
             {| connected := connected c; activeTab := activeTab c;
                profiles := profiles c;
                currentProfileIndex := nextIndex c;
                selectedChatId := selectedChatId c;
                chatInput := chatInput c;
                isMatchModalOpen := true;
                matchedUserName := profileName p;
                newChatId := Some chatId |} |}
  end.

(** [handlePass()] *)
Definition handlePass (w : World) : World :=
  let c := client w in
  {| chats := chats w;
     client :=
       {| connected := connected c; activeTab := activeTab c;
          profiles := profiles c;
          currentProfileIndex := nextIndex c;
          selectedChatId := selectedChatId c;
          chatInput := chatInput c;
          isMatchModalOpen := isMatchModalOpen c;
          matchedUserName := matchedUserName c;
          newChatId := newChatId c |} |}.

(** [handleGoToChat()] *)
Definition handleGoToChat (w : World) : World :=
  let c := client w in
  {| chats := chats w;
     client :=
       {| connected := connected c; activeTab := TabChat;
          profiles := profiles c;
          currentProfileIndex := currentProfileIndex c;
          selectedChatId :=
            match newChatId c with
            | Some id => if truthy id then Some id else selectedChatId c
            | None => selectedChatId c
            end;
          chatInput := chatInput c;
          isMatchModalOpen := false;
          matchedUserName := matchedUserName c;
          newChatId := newChatId c |} |}.

(** [handleStayOnMatch()] *)
Definition handleStayOnMatch (w : World) : World :=
  let c := client w in
  {| chats := chats w;
     client :=
       {| connected := connected c; activeTab := activeTab c;
          profiles := profiles c;
          currentProfileIndex := currentProfileIndex c;
          selectedChatId := selectedChatId c;
          chatInput := chatInput c;
          isMatchModalOpen := false;
          matchedUserName := "";
          newChatId := None |} |}.

(** [setChatInputStable(newValue)] *)
Definition setChatInputStable (newValue : string) (w : World) : World :=
  let c := client w in
  {| chats := chats w;
     client :=
       {| connected := connected c; activeTab := activeTab c;
          profiles := profiles c;
          currentProfileIndex := currentProfileIndex c;
          selectedChatId := selectedChatId c;
          chatInput := newValue;
          isMatchModalOpen := isMatchModalOpen c;
          matchedUserName := matchedUserName c;
          newChatId := newChatId c |} |}.

Section Trim.

(** [String.prototype.trim] *)
Variable trim : string -> string.

(** [handleSendMessage()] at the time [now]. *)
Definition handleSendMessage (now : Z) (w : World) : World :=
  let c := client w in
  let messageText := trim (chatInput c) in
  match selectedChatId c with
  | None => w
  | Some chatId =>
      if negb (truthy messageText) || negb (truthy chatId) || negb (connected c)
      then w
      else
        match chats w !! chatId with
        | Some d =>
            let currentMessages := default [] (messages d) in
            let newMessage :=
              {| sender := me; text := messageText; timestamp := Some now |} in
            setChatInputStable ""
              {| chats :=
                   <[ chatId :=
                        {| user := user d; chatProfileId := chatProfileId d;
                           lastActive := now;
                           messages := Some (currentMessages ++ [newMessage]) |} ]>
                     (chats w);
                 client := c |}
        | None => w
        end
  end.

(** Typing a text into the input and sending it at the time [t]. *)
Definition typeAndSend (w : World) (m : string * Z) : World :=
  handleSendMessage (snd m) (setChatInputStable (fst m) w).

Definition conversation (ms : list (string * Z)) (w : World) : World :=
  fold_left typeAndSend ms w.

(** The message that a typed text becomes. *)
Definition sent (m : string * Z) : Message :=
  {| sender := me; text := trim (fst m); timestamp := Some (snd m) |}.

End Trim.

(** One swipe of the card on top: to the right at a time, or to the
    left. *)
Inductive Swipe : Type :=
| SwipeRight (now : Z)
| SwipeLeft.

Definition swipe (w : World) (s : Swipe) : World :=
  match s with
  | SwipeRight now => handleLike now w
  | SwipeLeft => handlePass w
  end.

Definition swipes (ss : list Swipe) (w : World) : World := fold_left swipe ss w.

(** ** Samples *)

(** Removes the spaces at both ends, as [trim] does on texts whose only
    white space is the space character. *)
Fixpoint dropSpaces (s : string) : string :=
  match s with
  | String a s' => if Ascii.eqb a Ascii.Space then dropSpaces s' else s
  | EmptyString => s
  end.

Fixpoint reverse (s acc : string) : string :=
  match s with
  | EmptyString => acc
  | String a s' => reverse s' (String a acc)
  end.

Definition trimSpaces (s : string) : string :=
  reverse (dropSpaces (reverse (dropSpaces s) "")) "".

Definition deck : list Profile :=
  [ {| profileId := "profile_0"; profileName := "Alexander R." |};
    {| profileId := "profile_1"; profileName := "Samantha L." |};
    {| profileId := "profile_2"; profileName := "Michael B." |} ].

Definition signedIn : Client :=
  {| connected := true; activeTab := TabMatch; profiles := deck;
     currentProfileIndex := Some 0%nat; selectedChatId := None;
     chatInput := ""; isMatchModalOpen := false; matchedUserName := "";
     newChatId := None |}.

Definition startWorld : World := {| chats := ∅; client := signedIn |}.

(** Alexander was liked and two messages were sent to him. *)
Definition chattingWorld : World :=
  conversation trimSpaces [("hello", 20); (" are you there? ", 30)]
    (handleGoToChat (handleLike 10 startWorld)).

End ChatApp.

(* ================================================================== *)
(** * Fetching with retries *)
(* ================================================================== *)

Module Retry.

(** What [fetch] hands back, as far as the callers look at it.  [json] is
    what [response.json()] and the path
    [candidates?.[0]?.content?.parts?.[0]?.text] give: [None] when the
    body cannot be read as an object, [Some None] when the path leads
    nowhere, [Some (Some t)] when it leads to the text [t]. *)
Record Response : Type := mkResponse {
  ok : bool;
  status : Z;
  json : option (option string)
}.

(** One call of [fetch]: it resolves with a response or it rejects. *)
Inductive FetchOutcome : Type :=
| Resolved (r : Response)
| Rejected (reason : string).

(** What the [catch] block holds: the error thrown for a response that is
    not [ok], or the rejection of [fetch]. *)
Inductive FetchError : Type :=
| HttpError (status : Z)
| NetworkError (reason : string).

(** How the call ends: [return response], [throw error], or the end of the
    function body, which returns [undefined]. *)
Inductive Ending : Type :=
| Returned (r : Response)
| Thrown (e : FetchError)
| ReturnedUndefined.

(** The ending, the number of calls of [fetch] made, and the milliseconds
    spent in the delays. *)
Record Run : Type := mkRun {
  ending : Ending;
  calls : nat;
  waited : Z
}.

Definition errorOf (o : FetchOutcome) : option FetchError :=
  match o with
  | Resolved r => if ok r then None else Some (HttpError (status r))
  | Rejected reason => Some (NetworkError reason)
  end.

(** The [for] loop: [fetch k] is the outcome of the call number [k], and
    [remaining] is [retries - i], so that [i < retries] reads
    [remaining <> 0]. *)
Fixpoint attempts (fetch : nat -> FetchOutcome) (retries remaining i : nat)
    (waited : Z) : Run :=
  match remaining with
  | O => {| ending := ReturnedUndefined; calls := i; waited := waited |}
  | S remaining' =>
      match fetch i with
      | Resolved r =>
          if ok r then {| ending := Returned r; calls := S i; waited := waited |}
          else if (i =? retries - 1)%nat then
            {| ending := Thrown (HttpError (status r)); calls := S i;
               waited := waited |}
          else attempts fetch retries remaining' (S i) (waited + 2 ^ Z.of_nat i * 1000)
      | Rejected reason =>
          if (i =? retries - 1)%nat then
            {| ending := Thrown (NetworkError reason); calls := S i;
               waited := waited |}
          else attempts fetch retries remaining' (S i) (waited + 2 ^ Z.of_nat i * 1000)
      end
  end.

(** [fetchWithRetry(url, options, retries)], for a number of retries that
    is a natural number (3 when the argument is left out). *)
Definition fetchWithRetry (fetch : nat -> FetchOutcome) (retries : nat) : Run :=
  attempts fetch retries retries 0 0.

(** The first [n] calls all fail. *)
Definition allFail (fetch : nat -> FetchOutcome) (n : nat) : Prop :=
  forall j, (j < n)%nat -> errorOf (fetch j) <> None.

(** ** Sample servers *)

Definition goodResponse : Response :=
  {| ok := true; status := 200; json := Some (Some "Be yourself.") |}.

(** A server that answers 503 twice and then 200. *)
Definition flakyServer (k : nat) : FetchOutcome :=
  if (k <? 2)%nat then Resolved {| ok := false; status := 503; json := None |}
  else Resolved goodResponse.

(** A network that is down. *)
Definition deadNetwork (k : nat) : FetchOutcome := Rejected "Failed to fetch".

End Retry.

(* ================================================================== *)
(** * The advisor: one question to the language model *)
(* ================================================================== *)

Module Advisor.

Import Retry.

(** The three states of [App] that [handleChatbotSubmit] writes. *)
Record Chatbot : Type := mkChatbot {
  chatbotQuery : string;
  chatbotResponse : string;
  isChatbotLoading : bool
}.

Definition promptPrefix : string :=
  "You are a helpful and supportive dating and social advisor for the 'BaseMatch' app. Provide a friendly and concise answer (max 3 sentences) to the user's question: ".

Definition apology : string :=
  "Sorry, I couldn't process that request. Please try again with another question.".

Definition connectionError : string :=
  "An error occurred while connecting to the AI advisor. Please try again.".

Section Trim.

(** [String.prototype.trim] *)
Variable trim : string -> string.

(** The server: what the call number [k] of [fetch] with a prompt gives. *)
Variable server : string -> nat -> FetchOutcome.

(** The text that [setChatbotResponse] receives after the call. *)
Definition answerOf (run : Run) : string :=
  match ending run with
  | Returned response =>
      match json response with
      | Some (Some text) => if String.eqb text "" then apology else text
      | Some None => apology
      | None => connectionError
      end
  | Thrown _ => connectionError
  | ReturnedUndefined => connectionError
  end.

(** [handleChatbotSubmit()]: the state afterwards, and the run of
    [fetchWithRetry], made with the default of 3 retries, if there was
    one. *)
Definition handleChatbotSubmit (s : Chatbot) : Chatbot * option Run :=
  if String.eqb (trim (chatbotQuery s)) "" then (s, None)
  else
    let userPrompt := promptPrefix +:+ trim (chatbotQuery s) in
    let run := fetchWithRetry (server userPrompt) 3 in
    ({| chatbotQuery := ""; chatbotResponse := answerOf run;
        isChatbotLoading := false |},
     Some run).

End Trim.

(** A server that repeats the question, from the third call on. *)
Definition echoServer (prompt : string) (k : nat) : FetchOutcome :=
  if (k <? 2)%nat then Rejected "Failed to fetch"
  else Resolved {| ok := true; status := 200; json := Some (Some prompt) |}.

End Advisor.

(* ================================================================== *)
(** * Utilities: the WAV container and the document id of the application *)
(* ================================================================== *)

Module WavEncoding.

(** A [DataView] over an [ArrayBuffer] is the list of its bytes, each in
    [0, 256). *)

(** [view.setUint8(byteOffset, value)]: [None] stands for the
    [RangeError] of a write outside the buffer. *)
Definition setUint8 (byteOffset : nat) (value : Z) (view : list Z) : option (list Z) :=
  if (byteOffset <? length view)%nat
  then Some (<[ byteOffset := value mod 256 ]> view)
  else None.

(** [view.setUint16(byteOffset, value, true)]: little-endian. *)
Definition setUint16 (byteOffset : nat) (value : Z) (view : list Z) : option (list Z) :=
  if (byteOffset + 2 <=? length view)%nat
  then Some (<[ (byteOffset + 1)%nat := (value / 256) mod 256 ]>
              (<[ byteOffset := value mod 256 ]> view))
  else None.

(** [view.setUint32(byteOffset, value, true)]: little-endian. *)
Definition setUint32 (byteOffset : nat) (value : Z) (view : list Z) : option (list Z) :=
  if (byteOffset + 4 <=? length view)%nat
  then Some (<[ (byteOffset + 3)%nat := (value / 16777216) mod 256 ]>
              (<[ (byteOffset + 2)%nat := (value / 65536) mod 256 ]>
                (<[ (byteOffset + 1)%nat := (value / 256) mod 256 ]>
                  (<[ byteOffset := value mod 256 ]> view))))
  else None.

(** [for (let i = 0; i < n; i++) view.setUint8(offset + i, values[i])],
    from [i] on: the loop of [writeString] and the loop that copies the
    samples. *)
Fixpoint writeLoop (offset i : nat) (values : list Z) (view : list Z) : option (list Z) :=
  match values with
  | [] => Some view
  | v :: values' =>
      match setUint8 (offset + i) v view with
      | Some view' => writeLoop offset (S i) values' view'
      | None => None
      end
  end.

(** [str.charCodeAt(i)] for every [i]. *)
Definition charCodes (str : string) : list Z :=
  map (fun a => Z.of_nat (Ascii.nat_of_ascii a)) (String.list_ascii_of_string str).

(** The view and the running [offset]. *)
Definition Writer : Type := (list Z * nat)%type.

Definition writeString (str : string) (w : Writer) : option Writer :=
  view ← writeLoop (snd w) 0 (charCodes str) (fst w);
  Some (view, (snd w + String.length str)%nat).

(** [view.setUint32(offset, value, true); offset += 4;] *)
Definition putUint32 (value : Z) (w : Writer) : option Writer :=
  view ← setUint32 (snd w) value (fst w);
  Some (view, (snd w + 4)%nat).

(** [view.setUint16(offset, value, true); offset += 2;] *)
Definition putUint16 (value : Z) (w : Writer) : option Writer :=
  view ← setUint16 (snd w) value (fst w);
  Some (view, (snd w + 2)%nat).

(** [pcmToWav(pcm16, sampleRate)]: [pcmData] holds the bytes of
    [pcm16.buffer]; the result is the content of the [Blob]. *)
Definition pcmToWav (pcmData : list Z) (sampleRate : Z) : option (list Z) :=
  let numChannels := 1 in
  let bitDepth := 16 in
  let bytesPerSample := bitDepth / 8 in
  let blockAlign := numChannels * bytesPerSample in
  let byteRate := sampleRate * blockAlign in
  let dataSize := length pcmData in
  let buffer : list Z := replicate (44 + dataSize) 0 in
  w ← writeString "RIFF" (buffer, 0%nat);
  w ← putUint32 (36 + Z.of_nat dataSize) w;
  w ← writeString "WAVE" w;
  w ← writeString "fmt " w;
  w ← putUint32 16 w;
  w ← putUint16 1 w;
  w ← putUint16 numChannels w;
  w ← putUint32 sampleRate w;
  w ← putUint32 byteRate w;
  w ← putUint16 blockAlign w;
  w ← putUint16 bitDepth w;
  w ← writeString "data" w;
  w ← putUint32 (Z.of_nat dataSize) w;
  writeLoop (snd w) 0 pcmData (fst w).

(** ** Reading a WAV file back *)

(** [view.getUint16(byteOffset, true)] and [view.getUint32(byteOffset, true)]. *)
Definition getUint16 (byteOffset : nat) (view : list Z) : option Z :=
  b0 ← view !! byteOffset;
  b1 ← view !! (byteOffset + 1)%nat;
  Some (b0 + 256 * b1).

Definition getUint32 (byteOffset : nat) (view : list Z) : option Z :=
  b0 ← view !! byteOffset;
  b1 ← view !! (byteOffset + 1)%nat;
  b2 ← view !! (byteOffset + 2)%nat;
  b3 ← view !! (byteOffset + 3)%nat;
  Some (b0 + 256 * b1 + 65536 * b2 + 16777216 * b3).

(** The four characters at an offset. *)
Definition getTag (byteOffset : nat) (view : list Z) : list Z :=
  take 4 (drop byteOffset view).

(** The fields of the canonical 44-byte header. *)
Record Header : Type := mkHeader {
  riffTag : list Z;
  riffSize : option Z;
  waveTag : list Z;
  fmtTag : list Z;
  fmtSize : option Z;
  audioFormat : option Z;
  channels : option Z;
  rate : option Z;
  bytesPerSecond : option Z;
  frameSize : option Z;
  bitsPerSample : option Z;
  dataTag : list Z;
  dataLength : option Z
}.

Definition readHeader (view : list Z) : Header :=
  {| riffTag := getTag 0 view;
     riffSize := getUint32 4 view;
     waveTag := getTag 8 view;
     fmtTag := getTag 12 view;
     fmtSize := getUint32 16 view;
     audioFormat := getUint16 20 view;
     channels := getUint16 22 view;
     rate := getUint32 24 view;
     bytesPerSecond := getUint32 28 view;
     frameSize := getUint16 32 view;
     bitsPerSample := getUint16 34 view;
     dataTag := getTag 36 view;
     dataLength := getUint32 40 view |}.

Definition readData (view : list Z) : list Z := drop 44 view.

Definition isByte (b : Z) : Prop := 0 <= b < 256.

(** ** The layout that [pcmToWav] is shown to produce *)

Definition littleEndian16 (v : Z) : list Z := [v mod 256; (v / 256) mod 256].

Definition littleEndian32 (v : Z) : list Z :=
  [v mod 256; (v / 256) mod 256; (v / 65536) mod 256; (v / 16777216) mod 256].

Definition bytesOf (values : list Z) : list Z := map (fun v => v mod 256) values.

Definition wavHeader (sampleRate : Z) (dataSize : nat) : list Z :=
  bytesOf (charCodes "RIFF") ++ littleEndian32 (36 + Z.of_nat dataSize) ++
  bytesOf (charCodes "WAVE") ++
  bytesOf (charCodes "fmt ") ++ littleEndian32 16 ++ littleEndian16 1 ++
  littleEndian16 1 ++ littleEndian32 sampleRate ++
  littleEndian32 (sampleRate * (1 * (16 / 8))) ++
  littleEndian16 (1 * (16 / 8)) ++ littleEndian16 16 ++
  bytesOf (charCodes "data") ++ littleEndian32 (Z.of_nat dataSize).

(** A few bytes of data, as a sample. *)
Definition sampleData : list Z := [0; 1; 255; 128; 7; 200].

End WavEncoding.

Module DocumentPath.

Definition slash : Ascii.ascii := Ascii.ascii_of_nat 47.
Definition underscore : Ascii.ascii := Ascii.ascii_of_nat 95.

(** [id.replace(/\//g, '__')]: [getSafeAppId], and [safeAppId] of the
    variant that resets on a new calendar day. *)
Fixpoint getSafeAppId (id : string) : string :=
  match id with
  | EmptyString => EmptyString
  | String a id' =>
      if Ascii.eqb a slash
      then String underscore (String underscore (getSafeAppId id'))
      else String a (getSafeAppId id')
  end.

Fixpoint hasSlash (s : string) : bool :=
  match s with
  | EmptyString => false
  | String a s' => Ascii.eqb a slash || hasSlash s'
  end.

Fixpoint countSlashes (s : string) : nat :=
  match s with
  | EmptyString => 0
  | String a s' => (if Ascii.eqb a slash then 1 else 0) + countSlashes s'
  end.

End DocumentPath.

(* ================================================================== *)
(** * Properties of the transactional limiter *)
(* ================================================================== *)

Section SwipeLimiterFacts.

Import SwipeLimiter.

(** The transaction never lets the stored count pass the limit and adds
    one exactly when it writes. *)
Lemma swipeTransaction_spec limit now d tx :
  swipeTransaction limit now (Some d) = Some tx ->
  isPremium (after tx) = isPremium d /\
  ((updated tx = true /\ swipeCount d < limit /\
    returned tx = swipeCount d + 1 /\
    after tx = set_count_date (swipeCount d + 1) now d)
   \/
   (updated tx = false /\ limit <= swipeCount d /\
    returned tx = limit /\ after tx = d)).
Proof.
  unfold swipeTransaction. intros H.
  destruct (Z.geb_spec (swipeCount d) limit); inversion H; subst; simpl.
  - split; [reflexivity | right]. repeat split; lia.
  - split; [reflexivity | left]. repeat split; lia.
Qed.

(** The handler changes the document only through its transaction. *)
Lemma handleSwipe_store limit now w w' r :
  handleSwipe limit now w = (w', r) ->
  wroteDocument r = false -> store w' = store w.
Proof.
  unfold handleSwipe. intros H Hr.
  destruct (negb (connected (client w)) || isLoading (client w)).
  { inversion H; subst; reflexivity. }
  destruct (isPremium (userStatus (client w))).
  { inversion H; subst; reflexivity. }
  destruct (swipeCount (userStatus (client w)) >=? limit).
  { inversion H; subst; reflexivity. }
  destruct (swipeTransaction limit now (store w)) as [tx|] eqn:Htx.
  - inversion H; subst; simpl in *.
    destruct (store w) as [d|] eqn:Hd; [|discriminate].
    destruct (swipeTransaction_spec _ _ _ _ Htx) as [_ [[Hu _]|[_ [_ [_ Ha]]]]].
    + congruence.
    + rewrite Ha. reflexivity.
  - inversion H; subst; reflexivity.
Qed.

(** A client that shows a free status and is granted a swipe has written
    the incremented count together with the time of the call. *)
Lemma handleSwipe_granted limit now w w' r d :
  handleSwipe limit now w = (w', r) ->
  store w = Some d ->
  isPremium (userStatus (client w)) = false ->
  allowed r = true ->
  swipeCount d < limit /\
  r = Transacted (swipeCount d + 1) true /\
  store w' = Some (set_count_date (swipeCount d + 1) now d).
Proof.
  unfold handleSwipe. intros H Hd Hp Ha. rewrite Hp, Hd in H.
  destruct (negb (connected (client w)) || isLoading (client w)).
  { inversion H; subst; discriminate. }
  destruct (swipeCount (userStatus (client w)) >=? limit).
  { inversion H; subst; discriminate. }
  destruct (swipeTransaction limit now (Some d)) as [tx|] eqn:Htx.
  - inversion H; subst; simpl in *.
    destruct (swipeTransaction_spec _ _ _ _ Htx)
      as [_ [[Hu [Hlt [Hr Hafter]]]|[Hu _]]].
    + rewrite Hr, Hu, Hafter. auto.
    + congruence.
  - inversion H; subst; discriminate.
Qed.

(** A call that is not granted leaves the document alone. *)
Lemma handleSwipe_refused limit now w w' r :
  handleSwipe limit now w = (w', r) ->
  isPremium (userStatus (client w)) = false ->
  allowed r = false -> store w' = store w.
Proof.
  intros H Hp Ha. apply (handleSwipe_store _ _ _ _ _ H).
  destruct r; simpl in *; auto.
Qed.

Lemma serve_counts limit calls : forall d,
  Forall freeClient calls ->
  swipeCount d <= limit ->
  exists d',
    fst (serve limit calls (Some d)) = Some d' /\
    swipeCount d' = swipeCount d + grantedCount (snd (serve limit calls (Some d))) /\
    swipeCount d' <= limit.
Proof.
  induction calls as [|c calls IH]; intros d Hfree Hle.
  - exists d. simpl. unfold grantedCount. simpl. repeat split; auto; lia.
  - inversion Hfree as [|? ? Hc Hrest]; subst. simpl.
    destruct (handleSwipe limit (callTime c)
                {| store := Some d; client := callClient c |}) as [w' r] eqn:Hh.
    destruct (allowed r) eqn:Ha.
    + destruct (handleSwipe_granted _ _ _ _ _ d Hh eq_refl Hc Ha)
        as [Hlt [Hr Hs]].
      rewrite Hs.
      destruct (IH (set_count_date (swipeCount d + 1) (callTime c) d) Hrest)
        as [d' [Hd' [Hcnt Hb]]]; [simpl; lia|].
      destruct (serve limit calls _) as [doc' rs] eqn:Hserve.
      simpl in *. exists d'. split; [assumption|]. split; [|assumption].
      rewrite Hcnt. unfold grantedCount. simpl. rewrite Ha.
      simpl length. lia.
    + rewrite (handleSwipe_refused _ _ _ _ _ Hh Hc Ha). simpl.
      destruct (IH d Hrest Hle) as [d' [Hd' [Hcnt Hb]]].
      destruct (serve limit calls (Some d)) as [doc' rs] eqn:Hserve.
      simpl in *. exists d'. split; [assumption|]. split; [|assumption].
      rewrite Hcnt. unfold grantedCount. simpl. rewrite Ha.
      reflexivity.
Qed.

Lemma onSnapshot_store now w d :
  store w = Some d ->
  store (onSnapshot now w) =
    Some (if rolloverDue now d then set_count_date 0 now d else d) /\
  userStatus (client (onSnapshot now w)) = d /\
  connected (client (onSnapshot now w)) = connected (client w) /\
  isLoading (client (onSnapshot now w)) = false.
Proof.
  intros Hd. unfold onSnapshot, resetSwipeCount, rolloverDue. rewrite Hd. simpl.
  destruct (isPremium d); simpl; [auto|].
  destruct ((now - lastSwipeDate d >=? MILLISECONDS_IN_DAY) && (swipeCount d >? 0));
    simpl; auto.
Qed.

Lemma rolloverDue_fresh now c d : rolloverDue now (set_count_date c now d) = false.
Proof.
  unfold rolloverDue. simpl. rewrite Z.sub_diag. simpl. apply andb_false_r.
Qed.

Lemma rolloverDue_premium now d : isPremium d = true -> rolloverDue now d = false.
Proof. unfold rolloverDue. intros ->. reflexivity. Qed.

Lemma rolloverDue_settled now d :
  rolloverDue now (if rolloverDue now d then set_count_date 0 now d else d)
  = false.
Proof.
  destruct (rolloverDue now d) eqn:E; [apply rolloverDue_fresh | exact E].
Qed.

Lemma settle_store now w d :
  store w = Some d -> connected (client w) = true ->
  synced (settle now w)
    (if rolloverDue now d then set_count_date 0 now d else d).
Proof.
  intros Hd Hc. unfold settle.
  destruct (onSnapshot_store now w d Hd) as (Hs & _ & Hcon & _).
  destruct (onSnapshot_store now _ _ Hs) as (Hs2 & Hu2 & Hcon2 & Hl2).
  rewrite rolloverDue_settled in Hs2.
  unfold synced. rewrite Hs2, Hu2, Hcon2, Hcon, Hl2, Hc. auto.
Qed.

Lemma settle_fresh now : synced (settle now freshWorld) INITIAL_USER_STATUS.
Proof.
  unfold synced, settle, onSnapshot, resetSwipeCount. simpl.
  rewrite andb_false_r. simpl. repeat split.
Qed.

Lemma tryConsume_free limit now w d :
  synced w d -> isPremium d = false -> swipeCount d < limit ->
  exists w',
    tryConsume limit now w = (w', Transacted (swipeCount d + 1) true) /\
    synced w' (set_count_date (swipeCount d + 1) now d).
Proof.
  intros (Hs & Hu & Hc & Hl) Hp Hlt.
  unfold tryConsume, handleSwipe. rewrite Hc, Hl, Hu, Hp, Hs. simpl.
  destruct (Z.geb_spec (swipeCount d) limit); [lia|]. simpl.
  eexists. split; [reflexivity|].
  match goal with |- synced (settle now ?w) _ =>
    pose proof (settle_store now w _ eq_refl) as Hsettle end.
  rewrite rolloverDue_fresh in Hsettle. apply Hsettle.
  repeat match goal with |- context [if ?b then _ else _] => destruct b end; simpl; assumption.
Qed.

Lemma tryConsume_blocked limit now w d :
  synced w d -> isPremium d = false -> limit <= swipeCount d ->
  tryConsume limit now w =
    ({| store := store w; client := set_modal true (client w) |}, LimitModal).
Proof.
  intros (Hs & Hu & Hc & Hl) Hp Hle.
  unfold tryConsume, handleSwipe. rewrite Hc, Hl, Hu, Hp. simpl.
  destruct (Z.geb_spec (swipeCount d) limit); [|lia]. reflexivity.
Qed.

Lemma tryConsume_premium limit now w d :
  synced w d -> isPremium d = true ->
  tryConsume limit now w =
    ({| store := store w; client := set_message MsgUnlimited (client w) |}, Unlimited).
Proof.
  intros (Hs & Hu & Hc & Hl) Hp.
  unfold tryConsume, handleSwipe. rewrite Hc, Hl, Hu, Hp. reflexivity.
Qed.

(** Property X29. The transactional limiter keeps the bound of the quota.
    Calls of [handleSwipe] for one user, from any number of clients that
    show a free (not premium) status, however stale, served one after the
    other on a document whose count starts within the limit and with no
    reset or purchase in between: at most [limit] calls are granted, and
    the stored [swipeCount], which grows by one per granted call, never
    passes [limit]. *)
Theorem quota_never_exceeded limit (calls : list Call) (d : UserStatus) :
  Forall freeClient calls ->
  0 <= swipeCount d <= limit ->
  grantedCount (snd (serve limit calls (Some d))) <= limit /\
  exists d',
    fst (serve limit calls (Some d)) = Some d' /\
    swipeCount d' <= limit /\
    swipeCount d' = swipeCount d + grantedCount (snd (serve limit calls (Some d))).
Proof.
  intros Hfree [H0 Hle].
  destruct (serve_counts limit calls d Hfree Hle) as [d' [Hd' [Hcnt Hb]]].
  split; [lia|]. exists d'. auto.
Qed.

Lemma quota_never_exceeded_witness :
  grantedCount
    (snd (serve 2 [staleCall 1; staleCall 2; staleCall 3] (Some INITIAL_USER_STATUS))) <= 2 /\
  exists d',
    fst (serve 2 [staleCall 1; staleCall 2; staleCall 3] (Some INITIAL_USER_STATUS)) = Some d' /\
    swipeCount d' <= 2 /\
    swipeCount d' = swipeCount INITIAL_USER_STATUS +
      grantedCount
        (snd (serve 2 [staleCall 1; staleCall 2; staleCall 3] (Some INITIAL_USER_STATUS))).
Proof.
  apply (quota_never_exceeded 2 [staleCall 1; staleCall 2; staleCall 3] INITIAL_USER_STATUS).
  - repeat constructor.
  - simpl. lia.
Defined.

Lemma consumeAll_free limit ts : forall w d,
  synced w d -> isPremium d = false ->
  swipeCount d + Z.of_nat (length ts) <= limit ->
  fst (consumeAll limit ts w) =
    map (fun k => (true, Some (limit - (swipeCount d + Z.of_nat k))))
        (seq 1 (length ts)) /\
  exists d',
    synced (snd (consumeAll limit ts w)) d' /\
    isPremium d' = false /\
    swipeCount d' = swipeCount d + Z.of_nat (length ts).
Proof.
  induction ts as [|t ts IH]; intros w d Hsync Hp Hle.
  - simpl. split; [reflexivity|]. exists d.
    split; [exact Hsync|]. split; [exact Hp|lia].
  - simpl length in *.
    destruct (tryConsume_free limit t w d Hsync Hp) as [w' [Htc Hsync']]; [lia|].
    destruct (IH w' _ Hsync') as [Hobs [d' [Hs' [Hp' Hc']]]];
      [exact Hp | simpl; lia |].
    simpl consumeAll. rewrite Htc.
    destruct (consumeAll limit ts w') as [obs w''] eqn:Hca. simpl in *.
    split.
    + rewrite Hobs. f_equal.
      rewrite <- (seq_shift _ 1), map_map. apply map_ext. intros k.
      do 3 f_equal. lia.
    + exists d'. split; [exact Hs'|]. split; [exact Hp'|]. rewrite Hc'. simpl. lia.
Qed.

(** Claim C2.  With [DAILY_LIMIT] = 50 and a user whose document is fresh,
    the first 50 swipes of a session are each granted, reporting 49, 48,
    ..., 0 swipes remaining, and the 51st is refused with 0 remaining and
    no write.  The times of the swipes do not matter. *)
Theorem fifty_swipes_then_blocked (t0 t51 : Z) (ts : list Z) :
  length ts = 50%nat ->
  fst (consumeAll DAILY_LIMIT ts (settle t0 freshWorld)) =
    map (fun k => (true, Some (50 - Z.of_nat k))) (seq 1 50) /\
  (let w50 := snd (consumeAll DAILY_LIMIT ts (settle t0 freshWorld)) in
   let r := snd (tryConsume DAILY_LIMIT t51 w50) in
   allowed r = false /\
   remaining DAILY_LIMIT (userStatus (client w50)) r = Some 0 /\
   store (fst (tryConsume DAILY_LIMIT t51 w50)) = store w50).
Proof.
  intros Hlen.
  destruct (consumeAll_free DAILY_LIMIT ts _ _ (settle_fresh t0) eq_refl)
    as [Hobs [d' [Hs' [Hp' Hc']]]].
  { rewrite Hlen. simpl. unfold DAILY_LIMIT. lia. }
  rewrite Hlen in Hobs, Hc'. split; [exact Hobs|].
  cbv zeta.
  rewrite (tryConsume_blocked DAILY_LIMIT t51 _ d' Hs' Hp')
    by (rewrite Hc'; simpl; unfold DAILY_LIMIT; lia).
  simpl. destruct Hs' as (_ & -> & _).
  unfold swipesRemaining. rewrite Hp', Hc'. repeat split.
Qed.

Lemma fifty_swipes_then_blocked_witness :
  fst (consumeAll DAILY_LIMIT hourlyTimes (settle 0 freshWorld)) =
    map (fun k => (true, Some (50 - Z.of_nat k))) (seq 1 50) /\
  (let w50 := snd (consumeAll DAILY_LIMIT hourlyTimes (settle 0 freshWorld)) in
   let r := snd (tryConsume DAILY_LIMIT 51 w50) in
   allowed r = false /\
   remaining DAILY_LIMIT (userStatus (client w50)) r = Some 0 /\
   store (fst (tryConsume DAILY_LIMIT 51 w50)) = store w50).
Proof.
  apply (fifty_swipes_then_blocked 0 51 hourlyTimes). reflexivity.
Defined.

Lemma consumeAll_premium limit (ts : list Z) : forall (w : World) (d : UserStatus),
  synced w d -> isPremium d = true ->
  Forall (fun o => fst o = true) (fst (consumeAll limit ts w)) /\
  store (snd (consumeAll limit ts w)) = Some d.
Proof.
  induction ts as [|t ts IH]; intros w d Hsync Hp.
  - simpl. split; [constructor | apply Hsync].
  - simpl. rewrite (tryConsume_premium limit t w d Hsync Hp).
    assert (Hsync' : synced {| store := store w;
                               client := set_message MsgUnlimited (client w) |} d).
    { destruct Hsync as (? & ? & ? & ?). repeat split; assumption. }
    destruct (IH _ d Hsync' Hp) as [Hall Hst].
    destruct (consumeAll limit ts _) as [obs w''].
    simpl in *. split; [constructor; [reflexivity|exact Hall] | exact Hst].
Qed.

(** Claim C8.  While the status is premium every swipe of a session is
    granted, whatever the limit and however many swipes are counted, and
    the stored document, its [swipeCount] included, is left as it is. *)
Theorem premium_never_blocked limit (ts : list Z) (w : World) (d : UserStatus) :
  synced w d -> isPremium d = true ->
  Forall (fun o => fst o = true) (fst (consumeAll limit ts w)) /\
  store (snd (consumeAll limit ts w)) = Some d.
Proof. apply consumeAll_premium. Qed.

Lemma premium_never_blocked_witness :
  Forall (fun o => fst o = true)
    (fst (consumeAll DAILY_LIMIT [1; 2; 3] premiumWorld)) /\
  store (snd (consumeAll DAILY_LIMIT [1; 2; 3] premiumWorld)) = Some premiumStatus.
Proof.
  apply (premium_never_blocked DAILY_LIMIT [1; 2; 3] premiumWorld premiumStatus).
  - repeat split.
  - reflexivity.
Defined.

(** Claim C9.  When the stored count of a user has reached the limit and
    the calling client shows a free status (up to date or stale), the call
    is refused with 0 swipes remaining and nothing is written: the stored
    document and the status the client shows are unchanged. *)
Theorem blocked_call_mutates_nothing limit now (w : World) (d : UserStatus) :
  store w = Some d ->
  connected (client w) = true -> isLoading (client w) = false ->
  isPremium (userStatus (client w)) = false ->
  limit <= swipeCount d ->
  allowed (snd (handleSwipe limit now w)) = false /\
  remaining limit (userStatus (client w)) (snd (handleSwipe limit now w)) = Some 0 /\
  store (fst (handleSwipe limit now w)) = Some d /\
  userStatus (client (fst (handleSwipe limit now w))) = userStatus (client w).
Proof.
  intros Hd Hc Hl Hp Hle.
  unfold handleSwipe. rewrite Hc, Hl, Hp, Hd. simpl.
  destruct (Z.geb_spec (swipeCount (userStatus (client w))) limit) as [Hlocal|Hlocal].
  - simpl. unfold swipesRemaining. rewrite Hp.
    repeat split. f_equal. lia.
  - destruct (Z.geb_spec (swipeCount d) limit); [|lia]. simpl.
    rewrite Z.eqb_refl. simpl. repeat split. f_equal. lia.
Qed.

Lemma blocked_call_mutates_nothing_witness :
  allowed (snd (handleSwipe DAILY_LIMIT 5 staleWorld)) = false /\
  remaining DAILY_LIMIT (userStatus (client staleWorld))
    (snd (handleSwipe DAILY_LIMIT 5 staleWorld)) = Some 0 /\
  store (fst (handleSwipe DAILY_LIMIT 5 staleWorld)) = Some atLimitStatus /\
  userStatus (client (fst (handleSwipe DAILY_LIMIT 5 staleWorld)))
    = userStatus (client staleWorld).
Proof.
  apply (blocked_call_mutates_nothing DAILY_LIMIT 5 staleWorld atLimitStatus);
    first [reflexivity | vm_compute; discriminate].
Defined.

(** In that stale case the transaction returns the limit itself, and the
    handler shows the same message as for the swipe that reaches the
    limit. *)
Example refused_transaction_reports_limit_reached :
  snd (handleSwipe DAILY_LIMIT 5 staleWorld) = Transacted 50 false /\
  message (client (fst (handleSwipe DAILY_LIMIT 5 staleWorld))) = MsgLimitReached /\
  showLimitModal (client (fst (handleSwipe DAILY_LIMIT 5 staleWorld))) = true.
Proof. repeat split. Qed.

(** Counterexample to claim C6 as stated.  A user at the limit whose last
    swipe is a full day old swipes with the application still open: the
    call is refused and the document keeps its count and date, because
    [handleSwipe] never looks at the date. *)
Lemma no_rollover_inside_handleSwipe :
  synced atLimitWorld atLimitStatus /\
  MILLISECONDS_IN_DAY - lastSwipeDate atLimitStatus >= MILLISECONDS_IN_DAY /\
  snd (tryConsume DAILY_LIMIT MILLISECONDS_IN_DAY atLimitWorld) = LimitModal /\
  store (fst (tryConsume DAILY_LIMIT MILLISECONDS_IN_DAY atLimitWorld))
    = Some atLimitStatus.
Proof. repeat split. vm_compute. discriminate. Qed.

(** Claim C6, amended.  The rollover is made by the status listener, not
    by [handleSwipe]: when a snapshot is delivered at [now] the document
    is reset to count 0 and date [now] exactly when the status is not
    premium, [now - lastSwipeDate >= 24h] and the count is positive, and
    is left alone otherwise; a swipe after such a reset is checked against
    the count 0. *)
Theorem rollover_at_snapshot limit now t (w : World) (d : UserStatus) :
  store w = Some d -> connected (client w) = true ->
  0 < limit ->
  synced (settle now w)
    (if rolloverDue now d then set_count_date 0 now d else d) /\
  (rolloverDue now d = true <->
     isPremium d = false /\ now - lastSwipeDate d >= MILLISECONDS_IN_DAY /\
     swipeCount d > 0) /\
  (rolloverDue now d = true ->
     snd (tryConsume limit t (settle now w)) = Transacted 1 true /\
     store (fst (tryConsume limit t (settle now w)))
       = Some (set_count_date 1 t d)).
Proof.
  intros Hd Hc Hlim. split; [apply settle_store; assumption|]. split.
  - unfold rolloverDue. rewrite !andb_true_iff, negb_true_iff.
    rewrite Z.geb_le, Z.gtb_lt. intuition lia.
  - intros Hdue.
    pose proof (settle_store now w d Hd Hc) as Hs. rewrite Hdue in Hs.
    destruct (tryConsume_free limit t _ _ Hs) as [w' [Htc Hs']].
    + simpl. unfold rolloverDue in Hdue.
      destruct (isPremium d); [discriminate|reflexivity].
    + simpl. lia.
    + rewrite Htc. simpl. split; [reflexivity|]. apply Hs'.
Qed.

Lemma rollover_at_snapshot_witness :
  synced (settle (2 * MILLISECONDS_IN_DAY) usedWorld)
    (if rolloverDue (2 * MILLISECONDS_IN_DAY) usedStatus
     then set_count_date 0 (2 * MILLISECONDS_IN_DAY) usedStatus else usedStatus) /\
  (rolloverDue (2 * MILLISECONDS_IN_DAY) usedStatus = true <->
     isPremium usedStatus = false /\
     2 * MILLISECONDS_IN_DAY - lastSwipeDate usedStatus >= MILLISECONDS_IN_DAY /\
     swipeCount usedStatus > 0) /\
  (rolloverDue (2 * MILLISECONDS_IN_DAY) usedStatus = true ->
     snd (tryConsume DAILY_LIMIT (2 * MILLISECONDS_IN_DAY + 1)
            (settle (2 * MILLISECONDS_IN_DAY) usedWorld)) = Transacted 1 true /\
     store (fst (tryConsume DAILY_LIMIT (2 * MILLISECONDS_IN_DAY + 1)
                   (settle (2 * MILLISECONDS_IN_DAY) usedWorld)))
       = Some (set_count_date 1 (2 * MILLISECONDS_IN_DAY + 1) usedStatus)).
Proof.
  apply (rollover_at_snapshot DAILY_LIMIT (2 * MILLISECONDS_IN_DAY)
           (2 * MILLISECONDS_IN_DAY + 1) usedWorld usedStatus);
    reflexivity.
Defined.

(** Counterexample to claim C7 as stated.  The purchase leaves
    [lastSwipeDate] as it was: it is not set to the time of the call. *)
Lemma upgrade_keeps_lastSwipeDate :
  store (upgradeToPremium MILLISECONDS_IN_DAY atLimitWorld)
    = Some {| swipeCount := 0; lastSwipeDate := 0; isPremium := true |} /\
  lastSwipeDate {| swipeCount := 0; lastSwipeDate := 0; isPremium := true |}
    <> MILLISECONDS_IN_DAY.
Proof. split; [reflexivity | discriminate]. Qed.

(** Claim C7, amended.  [handleGoPremium] sets [isPremium] and resets
    [swipeCount] to 0, keeping [lastSwipeDate]; doing it again changes
    nothing; afterwards every swipe is granted whatever the limit, 0
    included, and the document stays as the purchase left it. *)
Theorem upgrade_resets_and_unblocks limit now now' (ts : list Z) (w : World) (d : UserStatus) :
  store w = Some d -> connected (client w) = true ->
  let w1 := upgradeToPremium now w in
  synced w1 (set_premium_count true 0 d) /\
  lastSwipeDate (set_premium_count true 0 d) = lastSwipeDate d /\
  upgradeToPremium now' w1 = w1 /\
  Forall (fun o => fst o = true) (fst (consumeAll limit ts w1)) /\
  store (snd (consumeAll limit ts w1)) = Some (set_premium_count true 0 d).
Proof.
  intros Hd Hc w1.
  assert (Hs : synced w1 (set_premium_count true 0 d)).
  { unfold w1, upgradeToPremium.
    match goal with |- synced (settle now ?x) _ =>
      pose proof (settle_store now x (set_premium_count true 0 d)) as Hs end.
    rewrite rolloverDue_premium in Hs by reflexivity.
    apply Hs; unfold handleGoPremium; rewrite Hc, Hd; simpl; auto. }
  split; [exact Hs|]. split; [reflexivity|]. split.
  - unfold w1. destruct w as [s c]. destruct c as [con ld us modal msg].
    simpl in *. subst. reflexivity.
  - apply consumeAll_premium; [exact Hs | reflexivity].
Qed.

Lemma upgrade_resets_and_unblocks_witness :
  let w1 := upgradeToPremium 5 atLimitWorld in
  synced w1 (set_premium_count true 0 atLimitStatus) /\
  lastSwipeDate (set_premium_count true 0 atLimitStatus) = lastSwipeDate atLimitStatus /\
  upgradeToPremium 9 w1 = w1 /\
  Forall (fun o => fst o = true) (fst (consumeAll 0 [10; 11; 12] w1)) /\
  store (snd (consumeAll 0 [10; 11; 12] w1)) = Some (set_premium_count true 0 atLimitStatus).
Proof.
  apply (upgrade_resets_and_unblocks 0 5 9 [10; 11; 12] atLimitWorld atLimitStatus);
    reflexivity.
Defined.

Lemma settle_within_a_day t w d :
  synced w d -> isPremium d = false ->
  t - lastSwipeDate d < MILLISECONDS_IN_DAY ->
  synced (settle t w) d.
Proof.
  intros Hs Hp Hlt.
  pose proof (settle_store t w d (proj1 Hs) (proj1 (proj2 (proj2 Hs)))) as H.
  replace (rolloverDue t d) with false in H; [exact H|].
  unfold rolloverDue. rewrite Hp. simpl.
  destruct (Z.geb_spec (t - lastSwipeDate d) MILLISECONDS_IN_DAY); [lia|reflexivity].
Qed.

Lemma settle_unused t w d :
  synced w d -> swipeCount d <= 0 -> synced (settle t w) d.
Proof.
  intros Hs Hz.
  pose proof (settle_store t w d (proj1 Hs) (proj1 (proj2 (proj2 Hs)))) as H.
  replace (rolloverDue t d) with false in H; [exact H|].
  unfold rolloverDue.
  destruct (Z.gtb_spec (swipeCount d) 0); [lia|].
  rewrite andb_false_r. symmetry. apply andb_false_r.
Qed.

Lemma run_regular limit es : forall w d,
  synced w d -> isPremium d = false ->
  opensWithinADay (lastSwipeDate d) es ->
  swipeCount d + countSwipes es <= limit ->
  exists d',
    synced (run limit es w) d' /\
    isPremium d' = false /\
    swipeCount d' = swipeCount d + countSwipes es /\
    lastSwipeDate d' = lastSwipeTime (lastSwipeDate d) es.
Proof.
  induction es as [|e es IH]; intros w d Hs Hp Hreg Hle.
  - exists d. unfold countSwipes. simpl. repeat split; try apply Hs; auto; lia.
  - destruct e as [t|t]; simpl in Hreg.
    + destruct Hreg as [Hlt Hreg].
      destruct (IH (settle t w) d) as [d' (Hs' & Hp' & Hc' & Hl')]; auto.
      * apply settle_within_a_day; assumption.
      * exists d'. repeat split; try apply Hs'; auto.
    + assert (Hcs : countSwipes (Swipe t :: es) = 1 + countSwipes es).
      { unfold countSwipes. simpl length. lia. }
      rewrite Hcs in *.
      assert (Hnn : 0 <= countSwipes es) by (unfold countSwipes; lia).
      destruct (tryConsume_free limit t w d Hs Hp) as [w' [Htc Hs1]]; [lia|].
      destruct (IH w' _ Hs1) as [d' (Hs' & Hp' & Hc' & Hl')]; auto.
      * simpl. lia.
      * exists d'.
        change (run limit (Swipe t :: es) w)
          with (run limit es (fst (tryConsume limit t w))).
        rewrite Htc. simpl fst.
        repeat split; try apply Hs'; auto. simpl in Hc'. lia.
Qed.

(** Claim C10.  A granted swipe of a free user writes the time of the call
    into [lastSwipeDate] together with the incremented count, so the day
    that the reset waits for is counted from the latest swipe: in a session
    where the application is never opened a day or more after the latest
    swipe, the count only grows, by one per swipe, and [lastSwipeDate] is
    the time of the latest swipe.  A count of 0 is never reset. *)
Theorem swiping_daily_postpones_reset limit (es : list Event) (w : World) (d : UserStatus) :
  synced w d -> isPremium d = false ->
  opensWithinADay (lastSwipeDate d) es ->
  swipeCount d + countSwipes es <= limit ->
  (forall t, swipeCount d < limit ->
     store (fst (handleSwipe limit t w)) =
       Some {| swipeCount := swipeCount d + 1; lastSwipeDate := t;
               isPremium := false |}) /\
  (exists d',
     synced (run limit es w) d' /\
     swipeCount d' = swipeCount d + countSwipes es /\
     lastSwipeDate d' = lastSwipeTime (lastSwipeDate d) es) /\
  (forall t, swipeCount d <= 0 -> store (settle t w) = Some d).
Proof.
  intros Hs Hp Hreg Hle. split; [|split].
  - intros t Hlt. destruct Hs as (Hst & Hu & Hc & Hl).
    unfold handleSwipe. rewrite Hc, Hl, Hu, Hp, Hst. simpl.
    destruct (Z.geb_spec (swipeCount d) limit); [lia|]. simpl.
    unfold set_count_date. rewrite Hp. reflexivity.
  - destruct (run_regular limit es w d Hs Hp Hreg Hle)
      as [d' (Hs' & _ & Hc' & Hl')].
    exists d'. auto.
  - intros t Hz. apply (settle_unused t w d Hs Hz).
Qed.

Lemma swiping_daily_postpones_reset_witness :
  (forall t, swipeCount usedStatus < DAILY_LIMIT ->
     store (fst (handleSwipe DAILY_LIMIT t usedWorld)) =
       Some {| swipeCount := swipeCount usedStatus + 1; lastSwipeDate := t;
               isPremium := false |}) /\
  (exists d',
     synced (run DAILY_LIMIT threeDays usedWorld) d' /\
     swipeCount d' = swipeCount usedStatus + countSwipes threeDays /\
     lastSwipeDate d' = lastSwipeTime (lastSwipeDate usedStatus) threeDays) /\
  (forall t, swipeCount usedStatus <= 0 -> store (settle t usedWorld) = Some usedStatus).
Proof.
  apply (swiping_daily_postpones_reset DAILY_LIMIT threeDays usedWorld usedStatus).
  - repeat split.
  - reflexivity.
  - simpl. unfold MILLISECONDS_IN_DAY. lia.
  - vm_compute. discriminate.
Defined.

Example three_days_no_reset :
  store (run DAILY_LIMIT threeDays usedWorld) =
    Some {| swipeCount := 10; lastSwipeDate := 3 * 82800000; isPremium := false |}.
Proof. reflexivity. Qed.

Example reopening_after_a_day_resets :
  store (run DAILY_LIMIT [Open MILLISECONDS_IN_DAY] usedWorld) =
    Some {| swipeCount := 0; lastSwipeDate := MILLISECONDS_IN_DAY; isPremium := false |}.
Proof. reflexivity. Qed.

End SwipeLimiterFacts.

(* ================================================================== *)
(** * Properties of the two other quota variants *)
(* ================================================================== *)

Section SwipeScreenFacts.

Import SwipeScreen.

(** Property X4. When at least 24 hours have passed since the last reset
    and the clocks of the zone have not been put back in between (the
    offset from UTC is not smaller than it was), [isNewDay] is true. *)
Lemma screen_isNewDay_after_a_day zone now last :
  now - last >= MILLISECONDS_IN_DAY -> zone last <= zone now ->
  isNewDay zone now (Some last) = true.
Proof.
  intros H Hz. unfold isNewDay, dayOf. apply negb_true_iff, Z.eqb_neq.
  assert (Hd : 0 < MILLISECONDS_IN_DAY) by reflexivity.
  assert (Hs : (last + zone last + 1 * MILLISECONDS_IN_DAY) / MILLISECONDS_IN_DAY
               = (last + zone last) / MILLISECONDS_IN_DAY + 1)
    by (apply Z.div_add; lia).
  assert (Hm : (last + zone last + 1 * MILLISECONDS_IN_DAY) / MILLISECONDS_IN_DAY
               <= (now + zone now) / MILLISECONDS_IN_DAY)
    by (apply Z.div_le_mono; lia).
  lia.
Qed.

(** On the day the clocks are put back the local day lasts 25 hours: 24
    hours after 00:30 it is 23:30 of the same date, and [isNewDay] is
    false. *)
Example screen_isNewDay_on_a_long_day :
  isNewDay autumnZone (81000000 + MILLISECONDS_IN_DAY) (Some 81000000) = false.
Proof. reflexivity. Qed.

(** The date also changes at midnight, however short the time since the
    last reset: here two hours. *)
Example screen_isNewDay_across_midnight :
  isNewDay utc (MILLISECONDS_IN_DAY + 3600000) (Some (MILLISECONDS_IN_DAY - 3600000)) = true.
Proof. reflexivity. Qed.

Example screen_isNewDay_same_day :
  isNewDay utc (MILLISECONDS_IN_DAY - 1) (Some 0) = false.
Proof. reflexivity. Qed.

Lemma screen_resetEffect_same_day zone now w st :
  synced w st -> dayOf zone now = dayOf zone (lastResetDate st) ->
  resetEffect zone now w = w.
Proof.
  intros (Hs & Hd & Hc & Ha) Hday. unfold resetEffect. rewrite Hd. simpl.
  rewrite Hday, Z.eqb_refl. simpl. rewrite andb_false_r. reflexivity.
Qed.

Lemma screen_onSnapshot_synced now w st :
  store w = Some st -> connected (client w) = true ->
  isAuthReady (client w) = true -> synced (onSnapshot now w) st.
Proof.
  intros Hs Hc Ha. unfold onSnapshot. rewrite Hs. repeat split; assumption.
Qed.

(** A free user under the limit: the swipe is granted and the count of the
    client plus one is written. *)
Lemma screen_swipeAndSync_free zone direction now w st :
  synced w st -> isPremium st = false ->
  swipesToday st < DAILY_SWIPE_LIMIT ->
  dayOf zone now = dayOf zone (lastResetDate st) ->
  exists w',
    swipeAndSync zone direction now w = (w', Swiped true) /\
    synced w' {| swipesToday := swipesToday st + 1; isPremium := false;
                 lastResetDate := lastResetDate st |}.
Proof.
  intros (Hs & Hd & Hc & Ha) Hp Hlt Hday.
  unfold swipeAndSync, handleSwipe. rewrite Hc, Hd, Hs. simpl. rewrite Hp. simpl.
  destruct (Z.ltb_spec (swipesToday st) DAILY_SWIPE_LIMIT); [|lia]. simpl.
  rewrite ?Hp. eexists. split; [reflexivity|].
  match goal with |- synced (resetEffect _ _ ?x) ?s =>
    assert (Hx : synced x s) by (apply screen_onSnapshot_synced; simpl; auto) end.
  rewrite (screen_resetEffect_same_day zone now _ _ Hx Hday). exact Hx.
Qed.

(** At the limit the swipe is refused and nothing is written. *)
Lemma screen_handleSwipe_at_limit direction w st :
  synced w st -> isPremium st = false ->
  DAILY_SWIPE_LIMIT <= swipesToday st ->
  snd (handleSwipe direction w) = LimitModal /\
  store (fst (handleSwipe direction w)) = Some st.
Proof.
  intros (Hs & Hd & Hc & Ha) Hp Hle.
  unfold handleSwipe. rewrite Hc, Hd. simpl. rewrite Hp. simpl.
  destruct (Z.ltb_spec (swipesToday st) DAILY_SWIPE_LIMIT); [lia|]. simpl.
  split; [reflexivity | exact Hs].
Qed.

(** A premium user is always granted the swipe and nothing is written. *)
Lemma screen_handleSwipe_premium direction w st :
  synced w st -> isPremium st = true ->
  snd (handleSwipe direction w) = Swiped false /\
  store (fst (handleSwipe direction w)) = Some st.
Proof.
  intros (Hs & Hd & Hc & Ha) Hp.
  unfold handleSwipe. rewrite Hc, Hd. simpl. rewrite Hp. simpl.
  split; [reflexivity | exact Hs].
Qed.

(** Within one calendar day, every swipe of a free user is granted until
    the count reaches the limit. *)
Lemma screen_swipeAll_free zone swipes : forall w st,
  synced w st -> isPremium st = false ->
  swipesToday st + Z.of_nat (length swipes) <= DAILY_SWIPE_LIMIT ->
  Forall (fun s => dayOf zone (snd s) = dayOf zone (lastResetDate st)) swipes ->
  fst (swipeAll zone swipes w) = repeat true (length swipes) /\
  synced (snd (swipeAll zone swipes w))
    {| swipesToday := swipesToday st + Z.of_nat (length swipes);
       isPremium := false; lastResetDate := lastResetDate st |}.
Proof.
  induction swipes as [|[direction now] swipes IH]; intros w st Hs Hp Hle Hday.
  - simpl. split; [reflexivity|]. rewrite Z.add_0_r. rewrite <- Hp.
    destruct st. exact Hs.
  - inversion Hday as [|? ? Hnow Hrest]; subst. simpl in Hnow.
    simpl length in *.
    destruct (screen_swipeAndSync_free zone direction now w st Hs Hp) as [w' [Hsw Hs']];
      [lia | exact Hnow |].
    assert (Hle' : swipesToday st + 1 + Z.of_nat (length swipes) <= DAILY_SWIPE_LIMIT)
      by lia.
    destruct (IH w' _ Hs' eq_refl Hle' Hrest) as [Hobs Hfin].
    simpl swipeAll. rewrite Hsw.
    destruct (swipeAll zone swipes w') as [obs w''] eqn:E. simpl in *.
    split; [rewrite Hobs; reflexivity|].
    replace (swipesToday st + Z.of_nat (S (length swipes)))
      with (swipesToday st + 1 + Z.of_nat (length swipes)) by lia.
    exact Hfin.
Qed.

(** Property X3. From a count of 0, fifty swipes on the day of the last
    reset are granted and the next one is refused without a write. *)
Lemma screen_fifty_then_blocked zone swipes direction w st :
  synced w st -> isPremium st = false -> swipesToday st = 0 ->
  length swipes = 50%nat ->
  Forall (fun s => dayOf zone (snd s) = dayOf zone (lastResetDate st)) swipes ->
  fst (swipeAll zone swipes w) = repeat true 50 /\
  snd (handleSwipe direction (snd (swipeAll zone swipes w))) = LimitModal /\
  store (fst (handleSwipe direction (snd (swipeAll zone swipes w)))) =
    store (snd (swipeAll zone swipes w)).
Proof.
  intros Hs Hp H0 Hlen Hday.
  destruct (screen_swipeAll_free zone swipes w st Hs Hp) as [Hobs Hfin];
    [rewrite H0, Hlen; unfold DAILY_SWIPE_LIMIT; simpl; lia | exact Hday |].
  rewrite Hlen in Hobs, Hfin. split; [exact Hobs|].
  destruct (screen_handleSwipe_at_limit direction _ _ Hfin eq_refl) as [Hr Hst].
  { simpl. rewrite H0. unfold DAILY_SWIPE_LIMIT. simpl. lia. }
  split; [exact Hr|]. rewrite Hst. symmetry. apply Hfin.
Qed.

(** The purchase of this variant does write the time of the call. *)
Lemma screen_handleMintOnBase_store now w :
  connected (client w) = true ->
  store (handleMintOnBase now w) =
    Some {| swipesToday := 0; isPremium := true; lastResetDate := now |}.
Proof. intros Hc. unfold handleMintOnBase. rewrite Hc. reflexivity. Qed.

End SwipeScreenFacts.

Section BaseMatchNewFacts.

Import BaseMatchNew.

(** The handler writes the count of the client plus one, and only when the
    client shows a count below the limit: what a free client stores never
    passes the limit. *)
Lemma new_handleSwipe_write_bounded direction w st :
  store w = Some st -> hasDb (client w) = true ->
  isPremium (userStatus (client w)) = false ->
  allowed (snd (handleSwipe direction w)) = true ->
  exists st',
    store (fst (handleSwipe direction w)) = Some st' /\
    swipesToday st' = swipesToday (userStatus (client w)) + 1 /\
    swipesToday st' <= DAILY_SWIPE_LIMIT /\
    isPremium st' = isPremium st /\ lastResetDate st' = lastResetDate st.
Proof.
  intros Hs Hdb Hp. unfold handleSwipe, swipesRemaining, swipeLimit.
  rewrite Hp, Hdb, Hs. simpl.
  destruct (Z.leb_spec (DAILY_SWIPE_LIMIT - swipesToday (userStatus (client w))) 0);
    simpl; [discriminate|].
  destruct (profiles (client w) !! _); simpl; [|discriminate].
  intros _. destruct direction; simpl; eexists; (split; [reflexivity|]);
    simpl; repeat split; lia.
Qed.

(** At the limit the swipe is refused and nothing is written. *)
Lemma new_handleSwipe_at_limit direction w :
  isPremium (userStatus (client w)) = false ->
  DAILY_SWIPE_LIMIT <= swipesToday (userStatus (client w)) ->
  snd (handleSwipe direction w) = LimitModal /\
  store (fst (handleSwipe direction w)) = store w.
Proof.
  intros Hp Hle. unfold handleSwipe, swipesRemaining, swipeLimit. rewrite Hp. simpl.
  destruct (Z.leb_spec (DAILY_SWIPE_LIMIT - swipesToday (userStatus (client w))) 0);
    [|lia]. split; reflexivity.
Qed.

(** A new user starts at 49: one swipe is left. *)
Example new_initial_status_has_one_swipe now :
  swipesRemaining (initialStatus now) = 1.
Proof. reflexivity. Qed.

(** The purchase stores a status map without a reset date; the client keeps
    the date it showed.  Doing it twice is doing it once. *)
Lemma new_handleMintNFT_effect wallet w st :
  store w = Some st -> hasDb (client w) = true ->
  store (handleMintNFT wallet w) =
    Some {| swipesToday := 0; isPremium := true; lastResetDate := None;
            matches := None; walletAddress := wallet;
            farcasterConnected := None |} /\
  isPremium (userStatus (client (handleMintNFT wallet w))) = true /\
  swipesToday (userStatus (client (handleMintNFT wallet w))) = 0 /\
  lastResetDate (userStatus (client (handleMintNFT wallet w)))
    = lastResetDate (userStatus (client w)) /\
  handleMintNFT wallet (handleMintNFT wallet w) = handleMintNFT wallet w.
Proof.
  intros Hs Hdb. unfold handleMintNFT. simpl. rewrite Hdb, Hs. repeat split.
Qed.

(** A premium client is never sent to the limit dialog. *)
Lemma new_handleSwipe_premium direction w :
  isPremium (userStatus (client w)) = true ->
  snd (handleSwipe direction w) <> LimitModal.
Proof.
  intros Hp. unfold handleSwipe. rewrite Hp. simpl.
  destruct (profiles (client w) !! _); [|discriminate].
  destruct (hasDb (client w)); [destruct (store w); discriminate|].
  destruct direction; [destruct (matches _)|]; discriminate.
Qed.


Lemma new_onSnapshot_same_day mounted now w st :
  store w = Some st -> lastResetDate st = Some (getTodayDateString now) ->
  hasDb (client w) = true -> profiles (client w) <> [] ->
  synced (onSnapshot mounted now w) st.
Proof.
  intros Hs Hd Hdb Hpr. unfold onSnapshot. rewrite Hs, Hd, Z.eqb_refl. simpl.
  repeat split; assumption.
Qed.

(** One swipe of a free user on the day of the last reset: granted, with
    the count one higher, below the limit; refused, with everything as it
    was, at the limit. *)
Lemma new_swipeAndSync_free mounted direction now w st :
  synced w st -> isPremium st = false ->
  lastResetDate st = Some (getTodayDateString now) ->
  exists st',
    synced (fst (swipeAndSync mounted direction now w)) st' /\
    isPremium st' = false /\ lastResetDate st' = lastResetDate st /\
    ((swipesToday st < DAILY_SWIPE_LIMIT /\
      allowed (snd (swipeAndSync mounted direction now w)) = true /\
      swipesToday st' = swipesToday st + 1)
     \/
     (DAILY_SWIPE_LIMIT <= swipesToday st /\
      allowed (snd (swipeAndSync mounted direction now w)) = false /\
      st' = st)).
Proof.
  intros (Hs & Hu & Hdb & Hpr) Hp Hd.
  unfold swipeAndSync, handleSwipe, swipesRemaining, swipeLimit.
  rewrite Hu, Hp, Hdb, Hs. simpl.
  destruct (Z.leb_spec (DAILY_SWIPE_LIMIT - swipesToday st) 0) as [Hle|Hlt]; simpl.
  - exists st. split.
    + apply new_onSnapshot_same_day; simpl; auto.
      unfold handleUpgrade. rewrite Hu, Hp. simpl. exact Hdb.
      unfold handleUpgrade. rewrite Hu, Hp. simpl. exact Hpr.
    + repeat split; auto. right. repeat split. lia.
  - destruct (profiles (client w) !! _) as [p|] eqn:Hlook.
    + destruct direction; simpl; eexists;
        (split; [apply new_onSnapshot_same_day; simpl; auto|]);
        simpl; repeat split; auto; left; repeat split; lia.
    + exfalso. apply lookup_ge_None in Hlook.
      destruct (profiles (client w)) as [|q qs]; [congruence|].
      pose proof (Nat.mod_upper_bound (currentIndex (client w)) (length (q :: qs))) as Hb.
      simpl in Hb, Hlook. lia.
Qed.

(** Property X7. A session of a free user within the day of the last
    reset: the number of granted swipes and the stored count stay within
    the limit. *)
Lemma new_swipeAll_bounded mounted swipes : forall w st,
  synced w st -> isPremium st = false ->
  swipesToday st <= DAILY_SWIPE_LIMIT ->
  Forall (fun s => lastResetDate st = Some (getTodayDateString (snd s))) swipes ->
  exists st',
    synced (snd (swipeAll mounted swipes w)) st' /\
    swipesToday st' = swipesToday st + grantedCount (fst (swipeAll mounted swipes w)) /\
    swipesToday st' <= DAILY_SWIPE_LIMIT.
Proof.
  induction swipes as [|[direction now] swipes IH]; intros w st Hs Hp Hle Hday.
  - exists st. simpl. unfold grantedCount. simpl. repeat split; try apply Hs; lia.
  - inversion Hday as [|? ? Hnow Hrest]; subst. simpl in Hnow.
    destruct (new_swipeAndSync_free mounted direction now w st Hs Hp Hnow)
      as (st1 & Hs1 & Hp1 & Hd1 & Hcase).
    simpl swipeAll.
    destruct (swipeAndSync mounted direction now w) as [w1 r] eqn:E. simpl in *.
    rewrite <- Hd1 in Hrest.
    assert (Hle1 : swipesToday st1 <= DAILY_SWIPE_LIMIT).
    { destruct Hcase as [(? & _ & ->) | (_ & _ & ->)]; lia. }
    destruct (IH w1 st1 Hs1 Hp1 Hle1 Hrest) as (st' & Hs' & Hc' & Hb').
    destruct (swipeAll mounted swipes w1) as [obs w''] eqn:E'. simpl in *.
    exists st'. split; [exact Hs'|]. split; [|exact Hb'].
    rewrite Hc'. unfold grantedCount. simpl.
    destruct Hcase as [(_ & -> & ->) | (_ & -> & ->)]; simpl length; lia.
Qed.

End BaseMatchNewFacts.

(* ================================================================== *)
(** * Properties of likes and matches *)
(* ================================================================== *)

Section MatchMakerFacts.

Import MatchMaker.

Lemma sortStrings_pair a b :
  sortStrings [a; b] = if String.leb a b then [a; b] else [b; a].
Proof. reflexivity. Qed.

Lemma matchIdOf_comm a b : matchIdOf a b = matchIdOf b a.
Proof.
  unfold matchIdOf. rewrite !sortStrings_pair.
  destruct (String.leb a b) eqn:Hab, (String.leb b a) eqn:Hba; try reflexivity.
  - rewrite (String.leb_antisym _ _ Hab Hba). reflexivity.
  - destruct (String.leb_total a b); congruence.
Qed.

Lemma matchIdOf_sorted a b :
  matchIdOf a b =
    if String.leb a b then (a ++ "_" ++ b)%string else (b ++ "_" ++ a)%string.
Proof.
  unfold matchIdOf. rewrite sortStrings_pair.
  destruct (String.leb a b); reflexivity.
Qed.

(** The id is the key of the sorted pair. *)
Lemma matchIdOf_key a b :
  exists lo hi,
    matchIdOf a b = (lo ++ "_" ++ hi)%string /\ String.leb lo hi = true /\
    ((lo = a /\ hi = b) \/ (lo = b /\ hi = a)).
Proof.
  rewrite matchIdOf_sorted. destruct (String.leb a b) eqn:Hab.
  - exists a, b. auto.
  - exists b, a. split; [reflexivity|]. split; [|auto].
    destruct (String.leb_total a b); congruence.
Qed.

Lemma likeExists_iff db a b :
  likeExists db a b <->
  exists l, In l (publicLikes db) /\ likerId l = a /\ likedId l = b.
Proof.
  unfold likeExists, queryLikes. split.
  - intros Hne.
    destruct (List.filter _ (publicLikes db)) as [|l ls] eqn:E; [congruence|].
    assert (Hin : In l (List.filter
      (fun l => String.eqb (likerId l) a && String.eqb (likedId l) b)
      (publicLikes db))) by (rewrite E; left; reflexivity).
    apply filter_In in Hin. destruct Hin as [Hin Hb].
    apply andb_true_iff in Hb. destruct Hb as [H1 H2].
    apply String.eqb_eq in H1, H2. eauto.
  - intros (l & Hin & <- & <-) E.
    assert (Hin' : In l (List.filter
      (fun l0 => String.eqb (likerId l0) (likerId l) && String.eqb (likedId l0) (likedId l))
      (publicLikes db))).
    { apply filter_In. split; [assumption|]. rewrite !String.eqb_refl. reflexivity. }
    rewrite E in Hin'. destruct Hin'.
Qed.

Lemma snapshotEmpty_false db a b :
  snapshotEmpty (queryLikes a b db) = false <-> likeExists db a b.
Proof.
  unfold likeExists. destruct (queryLikes a b db); simpl; split; congruence.
Qed.

Lemma snapshotEmpty_true db a b :
  snapshotEmpty (queryLikes a b db) = true <-> ~ likeExists db a b.
Proof.
  unfold likeExists. destruct (queryLikes a b db); simpl; split.
  - intros _ H. apply H. reflexivity.
  - reflexivity.
  - discriminate.
  - intros H. exfalso. apply H. discriminate.
Qed.

Lemma handleSwipe_like db c u p now :
  swipingOn c u p ->
  let db1 := afterLike u p now c db in
  let found := negb (snapshotEmpty (queryLikes (profileId p) u db1)) in
  let db2 := fst (fst (handleSwipe Like now db c)) in
  snd (handleSwipe Like now db c) =
    Swiped (if found then Some (matchIdOf u (profileId p)) else None) /\
  metadata db2 = metadata db1 /\
  likes db2 = likes db1 /\
  publicLikes db2 = publicLikes db1 /\
  matches db2 =
    (if found then
       <[ (u, matchIdOf u (profileId p)) :=
            {| partnerId := profileId p; matchTimestamp := now |} ]> (matches db)
     else matches db).
Proof.
  intros (Hu & Hc & Hl & Hp & Hlim). cbv zeta.
  unfold handleSwipe. rewrite Hc, Hl, Hp. simpl.
  replace ((dailySwipeCount c >=? MAX_SWIPES_PER_DAY) && negb (hasSubscriptionNFT c))
    with false.
  2:{ symmetry. destruct Hlim as [Hlt | Hn].
      - destruct (Z.geb_spec (dailySwipeCount c) MAX_SWIPES_PER_DAY); [lia|reflexivity].
      - rewrite Hn. apply andb_false_r. }
  unfold checkForMatch, afterLike. simpl. rewrite Hu.
  destruct (snapshotEmpty _) eqn:E; simpl; repeat split; reflexivity.
Qed.




Lemma likeExists_added db db' u p t a b :
  publicLikes db' =
    publicLikes db ++ [ {| likerId := u; likedId := p; likeTimestamp := t |} ] ->
  likeExists db' a b <-> likeExists db a b \/ (a = u /\ b = p).
Proof.
  intros Hl. rewrite !likeExists_iff. rewrite Hl. split.
  - intros (l & Hin & Ha & Hb). apply in_app_iff in Hin. destruct Hin as [Hin|Hin].
    + left. eauto.
    + right. destruct Hin as [<-|[]]. simpl in *. auto.
  - intros [(l & Hin & Ha & Hb) | [-> ->]].
    + exists l. rewrite in_app_iff. auto.
    + eexists. rewrite in_app_iff. split; [right; left; reflexivity|]. auto.
Qed.






(** ** Match ids of the cards *)


Lemma substring_none s : String.substring 0 0 s = ""%string.
Proof. destruct s; reflexivity. Qed.

Lemma length_append s1 s2 :
  String.length (s1 ++ s2)%string = (String.length s1 + String.length s2)%nat.
Proof. induction s1 as [|c s1 IH]; simpl; [reflexivity|]. rewrite IH. reflexivity. Qed.

(** What stands before a known end of a string, and after a known front. *)
Lemma append_front : forall b s k,
  (b ++ s)%string = k ->
  b = String.substring 0 (String.length k - String.length s) k.
Proof.
  induction b as [|c b IH]; intros s k Hk; subst k.
  - simpl. rewrite Nat.sub_diag, substring_none. reflexivity.
  - simpl String.append. simpl String.length.
    replace (S (String.length (b ++ s)%string) - String.length s)%nat
      with (S (String.length (b ++ s)%string - String.length s))
      by (rewrite length_append; lia).
    simpl. f_equal. apply IH. reflexivity.
Qed.



Lemma append_cancel_l : forall s x y, (s ++ x)%string = (s ++ y)%string -> x = y.
Proof.
  induction s as [|c s IH]; intros x y H; simpl in H; [exact H|].
  inversion H. auto.
Qed.

Lemma append_cancel_r s x y : (x ++ s)%string = (y ++ s)%string -> x = y.
Proof.
  intros H. rewrite (append_front x s _ eq_refl), (append_front y s _ eq_refl).
  rewrite H. reflexivity.
Qed.









Lemma sampleClient_swipingOn uid p : swipingOn (sampleClient uid p) uid p.
Proof.
  unfold swipingOn. simpl.
  split; [reflexivity|]. split; [reflexivity|]. split; [reflexivity|].
  split; [reflexivity|]. left. reflexivity.
Qed.

Lemma afterLike_likes u p now c db :
  publicLikes (afterLike u p now c db) =
    publicLikes db ++ [ {| likerId := u; likedId := profileId p; likeTimestamp := now |} ].
Proof. reflexivity. Qed.

(** A like by a ready client when the reverse like is already there. *)
Lemma handleSwipe_completes db c u p now :
  swipingOn c u p -> likeExists db (profileId p) u ->
  snd (handleSwipe Like now db c) = Swiped (Some (matchIdOf u (profileId p))) /\
  publicLikes (fst (fst (handleSwipe Like now db c))) =
    publicLikes db ++ [ {| likerId := u; likedId := profileId p; likeTimestamp := now |} ] /\
  matches (fst (fst (handleSwipe Like now db c))) =
    <[ (u, matchIdOf u (profileId p)) :=
         {| partnerId := profileId p; matchTimestamp := now |} ]> (matches db).
Proof.
  intros Hsw Hrev.
  destruct (handleSwipe_like db c u p now Hsw) as (Hr & _ & _ & Hl & Hm).
  assert (Hf : negb (snapshotEmpty (queryLikes (profileId p) u (afterLike u p now c db))) = true).
  { rewrite negb_true_iff, snapshotEmpty_false.
    apply (likeExists_added db _ _ _ _ _ _ (afterLike_likes u p now c db)). auto. }
  rewrite Hf in Hr, Hm. auto.
Qed.



(** Both sides of the equivalence hold in the database of the two likes,
    and neither holds after the first like alone. *)
Example match_of_two_cards :
  let db1 := runSwipes [MatchMakerLoad.likeOf "profile_1" MatchMakerLoad.kore 1]
               emptyFirestore in
  let db2 := runSwipes [MatchMakerLoad.likeOf "profile_2" MatchMakerLoad.luna 2] db1 in
  matches db1 = ∅ /\ countLikes db1 "profile_2" "profile_1" = 0%nat /\
  size (matches db2) = 1%nat /\
  countLikes db2 "profile_1" "profile_2" = 1%nat /\
  countLikes db2 "profile_2" "profile_1" = 1%nat.
Proof. vm_compute. repeat split. Qed.

(** The restriction to the cards matters.  The ids are joined with ["_"],
    so with ids of another shape, which no card has, the pairs
    {a_b_a, b_a} and {a_b_a, a_b} would have one match id: once a_b_a and
    b_a like each other, the match document of a_b_a and a_b is there
    although neither of them liked the other. *)
Lemma match_key_shared_by_two_pairs :
  let db := runSwipes [likeEvent "b_a" "a_b_a" 1; likeEvent "a_b_a" "b_a" 2]
              emptyFirestore in
  matchExists db "a_b_a" "a_b" /\
  ~ (likeExists db "a_b_a" "a_b" /\ likeExists db "a_b" "a_b_a").
Proof.
  split.
  - left. eexists. vm_compute. reflexivity.
  - intros [H _]. apply H. vm_compute. reflexivity.
Qed.

(** The document is kept in the matches of the user who made the second
    like only. *)
Example match_document_on_one_side :
  let db := runSwipes [MatchMakerLoad.likeOf "profile_1" MatchMakerLoad.kore 1;
                       MatchMakerLoad.likeOf "profile_2" MatchMakerLoad.luna 2]
              emptyFirestore in
  matches db !! ("profile_2", "profile_1_profile_2"%string) =
    Some {| partnerId := "profile_1"; matchTimestamp := 2 |} /\
  matches db !! ("profile_1", "profile_1_profile_2"%string) = None.
Proof. vm_compute. split; reflexivity. Qed.

(** A repeated like that finds the match again gives the document the
    time of the repeated call. *)
Example repeated_match_takes_new_time :
  let db := runSwipes [MatchMakerLoad.likeOf "profile_1" MatchMakerLoad.kore 1;
                       MatchMakerLoad.likeOf "profile_2" MatchMakerLoad.luna 2;
                       MatchMakerLoad.likeOf "profile_2" MatchMakerLoad.luna 3]
              emptyFirestore in
  matches db !! ("profile_2", "profile_1_profile_2"%string) =
    Some {| partnerId := "profile_1"; matchTimestamp := 3 |} /\
  size (matches db) = 1%nat.
Proof. vm_compute. split; reflexivity. Qed.

(** With such a shared match id, the second mutual like of a user would
    take the place of the first. *)
Example second_match_overwrites_first :
  let db := runSwipes [likeEvent "b_a" "a_b_a" 1; likeEvent "a_b_a" "b_a" 2;
                       likeEvent "a_b" "a_b_a" 3; likeEvent "a_b_a" "a_b" 4]
              emptyFirestore in
  matchIdOf "a_b_a" "b_a" = matchIdOf "a_b_a" "a_b" /\
  matches db !! ("a_b_a", matchIdOf "a_b_a" "b_a")
    = Some {| partnerId := "a_b"; matchTimestamp := 4 |} /\
  size (matches db) = 1%nat.
Proof. vm_compute. repeat split. Qed.

(** A like by a ready client when there is no reverse like. *)
Lemma handleSwipe_waits db c u p now :
  swipingOn c u p -> ~ likeExists db (profileId p) u -> profileId p <> u ->
  snd (handleSwipe Like now db c) = Swiped None /\
  matches (fst (fst (handleSwipe Like now db c))) = matches db.
Proof.
  intros Hsw Hrev Hne.
  destruct (handleSwipe_like db c u p now Hsw) as (Hr & _ & _ & Hl & Hm).
  assert (Hf : negb (snapshotEmpty (queryLikes (profileId p) u (afterLike u p now c db))) = false).
  { rewrite negb_false_iff, snapshotEmpty_true.
    rewrite (likeExists_added db _ _ _ _ _ _ (afterLike_likes u p now c db)).
    intros [H | [H _]]; [exact (Hrev H) | exact (Hne H)]. }
  rewrite Hf in Hr, Hm. auto.
Qed.

(** Claim C4.  A likes B, then B likes A: the first like finds no match
    (when B had not liked A before), the second does, and reports the key
    of the sorted pair: the smaller of the two ids in the order of
    [String.leb], then ["_"], then the larger.  With the two likes made
    in the other order the match is found under the same id. *)
Theorem match_id_order_independent (db : Firestore) (a b : string)
    (pa pb : Profile) (ca cb : Client) (t1 t2 : Z) :
  profileId pa = a -> profileId pb = b ->
  swipingOn ca a pb -> swipingOn cb b pa ->
  let first := handleSwipe Like t1 db ca in
  let second := handleSwipe Like t2 (fst (fst first)) cb in
  let first' := handleSwipe Like t1 db cb in
  let second' := handleSwipe Like t2 (fst (fst first')) ca in
  (~ likeExists db b a -> a <> b -> snd first = Swiped None) /\
  snd second = Swiped (Some (matchIdOf a b)) /\
  snd second' = Swiped (Some (matchIdOf a b)) /\
  (exists lo hi,
     matchIdOf a b = (lo ++ "_" ++ hi)%string /\ String.leb lo hi = true /\
     ((lo = a /\ hi = b) \/ (lo = b /\ hi = a))) /\
  matchIdOf b a = matchIdOf a b /\
  matches (fst (fst second)) !! (b, matchIdOf a b) =
    Some {| partnerId := a; matchTimestamp := t2 |} /\
  matches (fst (fst second')) !! (a, matchIdOf a b) =
    Some {| partnerId := b; matchTimestamp := t2 |}.
Proof.
  intros Hpa Hpb Hca Hcb first second first' second'. subst a b.
  destruct (handleSwipe_like db ca _ pb t1 Hca) as (_ & _ & _ & Hl & _).
  destruct (handleSwipe_like db cb _ pa t1 Hcb) as (_ & _ & _ & Hl' & _).
  fold first in Hl. fold first' in Hl'. rewrite afterLike_likes in Hl, Hl'.
  assert (Hab : likeExists (fst (fst first)) (profileId pa) (profileId pb)).
  { apply (likeExists_added db _ _ _ _ _ _ Hl). auto. }
  assert (Hba : likeExists (fst (fst first')) (profileId pb) (profileId pa)).
  { apply (likeExists_added db _ _ _ _ _ _ Hl'). auto. }
  destruct (handleSwipe_completes _ cb _ pa t2 Hcb Hab) as (Hr & _ & Hm).
  destruct (handleSwipe_completes _ ca _ pb t2 Hca Hba) as (Hr' & _ & Hm').
  fold second in Hr, Hm. fold second' in Hr', Hm'.
  rewrite (matchIdOf_comm (profileId pb) (profileId pa)) in Hr, Hm.
  split; [|split; [exact Hr | split; [exact Hr' | split;
           [apply matchIdOf_key | split; [apply matchIdOf_comm | split]]]]].
  - intros Hno Hne. apply (handleSwipe_waits db ca _ pb t1 Hca Hno).
    intros H. apply Hne. symmetry. exact H.
  - rewrite Hm. apply lookup_insert_eq.
  - rewrite Hm'. apply lookup_insert_eq.
Qed.

Lemma match_id_order_independent_witness :
  let ca := sampleClient "profile_2" MatchMakerLoad.luna in
  let cb := sampleClient "profile_1" MatchMakerLoad.kore in
  let first := handleSwipe Like 1 emptyFirestore ca in
  let second := handleSwipe Like 2 (fst (fst first)) cb in
  let first' := handleSwipe Like 1 emptyFirestore cb in
  let second' := handleSwipe Like 2 (fst (fst first')) ca in
  (~ likeExists emptyFirestore "profile_1" "profile_2" -> "profile_2" <> "profile_1" ->
   snd first = Swiped None) /\
  snd second = Swiped (Some (matchIdOf "profile_2" "profile_1")) /\
  snd second' = Swiped (Some (matchIdOf "profile_2" "profile_1")) /\
  (exists lo hi,
     matchIdOf "profile_2" "profile_1" = (lo ++ "_" ++ hi)%string /\
     String.leb lo hi = true /\
     ((lo = "profile_2" /\ hi = "profile_1") \/
      (lo = "profile_1" /\ hi = "profile_2"))) /\
  matchIdOf "profile_1" "profile_2" = matchIdOf "profile_2" "profile_1" /\
  matches (fst (fst second)) !! ("profile_1", matchIdOf "profile_2" "profile_1") =
    Some {| partnerId := "profile_2"; matchTimestamp := 2 |} /\
  matches (fst (fst second')) !! ("profile_2", matchIdOf "profile_2" "profile_1") =
    Some {| partnerId := "profile_1"; matchTimestamp := 2 |}.
Proof.
  apply (match_id_order_independent emptyFirestore "profile_2" "profile_1"
           MatchMakerLoad.kore MatchMakerLoad.luna).
  - reflexivity.
  - reflexivity.
  - apply sampleClient_swipingOn.
  - apply sampleClient_swipingOn.
Defined.

Example alice_bob_match_id : matchIdOf "bob" "alice" = "alice_bob"%string.
Proof. reflexivity. Qed.

(** Counterexample to claim C5 as stated.  The public like is stored with
    [addDoc]: a repeated like adds a second document for the same ordered
    pair. *)
Lemma repeated_like_adds_public_like :
  let c := sampleClient "alice" {| profileId := "bob"; profileName := "Bob" |} in
  let db1 := fst (fst (handleSwipe Like 1 emptyFirestore c)) in
  let db2 := fst (fst (handleSwipe Like 1 db1 c)) in
  countLikes db1 "alice" "bob" = 1%nat /\
  countLikes db2 "alice" "bob" = 2%nat /\
  publicLikes db2 <> publicLikes db1.
Proof. vm_compute. repeat split. discriminate. Qed.

Lemma queryLikes_added db db' u p t a b :
  publicLikes db' =
    publicLikes db ++ [ {| likerId := u; likedId := p; likeTimestamp := t |} ] ->
  queryLikes a b db' =
    queryLikes a b db ++
      (if String.eqb u a && String.eqb p b
       then [ {| likerId := u; likedId := p; likeTimestamp := t |} ] else []).
Proof.
  intros Hl. unfold queryLikes. rewrite Hl, List.filter_app. reflexivity.
Qed.

(** Claim C5, amended.  When a user likes the same profile twice, both
    calls give the same match result and the user's own likes collection
    keeps one document per profile (the second call writes it again, with
    the new time), but each call adds one document to the public likes. *)
Theorem repeated_like_is_recorded_again (db : Firestore) (a : string) (pb : Profile)
    (c1 c2 : Client) (t1 t2 : Z) :
  swipingOn c1 a pb -> swipingOn c2 a pb ->
  let db1 := fst (fst (handleSwipe Like t1 db c1)) in
  let db2 := fst (fst (handleSwipe Like t2 db1 c2)) in
  snd (handleSwipe Like t2 db1 c2) = snd (handleSwipe Like t1 db c1) /\
  dom (likes db2) = dom (likes db1) /\
  likes db2 !! (a, profileId pb) =
    Some {| likedProfileId := profileId pb; swipeAction := Like;
            swipeTimestamp := t2 |} /\
  publicLikes db2 =
    publicLikes db1 ++
      [ {| likerId := a; likedId := profileId pb; likeTimestamp := t2 |} ] /\
  countLikes db2 a (profileId pb) = S (countLikes db1 a (profileId pb)).
Proof.
  intros H1 H2 db1 db2.
  destruct (handleSwipe_like db c1 a pb t1 H1) as (Hr1 & _ & Hk1 & Hl1 & _).
  destruct (handleSwipe_like db1 c2 a pb t2 H2) as (Hr2 & _ & Hk2 & Hl2 & _).
  fold db1 in Hk1, Hl1. fold db2 in Hk2, Hl2.
  rewrite afterLike_likes in Hl1, Hl2.
  split; [|split; [|split; [|split]]].
  - rewrite Hr1, Hr2. do 2 f_equal.
    unfold queryLikes. rewrite !afterLike_likes, Hl1.
    rewrite !List.filter_app. simpl.
    destruct (String.eqb a (profileId pb) && String.eqb (profileId pb) a);
      destruct (List.filter _ (publicLikes db)); reflexivity.
  - rewrite Hk2. simpl. rewrite !Hk1. simpl. rewrite !dom_insert_L.
    apply set_eq. intros x. rewrite !elem_of_union. tauto.
  - rewrite Hk2. simpl. apply lookup_insert_eq.
  - exact Hl2.
  - unfold countLikes.
    rewrite (queryLikes_added db1 db2 _ _ _ _ _ Hl2), !String.eqb_refl.
    simpl. rewrite length_app. simpl. lia.
Qed.

Lemma repeated_like_is_recorded_again_witness :
  let c := sampleClient "alice" {| profileId := "bob"; profileName := "Bob" |} in
  let db1 := fst (fst (handleSwipe Like 1 emptyFirestore c)) in
  let db2 := fst (fst (handleSwipe Like 2 db1 c)) in
  snd (handleSwipe Like 2 db1 c) = snd (handleSwipe Like 1 emptyFirestore c) /\
  dom (likes db2) = dom (likes db1) /\
  likes db2 !! ("alice", "bob") =
    Some {| likedProfileId := "bob"; swipeAction := Like; swipeTimestamp := 2 |} /\
  publicLikes db2 =
    publicLikes db1 ++
      [ {| likerId := "alice"; likedId := "bob"; likeTimestamp := 2 |} ] /\
  countLikes db2 "alice" "bob" = S (countLikes db1 "alice" "bob").
Proof.
  apply (repeated_like_is_recorded_again emptyFirestore "alice"
           {| profileId := "bob"; profileName := "Bob" |}
           (sampleClient "alice" {| profileId := "bob"; profileName := "Bob" |})
           (sampleClient "alice" {| profileId := "bob"; profileName := "Bob" |}) 1 2);
    apply sampleClient_swipingOn.
Defined.

End MatchMakerFacts.

(* ================================================================== *)
(** * Properties of the rest of the code *)
(* ================================================================== *)

Section QuotaVariantsMore.

Import SwipeLimiter SwipeLimiterView.

(** Property X1. The listener comes to rest. Its callback may write (the
    first document, a reset), which brings another callback; after these
    two rounds one more callback at that time changes neither the document
    nor the client, whatever the state it started from. *)
Theorem listener_comes_to_rest (now : Z) (w : World) :
  onSnapshot now (settle now w) = settle now w.
Proof.
  unfold settle.
  destruct w as [[[c l p]|] [con ld us modal msg]];
    unfold onSnapshot, resetSwipeCount; simpl.
  - destruct p; simpl; [reflexivity|].
    destruct ((now - l >=? MILLISECONDS_IN_DAY) && (c >? 0)) eqn:E; simpl.
    + rewrite !andb_false_r. simpl. rewrite ?andb_false_r. reflexivity.
    + rewrite E. simpl. rewrite E. reflexivity.
  - rewrite andb_false_r. simpl. rewrite andb_false_r. reflexivity.
Qed.

(** Property X2. The swipe buttons are disabled exactly when the handler
    would open the limit dialog from the status the client shows: a ready
    client can reach that branch of [handleSwipe] only without the
    buttons. *)
Theorem buttons_disabled_iff_limit_branch (limit now : Z) (w : World) :
  connected (client w) = true -> isLoading (client w) = false ->
  (isLimitReached limit (userStatus (client w)) = true <->
   snd (handleSwipe limit now w) = LimitModal) /\
  snd (clickSwipe limit now w) <> Some LimitModal.
Proof.
  intros Hc Hl.
  assert (Hiff : isLimitReached limit (userStatus (client w)) = true <->
                 snd (handleSwipe limit now w) = LimitModal).
  { unfold isLimitReached, swipesRemaining, handleSwipe.
    rewrite Hc, Hl. simpl.
    destruct (isPremium (userStatus (client w))); simpl; [split; simpl; intros H; discriminate H|].
    destruct (Z.geb_spec (swipeCount (userStatus (client w))) limit) as [Hge|Hlt].
    - split; [reflexivity|]. intros _. apply Z.eqb_eq. lia.
    - split.
      + intros H. apply Z.eqb_eq in H. lia.
      + destruct (swipeTransaction limit now (store w)); simpl; intros H; discriminate H. }
  split; [exact Hiff|].
  unfold clickSwipe.
  destruct (isLimitReached limit (userStatus (client w))) eqn:E; [discriminate|].
  destruct (handleSwipe limit now w) as [w' r] eqn:Hh. simpl in *.
  intros H. inversion H; subst. destruct Hiff as [_ Hback].
  pose proof (Hback eq_refl) as Ht. congruence.
Qed.

Lemma buttons_disabled_iff_limit_branch_witness :
  (isLimitReached DAILY_LIMIT (userStatus (client atLimitWorld)) = true <->
   snd (handleSwipe DAILY_LIMIT 9 atLimitWorld) = LimitModal) /\
  snd (clickSwipe DAILY_LIMIT 9 atLimitWorld) <> Some LimitModal.
Proof.
  apply (buttons_disabled_iff_limit_branch DAILY_LIMIT 9 atLimitWorld);
    reflexivity.
Defined.

End QuotaVariantsMore.

Section SwipeScreenMore.

Import SwipeScreen SwipeScreenDays.

Lemma screen_fifty_then_blocked_witness :
  fst (swipeAll utc minuteSwipes (worldAt 0 0)) = repeat true 50 /\
  snd (handleSwipe LIKE (snd (swipeAll utc minuteSwipes (worldAt 0 0)))) = LimitModal /\
  store (fst (handleSwipe LIKE (snd (swipeAll utc minuteSwipes (worldAt 0 0))))) =
    store (snd (swipeAll utc minuteSwipes (worldAt 0 0))).
Proof.
  apply (screen_fifty_then_blocked utc minuteSwipes LIKE (worldAt 0 0) (statusAt 0 0)).
  - repeat split.
  - reflexivity.
  - reflexivity.
  - reflexivity.
  - unfold minuteSwipes. simpl. repeat constructor.
Defined.

Lemma screen_isNewDay_after_a_day_witness :
  isNewDay springZone (81000000 + MILLISECONDS_IN_DAY) (Some 81000000) = true.
Proof.
  apply (screen_isNewDay_after_a_day springZone (81000000 + MILLISECONDS_IN_DAY)
           81000000).
  - vm_compute. discriminate.
  - vm_compute. discriminate.
Defined.

(** What the listener and the reset effect leave behind. *)
Lemma screen_settle_store zone now w st :
  store w = Some st -> connected (client w) = true ->
  isAuthReady (client w) = true ->
  synced (settle zone now w)
    (if isNewDay zone now (Some (lastResetDate st))
     then {| swipesToday := 0; isPremium := isPremium st; lastResetDate := now |}
     else st).
Proof.
  intros Hs Hc Ha. destruct w as [s [con auth d cp msg modal stp]].
  simpl in *. subst s con auth.
  unfold settle, onSnapshot, resetEffect, isNewDay. simpl.
  destruct (negb (dayOf zone now =? dayOf zone (lastResetDate st))) eqn:E; simpl.
  - rewrite Z.eqb_refl. simpl. repeat split.
  - rewrite E. simpl. repeat split.
Qed.

(** Property X5. Opening the application on a later calendar day gives the
    whole day's swipes back, to a user at the limit too: the count is
    reset to 0 with the time of the opening as reset date, and the next
    swipe is granted and stored as the first of the day. *)
Theorem new_day_gives_swipes_back zone direction now (w : World) (st : Status) :
  synced w st -> isPremium st = false ->
  dayOf zone now <> dayOf zone (lastResetDate st) ->
  synced (settle zone now w)
    {| swipesToday := 0; isPremium := false; lastResetDate := now |} /\
  snd (handleSwipe direction (settle zone now w)) = Swiped true /\
  store (fst (handleSwipe direction (settle zone now w))) =
    Some {| swipesToday := 1; isPremium := false; lastResetDate := now |}.
Proof.
  intros (Hs & Hd & Hc & Ha) Hp Hday.
  pose proof (screen_settle_store zone now w st Hs Hc Ha) as Hset.
  unfold isNewDay in Hset. apply Z.eqb_neq in Hday. rewrite Hday, Hp in Hset.
  simpl in Hset. split; [exact Hset|].
  destruct Hset as (Hs' & Hd' & Hc' & Ha').
  unfold handleSwipe. rewrite Hc', Hd', Hs'. simpl. split; reflexivity.
Qed.

Lemma new_day_gives_swipes_back_witness :
  synced (settle utc (MILLISECONDS_IN_DAY + 5) (worldAt 50 0))
    {| swipesToday := 0; isPremium := false;
       lastResetDate := MILLISECONDS_IN_DAY + 5 |} /\
  snd (handleSwipe LIKE (settle utc (MILLISECONDS_IN_DAY + 5) (worldAt 50 0)))
    = Swiped true /\
  store (fst (handleSwipe LIKE (settle utc (MILLISECONDS_IN_DAY + 5) (worldAt 50 0)))) =
    Some {| swipesToday := 1; isPremium := false;
            lastResetDate := MILLISECONDS_IN_DAY + 5 |}.
Proof.
  apply (new_day_gives_swipes_back utc LIKE (MILLISECONDS_IN_DAY + 5)
           (worldAt 50 0) (statusAt 50 0)).
  - repeat split.
  - reflexivity.
  - vm_compute. discriminate.
Defined.

(** No act of any screen takes the premium flag out of the document. *)
Lemma act_premiumStored zone a w :
  premiumStored w -> premiumStored (act zone w a).
Proof.
  intros (st & Hs & Hp).
  destruct w as [s [con auth d cp msg modal stp]]. simpl in Hs. subst s.
  unfold premiumStored. destruct a as [|t|t|direction|t]; simpl.
  - eauto.
  - eauto.
  - unfold resetEffect. simpl. destruct (lastReset d); simpl; [|eauto].
    destruct (auth && con && negb (dayOf zone t =? dayOf zone z)); simpl; eauto.
  - unfold handleSwipe. simpl.
    destruct (negb con); simpl; [eauto|].
    destruct (negb (dataIsPremium d || (count d <? DAILY_SWIPE_LIMIT))); simpl; [eauto|].
    destruct (negb (dataIsPremium d)); simpl; eauto.
  - unfold handleMintOnBase. simpl. destruct (negb con); simpl; eauto.
Qed.

Lemma premiumKept_act zone a w :
  premiumKept w ->
  premiumKept (act zone w a) /\
  match a with
  | Swipe direction => allowed (snd (handleSwipe direction w)) = true
  | _ => True
  end.
Proof.
  intros (Hc & Ha & Hst & Hshown).
  pose proof (act_premiumStored zone a w Hst) as Hst'.
  destruct Hst as (st & Hs & Hp).
  destruct w as [s [con auth d cp msg modal stp]]. simpl in *. subst s con auth.
  destruct a as [|t|t|direction|t]; simpl in *.
  - split; [|exact I]. unfold premiumKept, DAILY_SWIPE_LIMIT. simpl.
    repeat split; auto. right. lia.
  - split; [|exact I]. unfold premiumKept. simpl. repeat split; auto.
  - split; [|exact I]. revert Hst'. unfold resetEffect. simpl.
    destruct (lastReset d); simpl; [|unfold premiumKept; simpl; auto].
    destruct (negb (dayOf zone t =? dayOf zone z)); simpl;
      unfold premiumKept; simpl; auto.
  - revert Hst'. unfold handleSwipe. simpl.
    assert (Hcan : dataIsPremium d || (count d <? DAILY_SWIPE_LIMIT) = true).
    { destruct Hshown as [-> | Hlt]; [reflexivity|].
      apply orb_true_iff. right. apply Z.ltb_lt. exact Hlt. }
    rewrite Hcan. simpl.
    destruct (dataIsPremium d) eqn:Hd; simpl; intros Hst'; (split; [|reflexivity]);
      unfold premiumKept; simpl; rewrite ?Hd; auto.
  - split; [|exact I]. unfold premiumKept. simpl in *. auto.
Qed.

Lemma premiumKept_step zone e w :
  premiumKept w ->
  premiumKept (step zone w e) /\
  match e with
  | Here (Swipe direction) => allowed (snd (handleSwipe direction w)) = true
  | _ => True
  end.
Proof.
  intros Hw. destruct e as [a|c' a]; simpl.
  - destruct (premiumKept_act zone a w Hw) as [Hk Hr]. split; [exact Hk|].
    destruct a; auto.
  - split; [|exact I]. destruct Hw as (Hc & Ha & Hst & Hshown).
    unfold premiumKept. simpl. repeat split; auto.
    apply (act_premiumStored zone a {| store := store w; client := c' |}).
    exact Hst.
Qed.

Lemma premiumKept_run zone es : forall w,
  premiumKept w ->
  neverRefused zone es w /\ premiumKept (run zone es w).
Proof.
  induction es as [|e es IH]; intros w Hw; simpl; [split; [exact I|exact Hw]|].
  destruct (premiumKept_step zone e w Hw) as [Hw' He].
  destruct (IH _ Hw') as [Hn Hr]. split; [split; [|exact Hn]|exact Hr].
  destruct e as [[]|]; auto.
Qed.

(** Property X6. From the first snapshot after the purchase on, no swipe of
    the screen is refused any more and the document stays premium,
    whatever follows, in any order and at any times: the screen is mounted
    again (it then shows a free user with a count of 0 until the next
    snapshot), snapshots arrive, the reset effect runs, the user swipes,
    the purchase is repeated, and other screens of the user, whatever they
    show, do any of these. *)
Theorem purchase_lifts_the_limit_for_good zone t0 t1 (es : list Event) (w : World) :
  connected (client w) = true -> isAuthReady (client w) = true ->
  let w0 := onSnapshot t1 (handleMintOnBase t0 w) in
  neverRefused zone es w0 /\
  exists st, store (run zone es w0) = Some st /\ isPremium st = true.
Proof.
  intros Hc Ha w0.
  assert (H0 : premiumKept w0).
  { subst w0. destruct w as [s [con auth d cp msg modal stp]].
    simpl in *. subst con auth.
    unfold handleMintOnBase, onSnapshot, premiumKept, premiumStored. simpl.
    repeat split; eauto. }
  destruct (premiumKept_run zone es _ H0) as [Hn (_ & _ & Hst & _)].
  split; assumption.
Qed.

Lemma purchase_lifts_the_limit_for_good_witness :
  let w0 := onSnapshot 6 (handleMintOnBase 5 (worldAt 50 0)) in
  let es := [Here (Swipe LIKE); Here Mount; Here (Swipe DISLIKE);
             Elsewhere (client (worldAt 50 0)) (Reset (2 * MILLISECONDS_IN_DAY));
             Elsewhere (client (worldAt 49 0)) (Swipe LIKE);
             Here (Swipe LIKE); Here (Snapshot (2 * MILLISECONDS_IN_DAY));
             Here (Reset (2 * MILLISECONDS_IN_DAY)); Here (Swipe LIKE);
             Here (Mint 7); Here (Swipe LIKE)] in
  neverRefused springZone es w0 /\
  exists st, store (run springZone es w0) = Some st /\ isPremium st = true.
Proof.
  apply (purchase_lifts_the_limit_for_good springZone 5 6
           [Here (Swipe LIKE); Here Mount; Here (Swipe DISLIKE);
            Elsewhere (client (worldAt 50 0)) (Reset (2 * MILLISECONDS_IN_DAY));
            Elsewhere (client (worldAt 49 0)) (Swipe LIKE);
            Here (Swipe LIKE); Here (Snapshot (2 * MILLISECONDS_IN_DAY));
            Here (Reset (2 * MILLISECONDS_IN_DAY)); Here (Swipe LIKE);
            Here (Mint 7); Here (Swipe LIKE)]
           (worldAt 50 0));
    reflexivity.
Defined.

(** A screen mounted again after the purchase shows a count of 0 until its
    first snapshot; a swipe made before it writes the count 1 into the
    premium document. *)
Example swipe_before_the_first_snapshot :
  store (run utc [Here Mount; Here (Swipe LIKE)]
           (onSnapshot 6 (handleMintOnBase 5 (worldAt 50 0)))) =
    Some {| swipesToday := 1; isPremium := true; lastResetDate := 5 |}.
Proof. reflexivity. Qed.

(** Between the purchase and the first snapshot the screen still shows the
    limit, and a swipe is refused. *)
Example swipe_before_the_purchase_is_shown :
  snd (handleSwipe LIKE (handleMintOnBase 5 (worldAt 50 0))) = LimitModal.
Proof. reflexivity. Qed.

End SwipeScreenMore.

Section BaseMatchNewMore.

Import BaseMatchNew BaseMatchNewSamples.

(** Claim C1, on src/Basematch-new.jsx.  [handleSwipe] writes the count
    that its client shows plus one, outside a transaction and without
    reading the document again.  With 49 of 50 swipes stored, two clients
    that both show 49 are both granted and the document holds 50: 51
    swipes have been granted in the window.  Fifty-one clients that show 0
    are all granted. *)
Lemma stale_callers_pass_the_limit :
  let c49 := client (worldWith (statusWith 49 0 [])) in
  let c0 := client (worldWith (statusWith 0 0 [])) in
  fst (serveClients [c49; c49] (Some (statusWith 49 0 []))) = [true; true] /\
  (snd (serveClients [c49; c49] (Some (statusWith 49 0 []))) ≫=
     fun st => Some (swipesToday st)) = Some DAILY_SWIPE_LIMIT /\
  grantedCount (fst (serveClients (repeat c0 51) (Some (statusWith 0 0 [])))) = 51 /\
  DAILY_SWIPE_LIMIT < 51.
Proof. vm_compute. repeat split. Qed.

Lemma new_swipeAll_bounded_witness :
  exists st',
    synced (snd (swipeAll 0 [(LIKE, 1); (DISLIKE, 2); (LIKE, 3); (LIKE, 4); (DISLIKE, 5)]
                   (worldWith (statusWith 47 0 [])))) st' /\
    swipesToday st' =
      swipesToday (statusWith 47 0 []) +
      grantedCount (fst (swipeAll 0 [(LIKE, 1); (DISLIKE, 2); (LIKE, 3); (LIKE, 4); (DISLIKE, 5)]
                           (worldWith (statusWith 47 0 [])))) /\
    swipesToday st' <= DAILY_SWIPE_LIMIT.
Proof.
  apply (new_swipeAll_bounded 0
           [(LIKE, 1); (DISLIKE, 2); (LIKE, 3); (LIKE, 4); (DISLIKE, 5)]
           (worldWith (statusWith 47 0 [])) (statusWith 47 0 [])).
  - repeat split. discriminate.
  - reflexivity.
  - vm_compute. discriminate.
  - repeat constructor.
Defined.

(** Property X8. The listener comes to rest after two rounds: whenever it
    was attached, a third callback at the same time changes nothing, the
    writes of the callbacks included; after the first callback the
    document exists and the client shows today as the reset date.  One
    round is enough when the document existed, or when the listener was
    attached on the day of the callback. *)
Theorem new_listener_comes_to_rest (mounted now : Z) (w : World) :
  let w1 := onSnapshot mounted now w in
  let w2 := onSnapshot mounted now w1 in
  onSnapshot mounted now w2 = w2 /\
  is_Some (store w1) /\
  lastResetDate (userStatus (client w1)) = Some (getTodayDateString now) /\
  (is_Some (store w) \/ getTodayDateString mounted = getTodayDateString now ->
   w2 = w1).
Proof.
  destruct w as [[st|] c]; unfold onSnapshot; simpl.
  - destruct (lastResetDate st) as [d|] eqn:Hd; simpl.
    + destruct (d =? getTodayDateString now) eqn:E; simpl.
      * rewrite Hd, E. simpl. rewrite Hd, E. simpl. apply Z.eqb_eq in E. subst d.
        repeat split; eauto.
      * rewrite Z.eqb_refl. simpl. rewrite Z.eqb_refl. simpl.
        repeat split; eauto.
    + rewrite Z.eqb_refl. simpl. rewrite Z.eqb_refl. simpl. repeat split; eauto.
  - destruct (getTodayDateString mounted =? getTodayDateString now) eqn:E; simpl;
      rewrite ?E, ?Z.eqb_refl; simpl; rewrite ?E, ?Z.eqb_refl; simpl.
    + apply Z.eqb_eq in E. repeat split; eauto. rewrite E. reflexivity.
    + repeat split; eauto.
      intros [[x Hx] | Heq]; [discriminate|].
      apply Z.eqb_neq in E. congruence.
Qed.

(** A listener attached on one day whose first snapshot arrives on the
    next: the document is created with the count 49 and the day of the
    attachment, and the callback that this write brings resets it. *)
Example new_listener_attached_the_day_before :
  let w := {| store := None;
              client := client (worldWith (initialStatus 5)) |} in
  let w1 := onSnapshot 5 (MILLISECONDS_IN_DAY + 5) w in
  let w2 := onSnapshot 5 (MILLISECONDS_IN_DAY + 5) w1 in
  store w1 = Some (initialStatus 5) /\
  swipesToday (userStatus (client w1)) = 0 /\
  (store w2 ≫= fun st => Some (swipesToday st, lastResetDate st)) =
    Some (0, Some 1).
Proof. repeat split. Qed.

(** Property X9. The purchase makes the user premium at the price of the
    list of liked profiles: the stored status map is replaced, not merged,
    so once the listener has delivered it the document and the client have
    no [matches], no [farcasterConnected] and a count of 0, whatever was
    stored; today's date is put back by the listener. *)
Theorem purchase_drops_liked_profiles wallet mounted now (w : World) (st : Status) :
  store w = Some st -> hasDb (client w) = true ->
  let w' := onSnapshot mounted now (handleMintNFT wallet w) in
  store w' =
    Some {| swipesToday := 0; isPremium := true;
            lastResetDate := Some (getTodayDateString now);
            matches := None; walletAddress := wallet;
            farcasterConnected := None |} /\
  Some (userStatus (client w')) = store w'.
Proof.
  intros Hs Hdb. unfold handleMintNFT, onSnapshot. simpl. rewrite Hdb, Hs. simpl.
  split; reflexivity.
Qed.

Lemma purchase_drops_liked_profiles_witness :
  let w' := onSnapshot 0 5 (handleMintNFT (Some "0xabc"%string)
                            (worldWith (statusWith 50 0 ["p1"; "p2"]%string))) in
  store w' =
    Some {| swipesToday := 0; isPremium := true;
            lastResetDate := Some (getTodayDateString 5);
            matches := None; walletAddress := Some "0xabc"%string;
            farcasterConnected := None |} /\
  Some (userStatus (client w')) = store w'.
Proof.
  apply (purchase_drops_liked_profiles (Some "0xabc"%string) 0 5
           (worldWith (statusWith 50 0 ["p1"; "p2"]%string))
           (statusWith 50 0 ["p1"; "p2"]%string)); reflexivity.
Defined.

Lemma arrayUnion_spec id ids :
  NoDup ids ->
  NoDup (arrayUnion id (Some ids)) /\
  id ∈ arrayUnion id (Some ids) /\
  (forall x, x ∈ arrayUnion id (Some ids) <-> x ∈ ids \/ x = id).
Proof.
  intros Hnd. unfold arrayUnion.
  destruct (existsb (String.eqb id) ids) eqn:E.
  - apply existsb_exists in E. destruct E as (y & Hin & Hy).
    apply String.eqb_eq in Hy. subst y. apply list_elem_of_In in Hin.
    split; [exact Hnd|]. split; [exact Hin|].
    intros x. split; [auto|]. intros [H| ->]; assumption.
  - assert (Hnot : id ∉ ids).
    { intros Hin. apply list_elem_of_In in Hin.
      assert (Ht : existsb (String.eqb id) ids = true).
      { apply existsb_exists. exists id. split; [exact Hin|apply String.eqb_refl]. }
      congruence. }
    split; [|split].
    + apply NoDup_app. split; [exact Hnd|]. split.
      * intros x Hx Hx'. apply list_elem_of_singleton in Hx'. subst. auto.
      * apply NoDup_singleton.
    + apply elem_of_app. right. apply list_elem_of_singleton. reflexivity.
    + intros x. rewrite elem_of_app, list_elem_of_singleton. reflexivity.
Qed.

(** Property X10. With Firestore, a swipe that likes a profile stores its
    id in the list of liked profiles once: the list keeps what it had, has
    the id, and has no duplicates if it had none. A dislike leaves the
    list alone. *)
Theorem liked_profiles_stored_once direction (w : World) (st : Status)
    (liked : list string) :
  store w = Some st -> hasDb (client w) = true ->
  matches st = Some liked -> NoDup liked ->
  allowed (snd (handleSwipe direction w)) = true ->
  exists st' liked' p,
    store (fst (handleSwipe direction w)) = Some st' /\
    matches st' = Some liked' /\ NoDup liked' /\
    profiles (client w)
      !! (currentIndex (client w) `mod` length (profiles (client w)))%nat = Some p /\
    match direction with
    | LIKE => forall x, x ∈ liked' <-> x ∈ liked \/ x = p
    | DISLIKE => liked' = liked
    end.
Proof.
  intros Hs Hdb Hm Hnd. unfold handleSwipe. rewrite Hdb, Hs.
  destruct (negb _ && _); simpl; [discriminate|].
  destruct (profiles (client w) !! _) as [p|]; simpl; [|discriminate].
  intros _. destruct direction; simpl.
  - rewrite Hm. destruct (arrayUnion_spec p liked Hnd) as (H1 & _ & H3).
    eexists _, _, p. split; [reflexivity|]. simpl. split; [reflexivity|].
    split; [exact H1|]. split; [reflexivity|exact H3].
  - eexists _, liked, p. split; [reflexivity|]. simpl. auto.
Qed.

Lemma liked_profiles_stored_once_witness :
  exists st' liked' p,
    store (fst (handleSwipe LIKE (worldWith (statusWith 3 0 ["p2"; "p1"]%string))))
      = Some st' /\
    matches st' = Some liked' /\ NoDup liked' /\
    profiles (client (worldWith (statusWith 3 0 ["p2"; "p1"]%string)))
      !! (currentIndex (client (worldWith (statusWith 3 0 ["p2"; "p1"]%string)))
          `mod` length (profiles (client (worldWith (statusWith 3 0 ["p2"; "p1"]%string)))))%nat
      = Some p /\
    forall x, x ∈ liked' <-> x ∈ ["p2"; "p1"]%string \/ x = p.
Proof.
  apply (liked_profiles_stored_once LIKE
           (worldWith (statusWith 3 0 ["p2"; "p1"]%string))
           (statusWith 3 0 ["p2"; "p1"]%string) ["p2"; "p1"]%string);
    try reflexivity.
  apply NoDup_cons. split; [|apply NoDup_singleton].
  intros H. apply list_elem_of_singleton in H. discriminate.
Defined.

End BaseMatchNewMore.

Section BaseMatchNewCardFacts.

Import BaseMatchNew BaseMatchNewCard.

Lemma onDrag_moves : forall (moves : list Z) w k,
  isDragging k = true -> moves <> [] ->
  fold_left onDrag moves (w, k) =
    (w, {| message := message k;
           cardPosition := Dragged (List.last moves 0 - startX k);
           isDragging := true; startX := startX k |}).
Proof.
  induction moves as [|x moves IH]; intros w k Hd Hne; [congruence|].
  assert (Hstep : onDrag (w, k) x =
    (w, {| message := message k; cardPosition := Dragged (x - startX k);
           isDragging := true; startX := startX k |})).
  { unfold onDrag. rewrite Hd. reflexivity. }
  change (fold_left onDrag (x :: moves) (w, k))
    with (fold_left onDrag moves (onDrag (w, k) x)).
  rewrite Hstep.
  destruct moves as [|y moves'].
  - reflexivity.
  - rewrite IH; [|reflexivity|discriminate]. reflexivity.
Qed.

(** Property X11. A drag swipes when it ends more than 100 pixels from
    where it began: with a card on top and swipes left (or a premium
    user), a gesture that goes down at [x0], moves, and goes up at [x1]
    likes the card when [x1 - x0 > 100], dislikes it when [x1 - x0 <
    -100], each time exactly as the button does, and otherwise (100 pixels
    included) leaves the application as it was and puts the card back in
    the centre. *)
Theorem drag_swipes_past_the_threshold (innerWidth x0 : Z) (moves : list Z)
    (w : World) (k : Card) (profile : string) :
  currentProfile w = Some profile -> limitReached w = false -> moves <> [] ->
  let d := List.last moves 0 - x0 in
  let held :=
    {| message := NoMessage; cardPosition := Dragged d; isDragging := false;
       startX := x0 |} in
  (100 < d ->
   drag innerWidth x0 moves (w, k) = handleSwipeClick LIKE (w, held) /\
   fst (drag innerWidth x0 moves (w, k)) = fst (handleSwipe LIKE w)) /\
  (d < -100 ->
   drag innerWidth x0 moves (w, k) = handleSwipeClick DISLIKE (w, held) /\
   fst (drag innerWidth x0 moves (w, k)) = fst (handleSwipe DISLIKE w)) /\
  (-100 <= d <= 100 ->
   drag innerWidth x0 moves (w, k) =
     (w, {| message := NoMessage; cardPosition := Centered;
            isDragging := false; startX := x0 |})).
Proof.
  intros Hp Hlim Hne d held.
  assert (Hdrag : fold_left onDrag moves (startDrag x0 (w, k)) =
    (w, {| message := NoMessage; cardPosition := Dragged d; isDragging := true;
           startX := x0 |})).
  { unfold startDrag. rewrite Hp, Hlim.
    rewrite onDrag_moves; [reflexivity|reflexivity|exact Hne]. }
  unfold drag. rewrite Hdrag. unfold endDrag.
  cbn [isDragging negb cardPosition cardX message startX].
  assert (Hclick : forall direction,
    handleSwipeClick direction (w, held) =
      (fst (handleSwipe direction w),
       {| message := SwipedMessage direction profile;
          cardPosition := ThrownOut direction; isDragging := false;
          startX := x0 |})).
  { intros direction. unfold handleSwipeClick. rewrite Hlim, Hp. reflexivity. }
  fold held. split; [|split]; intros Hd.
  - destruct (Z.gtb_spec d 100); [|lia]. rewrite Hclick. auto.
  - destruct (Z.gtb_spec d 100); [lia|].
    destruct (Z.ltb_spec d (-100)); [|lia]. rewrite Hclick. auto.
  - destruct (Z.gtb_spec d 100); [lia|].
    destruct (Z.ltb_spec d (-100)); [lia|]. reflexivity.
Qed.

Lemma drag_swipes_past_the_threshold_witness :
  let w := BaseMatchNewSamples.worldWith
             (BaseMatchNewSamples.statusWith 10 0 []) in
  let d := List.last [210; 260; 301] 0 - 200 in
  let held :=
    {| message := NoMessage; cardPosition := Dragged d; isDragging := false;
       startX := 200 |} in
  (100 < d ->
   drag 1280 200 [210; 260; 301] (w, restingCard) =
     handleSwipeClick LIKE (w, held) /\
   fst (drag 1280 200 [210; 260; 301] (w, restingCard)) =
     fst (handleSwipe LIKE w)) /\
  (d < -100 ->
   drag 1280 200 [210; 260; 301] (w, restingCard) =
     handleSwipeClick DISLIKE (w, held) /\
   fst (drag 1280 200 [210; 260; 301] (w, restingCard)) =
     fst (handleSwipe DISLIKE w)) /\
  (-100 <= d <= 100 ->
   drag 1280 200 [210; 260; 301] (w, restingCard) =
     (w, {| message := NoMessage; cardPosition := Centered;
            isDragging := false; startX := 200 |})).
Proof.
  apply (drag_swipes_past_the_threshold 1280 200 [210; 260; 301]
           (BaseMatchNewSamples.worldWith
              (BaseMatchNewSamples.statusWith 10 0 []))
           restingCard "p1").
  - reflexivity.
  - reflexivity.
  - discriminate.
Defined.

(** Property X12. At the limit the card cannot be swiped: for a user who
    is not premium and has no swipe left, a whole drag gesture on a card
    at rest and a click on either button (both are disabled) change
    neither the application nor the card; the pop-up is not opened by
    them and the limit branch of [handleSwipeClick] is not reached. *)
Theorem drag_at_the_limit_is_ignored (innerWidth x0 : Z) (moves : list Z)
    (direction : Direction) (w : World) (k : Card) :
  limitReached w = true -> isDragging k = false ->
  drag innerWidth x0 moves (w, k) = (w, k) /\
  clickButton direction (w, k) = (w, k).
Proof.
  intros Hlim Hd. split.
  - assert (Hstart : startDrag x0 (w, k) = (w, k)).
    { unfold startDrag. rewrite Hlim. destruct (currentProfile w); reflexivity. }
    assert (Hmoves : forall ms, fold_left onDrag ms (w, k) = (w, k)).
    { induction ms as [|x ms IH]; [reflexivity|]. simpl. rewrite Hd. exact IH. }
    unfold drag. rewrite Hstart, Hmoves. unfold endDrag. rewrite Hd. reflexivity.
  - unfold clickButton. simpl. rewrite Hlim. reflexivity.
Qed.

Lemma drag_at_the_limit_is_ignored_witness :
  let w := BaseMatchNewSamples.worldWith
             (BaseMatchNewSamples.statusWith 50 0 []) in
  drag 1280 200 [260; 400] (w, restingCard) = (w, restingCard) /\
  clickButton LIKE (w, restingCard) = (w, restingCard).
Proof.
  apply (drag_at_the_limit_is_ignored 1280 200 [260; 400] LIKE
           (BaseMatchNewSamples.worldWith
              (BaseMatchNewSamples.statusWith 50 0 []))
           restingCard).
  - reflexivity.
  - reflexivity.
Defined.

End BaseMatchNewCardFacts.

Section MatchMakerLoadFacts.

Import MatchMaker MatchMakerLoad.

Lemma elem_of_docsOf {A} (uid : string) (m : gmap (string * string) A) k d :
  (k, d) ∈ docsOf uid m <-> m !! (uid, k) = Some d.
Proof.
  unfold docsOf. rewrite list_elem_of_fmap. split.
  - intros ([[o k'] d'] & Heq & Hin). simpl in Heq. inversion Heq; subst.
    apply list_elem_of_filter in Hin. destruct Hin as [Ho Hin]. simpl in Ho.
    subst o. apply elem_of_map_to_list in Hin. exact Hin.
  - intros H. exists ((uid, k), d). split; [reflexivity|].
    apply list_elem_of_filter. split; [reflexivity|].
    apply elem_of_map_to_list. exact H.
Qed.

Lemma NoDup_docsOf_ids {A} (uid : string) (m : gmap (string * string) A) :
  NoDup (fst <$> docsOf uid m).
Proof.
  unfold docsOf. rewrite <- list_fmap_compose.
  apply NoDup_fmap_2_strong.
  - intros [[o1 k1] d1] [[o2 k2] d2] H1 H2 Heq. simpl in Heq. subst k2.
    apply list_elem_of_filter in H1. destruct H1 as [Ho1 H1].
    apply list_elem_of_filter in H2. destruct H2 as [Ho2 H2].
    simpl in Ho1, Ho2. subst o1 o2.
    apply elem_of_map_to_list in H1. apply elem_of_map_to_list in H2.
    congruence.
  - apply NoDup_filter. apply NoDup_map_to_list.
Qed.

Lemma elem_of_mySwipes uid db id :
  id ∈ mySwipes uid db <->
  exists k d, likes db !! (uid, k) = Some d /\ likedProfileId d = id.
Proof.
  unfold mySwipes. rewrite elem_of_list_to_set, list_elem_of_fmap. split.
  - intros ([k d] & Heq & Hin). apply elem_of_docsOf in Hin.
    exists k, d. auto.
  - intros (k & d & Hl & Hid). exists (k, d). split; [auto|].
    apply elem_of_docsOf. exact Hl.
Qed.

Lemma elem_of_unwipedProfiles uid gender db p :
  p ∈ unwipedProfiles uid gender db <->
  p ∈ MOCK_PROFILES /\ profileId (cardProfile p) <> uid /\
  (profileId (cardProfile p) ∉ mySwipes uid db) /\
  cardGender p = targetGender gender.
Proof.
  unfold unwipedProfiles. rewrite !list_elem_of_In, filter_In.
  rewrite !andb_true_iff, !negb_true_iff, String.eqb_eq, String.eqb_neq.
  rewrite bool_decide_eq_false. tauto.
Qed.

(** What a swipe of a ready client stores, whichever way it goes. *)
Lemma handleSwipe_recorded action now db c u p :
  swipingOn c u p ->
  let r := handleSwipe action now db c in
  (exists matched, snd r = Swiped matched) /\
  metadata (fst (fst r)) =
    <[ u := mergeSwipeCount (dailySwipeCount c + 1) now (metadata db !! u) ]>
      (metadata db) /\
  likes (fst (fst r)) =
    <[ (u, profileId p) :=
         {| likedProfileId := profileId p; swipeAction := action;
            swipeTimestamp := now |} ]> (likes db) /\
  dailySwipeCount (snd (fst r)) = dailySwipeCount c + 1.
Proof.
  intros (Hu & Hc & Hl & Hp & Hlim). cbv zeta.
  unfold handleSwipe. rewrite Hc, Hl, Hp. simpl.
  replace ((dailySwipeCount c >=? MAX_SWIPES_PER_DAY) && negb (hasSubscriptionNFT c))
    with false.
  2:{ symmetry. destruct Hlim as [Hlt | Hn].
      - destruct (Z.geb_spec (dailySwipeCount c) MAX_SWIPES_PER_DAY); [lia|reflexivity].
      - rewrite Hn. apply andb_false_r. }
  rewrite Hu. destruct action; simpl.
  - unfold checkForMatch. simpl.
    destruct (snapshotEmpty _); simpl; eauto 10.
  - eauto 10.
Qed.

Lemma loadData_gender zone now db s g m :
  connected (client s) = true ->
  metadata db !! userId (client s) = Some m ->
  docUserGender m = Some g -> g <> "" ->
  exists db1,
    fst (fst (loadData zone now db s)) = db1 /\
    likes db1 = likes db /\ matches db1 = matches db /\
    publicLikes db1 = publicLikes db /\
    snd (loadData zone now db s) = Loaded /\
    userGender (snd (fst (loadData zone now db s))) = Some g /\
    profiles (client (snd (fst (loadData zone now db s)))) =
      cardProfile <$> unwipedProfiles (userId (client s)) g db1 /\
    matchesList (client (snd (fst (loadData zone now db s)))) =
      confirmedMatches (userId (client s)) db1 /\
    swipedProfileIds (client (snd (fst (loadData zone now db s)))) =
      mySwipes (userId (client s)) db1.
Proof.
  intros Hc Hm Hg Hne. unfold loadData. rewrite Hc, Hm. simpl. rewrite Hg.
  unfold truthy. destruct (String.eqb_spec g ""); [congruence|]. simpl.
  eexists. split; [reflexivity|].
  destruct (isNewDay zone now (docLastSwipeReset m)); simpl; repeat split.
Qed.

(** ** What every request keeps *)

(** What a call of [handleSwipe] by a client in any state stores. *)
Lemma handleSwipe_writes action now db c :
  let db' := fst (fst (handleSwipe action now db c)) in
  (metadata db' = metadata db /\ likes db' = likes db) \/
  (exists p,
     metadata db' =
       <[ userId c :=
            mergeSwipeCount (dailySwipeCount c + 1) now (metadata db !! userId c) ]>
         (metadata db) /\
     likes db' =
       <[ (userId c, profileId p) :=
            {| likedProfileId := profileId p; swipeAction := action;
               swipeTimestamp := now |} ]> (likes db)).
Proof.
  cbv zeta. unfold handleSwipe.
  destruct (negb (connected c) || isLoading c); [left; auto|].
  destruct (profiles c !! currentProfileIndex c) as [p|]; [|left; auto].
  destruct ((dailySwipeCount c >=? MAX_SWIPES_PER_DAY) && negb (hasSubscriptionNFT c));
    [left; auto|].
  right. exists p. destruct action; simpl.
  - unfold checkForMatch. simpl. destruct (snapshotEmpty _); simpl; auto.
  - auto.
Qed.

(** [handleSwipe] leaves the user and the subscription of the client as
    they are, and does not refuse a subscriber for the limit. *)
Lemma handleSwipe_client action now db c :
  let r := handleSwipe action now db c in
  userId (snd (fst r)) = userId c /\
  hasSubscriptionNFT (snd (fst r)) = hasSubscriptionNFT c /\
  (hasSubscriptionNFT c = true -> snd r <> Limited).
Proof.
  cbv zeta. unfold handleSwipe.
  destruct (negb (connected c) || isLoading c);
    [split; [|split]; [reflexivity|reflexivity|discriminate]|].
  destruct (profiles c !! currentProfileIndex c) as [p|];
    [|split; [|split]; [reflexivity|reflexivity|discriminate]].
  destruct ((dailySwipeCount c >=? MAX_SWIPES_PER_DAY) && negb (hasSubscriptionNFT c))
    eqn:Hlim.
  - split; [|split]; [reflexivity|reflexivity|].
    intros Hn. rewrite Hn, andb_false_r in Hlim. discriminate.
  - destruct action; simpl.
    + unfold checkForMatch. simpl.
      destruct (snapshotEmpty _); simpl;
        (split; [|split]; [reflexivity|reflexivity|discriminate]).
    + split; [|split]; [reflexivity|reflexivity|discriminate].
Qed.

(** The effect writes nothing, or the count of the new day. *)
Lemma loadData_writes zone now db s :
  let db' := fst (fst (loadData zone now db s)) in
  db' = db \/
  db' = set_metadata db (userId (client s))
          (mergeSwipeCount 0 now (metadata db !! userId (client s))).
Proof.
  cbv zeta. unfold loadData.
  destruct (negb (connected (client s))); [left; reflexivity|].
  destruct (isNewDay zone now _);
    destruct (metadata db !! userId (client s) ≫= docUserGender) as [g|];
    try destruct (truthy g); simpl; auto.
Qed.

Lemma keepsProfile_refl o : keepsProfile o o.
Proof. intros m ->. exists m. split; [reflexivity|]. split; eauto. Qed.

Lemma keepsProfile_trans o1 o2 o3 :
  keepsProfile o1 o2 -> keepsProfile o2 o3 -> keepsProfile o1 o3.
Proof.
  intros H12 H23 m Hm.
  destruct (H12 m Hm) as (m2 & Hm2 & Hn2 & Hg2).
  destruct (H23 m2 Hm2) as (m3 & Hm3 & Hn3 & Hg3).
  exists m3. split; [exact Hm3|]. split; [auto|].
  intros g Hg Hne. destruct (Hg2 g Hg Hne) as (g2 & Hg2' & Hne2). eauto.
Qed.

Lemma keepsProfile_insert (md : gmap string Metadata) uid doc u :
  keepsProfile (md !! uid) (Some doc) ->
  keepsProfile (md !! u) (<[ uid := doc ]> md !! u).
Proof.
  intros H. destruct (decide (uid = u)) as [->|Hne].
  - rewrite lookup_insert_eq. exact H.
  - rewrite lookup_insert_ne by exact Hne. apply keepsProfile_refl.
Qed.

Lemma keepsProfile_mergeSwipeCount n t old :
  keepsProfile old (Some (mergeSwipeCount n t old)).
Proof.
  intros m ->. eexists. split; [reflexivity|]. simpl. split; [auto|]. eauto.
Qed.

Lemma genderName_chosen g : genderName g <> ""%string.
Proof. destruct g; discriminate. Qed.

Lemma keepsProfile_mergeGender g old :
  keepsProfile old (Some (mergeGender (genderName g) old)).
Proof.
  intros m ->. eexists. split; [reflexivity|]. simpl. split; [auto|].
  intros _ _ _. eauto using genderName_chosen.
Qed.

(** No request takes the subscription or the gender out of a document,
    whoever makes it. *)
Lemma serve_keeps zone r db s u :
  keepsProfile (metadata db !! u) (metadata (fst (serve zone r db s)) !! u).
Proof.
  destruct r as [action t|t|g| |]; simpl.
  - pose proof (handleSwipe_writes action t db (client s)) as H. cbv zeta in H.
    destruct (handleSwipe action t db (client s)) as [[db' c'] res]. simpl in *.
    destruct H as [[-> _] | (p & -> & _)]; [apply keepsProfile_refl|].
    apply keepsProfile_insert, keepsProfile_mergeSwipeCount.
  - destruct (loadData_writes zone t db s) as [-> | ->]; [apply keepsProfile_refl|].
    simpl. apply keepsProfile_insert, keepsProfile_mergeSwipeCount.
  - unfold handleGenderSelect.
    destruct (negb (connected (client s))); simpl; [apply keepsProfile_refl|].
    apply keepsProfile_insert, keepsProfile_mergeGender.
  - unfold handleMockNFTPurchase.
    destruct (negb (connected (client s))); simpl; [apply keepsProfile_refl|].
    destruct (metadata db !! userId (client s)) as [m|] eqn:Hm; simpl;
      [|apply keepsProfile_refl].
    apply keepsProfile_insert. rewrite Hm. intros m0 [= <-].
    eexists. split; [reflexivity|]. simpl. split; eauto.
  - unfold handleMockPaymentForLikes.
    destruct (negb (connected (client s))); simpl; [apply keepsProfile_refl|].
    destruct (metadata db !! userId (client s)) as [m|] eqn:Hm; simpl;
      [|apply keepsProfile_refl].
    apply keepsProfile_insert. rewrite Hm. intros m0 [= <-].
    eexists. split; [reflexivity|]. simpl. split; eauto.
Qed.

(** No request takes a likes document away, and the document of a card
    names the card. *)
Lemma serve_swipeStored zone r db s u id :
  swipeStored db u id -> swipeStored (fst (serve zone r db s)) u id.
Proof.
  intros (d & Hd & Hid).
  destruct r as [action t|t|g| |]; simpl.
  - pose proof (handleSwipe_writes action t db (client s)) as H. cbv zeta in H.
    destruct (handleSwipe action t db (client s)) as [[db' c'] res]. simpl in *.
    destruct H as [[_ Hl] | (p & _ & Hl)]; unfold swipeStored; rewrite Hl.
    + eauto.
    + destruct (decide ((userId (client s), profileId p) = (u, id))) as [Heq|Hne].
      * inversion Heq; subst. rewrite lookup_insert_eq. eauto.
      * rewrite lookup_insert_ne by exact Hne. eauto.
  - destruct (loadData_writes zone t db s) as [-> | ->];
      unfold swipeStored; simpl; eauto.
  - unfold handleGenderSelect.
    destruct (negb (connected (client s))); unfold swipeStored; simpl; eauto.
  - unfold handleMockNFTPurchase.
    destruct (negb (connected (client s))); [unfold swipeStored; simpl; eauto|].
    destruct (metadata db !! userId (client s)); unfold swipeStored; simpl; eauto.
  - unfold handleMockPaymentForLikes.
    destruct (negb (connected (client s))); [unfold swipeStored; simpl; eauto|].
    destruct (metadata db !! userId (client s)); unfold swipeStored; simpl; eauto.
Qed.

Lemma applyOps_keeps zone ops u : forall db,
  keepsProfile (metadata db !! u) (metadata (applyOps zone ops db) !! u).
Proof.
  induction ops as [|[s r] ops IH]; intros db; [apply keepsProfile_refl|].
  simpl. eapply keepsProfile_trans; [|apply IH]. apply serve_keeps.
Qed.

Lemma applyOps_swipeStored zone ops u id : forall db,
  swipeStored db u id -> swipeStored (applyOps zone ops db) u id.
Proof.
  induction ops as [|[s r] ops IH]; intros db H; [exact H|].
  simpl. apply IH. apply serve_swipeStored. exact H.
Qed.

(** Property X13. A card that was swiped is not dealt again: after a swipe
    of a ready client, to either side, on the card [p] by a user who has
    chosen a gender, and after any requests that follow it (swipes, loads,
    gender choices and purchases of any components of any users, in any
    state and order), the deck that [loadData] builds for the user holds
    no card with the id of [p]; the load completes, and the id is among
    the swiped ids it restores. *)
Theorem swiped_card_is_not_dealt_again (zone : Z -> Z) (action : Action) (now now' : Z)
    (db : Firestore) (c : Client) (u g : string) (p : Profile) (m : Metadata)
    (ops : list (Session * Request)) (s : Session) :
  swipingOn c u p ->
  metadata db !! u = Some m -> docUserGender m = Some g -> g <> "" ->
  userId (client s) = u -> connected (client s) = true ->
  let db' := applyOps zone ops (fst (fst (handleSwipe action now db c))) in
  let r := loadData zone now' db' s in
  snd r = Loaded /\
  profileId p ∈ swipedProfileIds (client (snd (fst r))) /\
  forall q, q ∈ profiles (client (snd (fst r))) -> profileId q <> profileId p.
Proof.
  intros Hready Hm Hg Hne Hu Hc db' r.
  destruct (handleSwipe_recorded action now db c u p Hready)
    as (_ & Hmeta & Hlikes & _).
  set (db0 := fst (fst (handleSwipe action now db c))) in *.
  assert (Hm0 : metadata db0 !! u =
                Some (mergeSwipeCount (dailySwipeCount c + 1) now (Some m))).
  { rewrite Hmeta, Hm. apply lookup_insert_eq. }
  assert (Hs0 : swipeStored db0 u (profileId p)).
  { eexists. rewrite Hlikes. split; [apply lookup_insert_eq|reflexivity]. }
  destruct (applyOps_keeps zone ops u db0 _ Hm0) as (m' & Hm' & _ & Hg').
  destruct (Hg' g Hg Hne) as (g' & Hg'' & Hne').
  destruct (applyOps_swipeStored zone ops u _ db0 Hs0) as (d & Hd & Hid).
  fold db' in Hm', Hd. rewrite <- Hu in Hm'.
  destruct (loadData_gender zone now' db' s g' _ Hc Hm' Hg'' Hne') as
    (db1 & _ & Hl1 & _ & _ & Hres & _ & Hprof & _ & Hsw).
  fold r in Hres, Hprof, Hsw.
  assert (Hin : profileId p ∈ mySwipes (userId (client s)) db1).
  { apply elem_of_mySwipes. exists (profileId p), d. rewrite Hl1, Hu. auto. }
  split; [exact Hres|]. split; [rewrite Hsw; exact Hin|].
  intros q Hq Heq. rewrite Hprof in Hq. apply list_elem_of_fmap in Hq.
  destruct Hq as (cd & -> & Hcd). apply elem_of_unwipedProfiles in Hcd.
  destruct Hcd as (_ & _ & Hnot & _). apply Hnot. rewrite Heq. exact Hin.
Qed.

Lemma swiped_card_is_not_dealt_again_witness :
  let db := dbWithGender "alice" "male" 0 in
  let c := sampleClient "alice" luna in
  let ops := [ (freshSession "alice", ReqGender Female);
               (set_client (freshSession "alice") (sampleClient "alice" luna),
                ReqSwipe Like 1500);
               (freshSession "bob", ReqLoad 1600);
               (freshSession "alice", ReqBuyNFT) ] in
  let db' := applyOps SwipeScreen.utc ops (fst (fst (handleSwipe Pass 1000 db c))) in
  let r := loadData SwipeScreen.utc 2000 db' (freshSession "alice") in
  snd r = Loaded /\
  profileId luna ∈ swipedProfileIds (client (snd (fst r))) /\
  forall q, q ∈ profiles (client (snd (fst r))) -> profileId q <> profileId luna.
Proof.
  apply (swiped_card_is_not_dealt_again SwipeScreen.utc Pass 1000 2000
           (dbWithGender "alice" "male" 0) (sampleClient "alice" luna)
           "alice" "male" luna
           {| docDailySwipeCount := Some 0; docLastSwipeReset := Some 0;
              docHasSubscriptionNFT := None; docHasPaidToViewLikes := None;
              docUserGender := Some "male" |}
           [ (freshSession "alice", ReqGender Female);
             (set_client (freshSession "alice") (sampleClient "alice" luna),
              ReqSwipe Like 1500);
             (freshSession "bob", ReqLoad 1600);
             (freshSession "alice", ReqBuyNFT) ]
           (freshSession "alice")).
  - apply sampleClient_swipingOn.
  - reflexivity.
  - reflexivity.
  - discriminate.
  - reflexivity.
  - reflexivity.
Defined.

(** Property X14. The count of the day survives a reload: after a swipe of
    a ready client at [now], a load at [now'] on the same local day
    restores the count of the client after the swipe and writes nothing; a
    load on another local day shows 0 and stores 0 with the time of the
    load. *)
Theorem swipe_count_survives_reload (zone : Z -> Z) (action : Action) (now now' : Z)
    (db : Firestore) (c : Client) (u : string) (p : Profile) (s : Session) :
  swipingOn c u p -> userId (client s) = u -> connected (client s) = true ->
  let db' := fst (fst (handleSwipe action now db c)) in
  let r := loadData zone now' db' s in
  (SwipeScreen.dayOf zone now' = SwipeScreen.dayOf zone now ->
     dailySwipeCount (client (snd (fst r))) = dailySwipeCount c + 1 /\
     fst (fst r) = db') /\
  (SwipeScreen.dayOf zone now' <> SwipeScreen.dayOf zone now ->
     dailySwipeCount (client (snd (fst r))) = 0 /\
     exists m, metadata (fst (fst r)) !! u = Some m /\
       docDailySwipeCount m = Some 0 /\ docLastSwipeReset m = Some now').
Proof.
  intros Hready Hu Hc db' r.
  destruct (handleSwipe_recorded action now db c u p Hready)
    as (_ & Hmeta & _ & _).
  fold db' in Hmeta.
  assert (Hm' : metadata db' !! userId (client s) =
    Some (mergeSwipeCount (dailySwipeCount c + 1) now (metadata db !! u))).
  { rewrite Hu, Hmeta. apply lookup_insert_eq. }
  subst r. unfold loadData. rewrite Hc, Hm'. simpl.
  split; intros Hday.
  - rewrite Hday, Z.eqb_refl. simpl.
    destruct (match _ ≫= docUserGender with Some _ => _ | None => _ end);
      simpl; auto.
  - destruct (Z.eqb_spec (SwipeScreen.dayOf zone now) (SwipeScreen.dayOf zone now'))
      as [E|E]; [congruence|]. simpl.
    destruct (match _ ≫= docUserGender with Some _ => _ | None => _ end);
      simpl; (split; [reflexivity|]); rewrite Hu; eexists;
      (split; [apply lookup_insert_eq|]); simpl; auto.
Qed.

Lemma swipe_count_survives_reload_witness :
  let c := sampleClient "alice" luna in
  let db' := fst (fst (handleSwipe Like 1000 emptyFirestore c)) in
  let r := loadData SwipeScreen.utc 2000 db' (freshSession "alice") in
  (SwipeScreen.dayOf SwipeScreen.utc 2000 = SwipeScreen.dayOf SwipeScreen.utc 1000 ->
     dailySwipeCount (client (snd (fst r))) = dailySwipeCount c + 1 /\
     fst (fst r) = db') /\
  (SwipeScreen.dayOf SwipeScreen.utc 2000 <> SwipeScreen.dayOf SwipeScreen.utc 1000 ->
     dailySwipeCount (client (snd (fst r))) = 0 /\
     exists m, metadata (fst (fst r)) !! "alice" = Some m /\
       docDailySwipeCount m = Some 0 /\ docLastSwipeReset m = Some 2000).
Proof.
  apply (swipe_count_survives_reload SwipeScreen.utc Like 1000 2000 emptyFirestore
           (sampleClient "alice" luna) "alice" luna (freshSession "alice")).
  - apply sampleClient_swipingOn.
  - reflexivity.
  - reflexivity.
Defined.

Lemma loadData_document zone now db s :
  connected (client s) = true ->
  let r := loadData zone now db s in
  connected (client (snd (fst r))) = true /\
  isLoading (client (snd (fst r))) = false /\
  userId (client (snd (fst r))) = userId (client s) /\
  dailySwipeCount (client (snd (fst r))) =
    (if isNewDay zone now (metadata db !! userId (client s) ≫= docLastSwipeReset)
     then 0
     else default 0 (metadata db !! userId (client s) ≫= docDailySwipeCount)) /\
  hasSubscriptionNFT (client (snd (fst r))) =
    default false (metadata db !! userId (client s) ≫= docHasSubscriptionNFT) /\
  exists m, metadata (fst (fst r)) !! userId (client s) = Some m /\
    docHasSubscriptionNFT m =
      metadata db !! userId (client s) ≫= docHasSubscriptionNFT /\
    docUserGender m = metadata db !! userId (client s) ≫= docUserGender.
Proof.
  intros Hc r. subst r. unfold loadData. rewrite Hc. simpl.
  destruct (metadata db !! userId (client s)) as [m|] eqn:Hm; simpl.
  - destruct (isNewDay zone now (docLastSwipeReset m)) eqn:Hn;
      destruct (docUserGender m) as [g|] eqn:Hg; try destruct (truthy g); simpl;
      repeat split; auto;
      first [ eexists; split; [apply lookup_insert_eq|split; simpl; congruence]
            | exists m; split; [exact Hm|split; simpl; congruence] ].
  - repeat split; auto. eexists.
    split; [apply lookup_insert_eq|split; reflexivity].
Qed.

(** A request of a subscriber leaves the component and the document
    subscribed. *)
Lemma serve_subscribed zone r u db s :
  subscribed u (db, s) -> subscribed u (serve zone r db s).
Proof.
  intros (Hu & Hn & m & Hm & Hflag). simpl in Hu, Hn, Hm.
  destruct (serve_keeps zone r db s u m Hm) as (m' & Hm' & Hflag' & _).
  split; [|split; [|exists m'; auto]].
  - destruct r as [action t|t|g| |]; simpl.
    + pose proof (handleSwipe_client action t db (client s)) as (H & _).
      destruct (handleSwipe action t db (client s)) as [[db' c'] res].
      simpl in *. congruence.
    + unfold loadData. destruct (negb (connected (client s))); [exact Hu|].
      destruct (metadata db !! userId (client s) ≫= docUserGender) as [g|];
        try destruct (truthy g); exact Hu.
    + unfold handleGenderSelect.
      destruct (negb (connected (client s))); exact Hu.
    + unfold handleMockNFTPurchase.
      destruct (negb (connected (client s))); [exact Hu|].
      destruct (metadata db !! userId (client s)); exact Hu.
    + unfold handleMockPaymentForLikes.
      destruct (negb (connected (client s))); [exact Hu|].
      destruct (metadata db !! userId (client s)); exact Hu.
  - destruct r as [action t|t|g| |]; simpl.
    + pose proof (handleSwipe_client action t db (client s)) as (_ & H & _).
      destruct (handleSwipe action t db (client s)) as [[db' c'] res].
      simpl in *. congruence.
    + unfold loadData. destruct (negb (connected (client s))); [exact Hn|].
      rewrite Hu, Hm. simpl. rewrite Hflag.
      destruct (docUserGender m) as [g|]; try destruct (truthy g); reflexivity.
    + unfold handleGenderSelect.
      destruct (negb (connected (client s))); exact Hn.
    + unfold handleMockNFTPurchase.
      destruct (negb (connected (client s))); [exact Hn|].
      destruct (metadata db !! userId (client s)); [reflexivity|exact Hn].
    + unfold handleMockPaymentForLikes.
      destruct (negb (connected (client s))); [exact Hn|].
      destruct (metadata db !! userId (client s)); exact Hn.
Qed.

Lemma turn_subscribed zone u st tn :
  subscribed u st -> subscribed u (turn zone st tn).
Proof.
  destruct st as [db s]. intros Hsub. destruct tn as [r|t|s' r]; simpl.
  - apply serve_subscribed. exact Hsub.
  - destruct Hsub as (Hu & _ & m & Hm & Hflag). simpl in Hu, Hm.
    unfold mount. rewrite Hu.
    destruct (loadData_document zone t db (freshSession u) eq_refl)
      as (_ & _ & Hu1 & _ & Hn1 & m1 & Hm1 & Hflag1 & _).
    simpl in Hu1, Hn1, Hm1, Hflag1. rewrite Hm in Hn1, Hflag1. simpl in Hn1, Hflag1.
    split; [exact Hu1|]. split; [rewrite Hn1, Hflag; reflexivity|].
    exists m1. split; [exact Hm1|congruence].
  - destruct Hsub as (Hu & Hn & m & Hm & Hflag). simpl in Hu, Hn, Hm.
    destruct (serve_keeps zone r db s' u m Hm) as (m' & Hm' & Hflag' & _).
    split; [exact Hu|]. split; [exact Hn|]. exists m'. auto.
Qed.

Lemma runTurns_subscribed zone u turns : forall st,
  subscribed u st -> subscribed u (runTurns zone turns st).
Proof.
  induction turns as [|tn turns IH]; intros st H; [exact H|].
  simpl. apply IH. apply turn_subscribed. exact H.
Qed.

Lemma neverLimited_subscribed zone u turns : forall st,
  subscribed u st -> neverLimited zone turns st.
Proof.
  induction turns as [|tn turns IH]; intros st H; [exact I|].
  simpl. split; [|apply IH, turn_subscribed; exact H].
  destruct tn as [[action t|t|g| |]|t|s' r]; try exact I.
  destruct H as (_ & Hn & _).
  apply (handleSwipe_client action t (fst st) (client (snd st))). exact Hn.
Qed.

(** At the limit a swipe is refused without the subscription and goes
    through with it. *)
Example limit_binds_without_the_subscription :
  let c := sampleClient "alice" luna in
  let at_limit (nft : bool) :=
    {| userId := userId c; connected := true; isLoading := false;
       profiles := profiles c; currentProfileIndex := 0;
       swipedProfileIds := ∅; dailySwipeCount := MAX_SWIPES_PER_DAY;
       hasSubscriptionNFT := nft; matchesList := [];
       matchNotification := None; error := NoError |} in
  snd (handleSwipe Pass 1 emptyFirestore (at_limit false)) = Limited /\
  snd (handleSwipe Pass 1 emptyFirestore (at_limit true)) = Swiped None.
Proof. vm_compute. split; reflexivity. Qed.

(** Property X15. The purchase of the subscription lifts the limit: once
    the data has been loaded, [handleMockNFTPurchase] succeeds, stores the
    flag and sets it in the client.  Whatever follows (requests of the
    component, reloads of the page, requests of any other components of
    any users, in any state and order), no swipe of the component is
    refused for the limit on the way; after it the component still shows
    the subscription, every load of the same user finds it, and
    [handleSwipe] of the component is not refused for the limit. Before
    any load has created the user's document the purchase fails and stores
    nothing. *)
Theorem nft_purchase_lifts_the_limit (zone : Z -> Z) (now : Z) (db : Firestore) (s : Session)
    (turns : list Turn) :
  connected (client s) = true ->
  let l := loadData zone now db s in
  let pr := handleMockNFTPurchase (fst (fst l)) (snd (fst l)) in
  let st := runTurns zone turns (fst pr) in
  snd pr = Purchased /\
  hasSubscriptionNFT (client (snd (fst pr))) = true /\
  neverLimited zone turns (fst pr) /\
  hasSubscriptionNFT (client (snd st)) = true /\
  (forall now' s',
     userId (client s') = userId (client s) -> connected (client s') = true ->
     hasSubscriptionNFT
       (client (snd (fst (loadData zone now' (fst st) s')))) = true) /\
  (forall action t,
     snd (handleSwipe action t (fst st) (client (snd st))) <> Limited) /\
  (metadata db !! userId (client s) = None ->
   snd (handleMockNFTPurchase db s) = PurchaseFailed /\
   fst (fst (handleMockNFTPurchase db s)) = db /\
   hasSubscriptionNFT (client (snd (fst (handleMockNFTPurchase db s)))) =
     hasSubscriptionNFT (client s)).
Proof.
  intros Hc l pr st.
  destruct (loadData_document zone now db s Hc)
    as (Hc1 & Hl1 & Hu1 & _ & _ & m & Hm & _).
  fold l in Hc1, Hl1, Hu1, Hm.
  assert (Hpr : pr =
    (set_metadata (fst (fst l)) (userId (client s))
       {| docDailySwipeCount := docDailySwipeCount m;
          docLastSwipeReset := docLastSwipeReset m;
          docHasSubscriptionNFT := Some true;
          docHasPaidToViewLikes := docHasPaidToViewLikes m;
          docUserGender := docUserGender m |},
     set_loaded (snd (fst l)) true (hasPaidToViewLikes (snd (fst l))),
     Purchased)).
  { subst pr. unfold handleMockNFTPurchase. rewrite Hc1, Hu1, Hm. reflexivity. }
  assert (Hsub : subscribed (userId (client s)) (fst pr)).
  { rewrite Hpr. split; [exact Hu1|]. split; [reflexivity|].
    eexists. split; [apply lookup_insert_eq|reflexivity]. }
  pose proof (runTurns_subscribed zone _ turns _ Hsub) as Hst. fold st in Hst.
  destruct Hst as (Hust & Hnst & mst & Hmst & Hflag).
  split; [rewrite Hpr; reflexivity|]. split; [rewrite Hpr; reflexivity|].
  split; [exact (neverLimited_subscribed zone _ turns _ Hsub)|].
  split; [exact Hnst|]. split; [|split].
  - intros now' s' Hu' Hc'.
    destruct (loadData_document zone now' (fst st) s' Hc')
      as (_ & _ & _ & _ & Hn & _).
    rewrite Hn, Hu', Hmst. simpl. rewrite Hflag. reflexivity.
  - intros action t.
    apply (handleSwipe_client action t (fst st) (client (snd st))). exact Hnst.
  - intros Hnone. unfold handleMockNFTPurchase. rewrite Hc, Hnone. simpl.
    auto.
Qed.

Lemma nft_purchase_lifts_the_limit_witness :
  let s := freshSession "alice" in
  let turns :=
    [ Mine (ReqGender Male); Mine (ReqLoad 1100); Mine (ReqSwipe Like 1200);
      Theirs (set_client (freshSession "alice") (sampleClient "alice" luna))
        (ReqSwipe Pass 1300);
      Theirs (freshSession "bob") (ReqLoad 1400);
      Remount (1000 + MILLISECONDS_IN_DAY); Mine (ReqSwipe Pass 1500);
      Mine ReqPayForLikes ] in
  let l := loadData SwipeScreen.utc 1000 emptyFirestore s in
  let pr := handleMockNFTPurchase (fst (fst l)) (snd (fst l)) in
  let st := runTurns SwipeScreen.utc turns (fst pr) in
  snd pr = Purchased /\
  hasSubscriptionNFT (client (snd (fst pr))) = true /\
  neverLimited SwipeScreen.utc turns (fst pr) /\
  hasSubscriptionNFT (client (snd st)) = true /\
  (forall now' s',
     userId (client s') = userId (client s) -> connected (client s') = true ->
     hasSubscriptionNFT
       (client (snd (fst (loadData SwipeScreen.utc now' (fst st) s')))) = true) /\
  (forall action t,
     snd (handleSwipe action t (fst st) (client (snd st))) <> Limited) /\
  (metadata emptyFirestore !! userId (client s) = None ->
   snd (handleMockNFTPurchase emptyFirestore s) = PurchaseFailed /\
   fst (fst (handleMockNFTPurchase emptyFirestore s)) = emptyFirestore /\
   hasSubscriptionNFT (client (snd (fst (handleMockNFTPurchase emptyFirestore s)))) =
     hasSubscriptionNFT (client s)).
Proof.
  apply (nft_purchase_lifts_the_limit SwipeScreen.utc 1000 emptyFirestore
           (freshSession "alice")
           [ Mine (ReqGender Male); Mine (ReqLoad 1100); Mine (ReqSwipe Like 1200);
             Theirs (set_client (freshSession "alice") (sampleClient "alice" luna))
               (ReqSwipe Pass 1300);
             Theirs (freshSession "bob") (ReqLoad 1400);
             Remount (1000 + MILLISECONDS_IN_DAY); Mine (ReqSwipe Pass 1500);
             Mine ReqPayForLikes ]).
  reflexivity.
Defined.

Lemma confirmedMatches_ids uid db :
  sublist (entryMatchId <$> confirmedMatches uid db) (fst <$> docsOf uid (matches db)).
Proof.
  unfold confirmedMatches. induction (docsOf uid (matches db)) as [|[k d] l IH].
  - constructor.
  - simpl. destruct (findCard (partnerId d)); simpl.
    + apply sublist_skip. exact IH.
    + apply sublist_cons. exact IH.
Qed.

Lemma elem_of_confirmedMatches uid db e :
  e ∈ confirmedMatches uid db <->
  exists d cd, matches db !! (uid, entryMatchId e) = Some d /\
    findCard (partnerId d) = Some cd /\
    entryId e = profileId (cardProfile cd) /\
    entryName e = profileName (cardProfile cd).
Proof.
  unfold confirmedMatches. rewrite list_elem_of_omap. split.
  - intros ([k d] & Hin & Hf). apply elem_of_docsOf in Hin. simpl in Hf.
    destruct (findCard (partnerId d)) as [cd|] eqn:Hcd; [|discriminate].
    inversion Hf; subst. simpl. eauto 10.
  - intros (d & cd & Hm & Hcd & Hid & Hname).
    exists (entryMatchId e, d). split; [apply elem_of_docsOf; exact Hm|].
    simpl. rewrite Hcd. destruct e. simpl in *. subst. reflexivity.
Qed.

(** Property X16. A load lists each match once: for a user who has chosen
    a gender, the [matchesList] that [loadData] builds has one entry for
    each match document of the user whose partner is one of the cards,
    carrying the card's id and name and the document's id, and no two
    entries with the same match id. *)
Theorem load_lists_each_match_once (zone : Z -> Z) (now : Z) (db : Firestore) (s : Session)
    (g : string) (m : Metadata) :
  connected (client s) = true ->
  metadata db !! userId (client s) = Some m ->
  docUserGender m = Some g -> g <> "" ->
  let r := loadData zone now db s in
  NoDup (entryMatchId <$> matchesList (client (snd (fst r)))) /\
  forall e, e ∈ matchesList (client (snd (fst r))) <->
    exists d cd, matches db !! (userId (client s), entryMatchId e) = Some d /\
      findCard (partnerId d) = Some cd /\
      entryId e = profileId (cardProfile cd) /\
      entryName e = profileName (cardProfile cd).
Proof.
  intros Hc Hm Hg Hne r.
  destruct (loadData_gender zone now db s g m Hc Hm Hg Hne)
    as (db1 & _ & _ & Hmatches & _ & _ & _ & _ & Hlist & _).
  fold r in Hlist. rewrite Hlist. split.
  - eapply sublist_NoDup; [|apply confirmedMatches_ids].
    apply NoDup_docsOf_ids.
  - intros e. rewrite elem_of_confirmedMatches, Hmatches. reflexivity.
Qed.

Lemma load_lists_each_match_once_witness :
  let db := dbWithGender "alice" "male" 0 in
  let s := freshSession "alice" in
  let r := loadData SwipeScreen.utc 1000 db s in
  NoDup (entryMatchId <$> matchesList (client (snd (fst r)))) /\
  forall e, e ∈ matchesList (client (snd (fst r))) <->
    exists d cd, matches db !! (userId (client s), entryMatchId e) = Some d /\
      findCard (partnerId d) = Some cd /\
      entryId e = profileId (cardProfile cd) /\
      entryName e = profileName (cardProfile cd).
Proof.
  apply (load_lists_each_match_once SwipeScreen.utc 1000 (dbWithGender "alice" "male" 0)
           (freshSession "alice") "male"
           {| docDailySwipeCount := Some 0; docLastSwipeReset := Some 0;
              docHasSubscriptionNFT := None; docHasPaidToViewLikes := None;
              docUserGender := Some "male" |}).
  - reflexivity.
  - reflexivity.
  - reflexivity.
  - discriminate.
Defined.

(** Property X17. Choosing a gender deals the cards of the other one: for
    a signed-in user, the button of the gender screen stores the gender,
    and the load that follows completes and deals exactly the cards of
    [MOCK_PROFILES] of the target gender (female for "male", male for
    anything else) whose id is not the user's own and is not the
    [likedProfileId] of one of the user's likes documents. *)
Theorem chosen_gender_deals_the_other (zone : Z -> Z) (g : string) (now : Z)
    (db : Firestore) (s : Session) :
  connected (client s) = true -> g <> "" ->
  let uid := userId (client s) in
  let r := chooseGender zone g now db s in
  snd r = Loaded /\
  userGender (snd (fst r)) = Some g /\
  (exists m, metadata (fst (fst r)) !! uid = Some m /\ docUserGender m = Some g) /\
  forall q, q ∈ profiles (client (snd (fst r))) <->
    exists cd, cd ∈ MOCK_PROFILES /\ cardProfile cd = q /\
      cardGender cd = (if String.eqb g "male" then "female" else "male") /\
      profileId q <> uid /\
      ~ (exists k d, likes db !! (uid, k) = Some d /\ likedProfileId d = profileId q).
Proof.
  intros Hc Hne uid r. subst r. unfold chooseGender, handleGenderSelect.
  rewrite Hc. simpl negb. cbv iota.
  set (db1 := set_metadata db (userId (client s))
                (mergeGender g (metadata db !! userId (client s)))).
  set (s1 := {| client := _; userGender := Some g;
                hasPaidToViewLikes := _; likesYouList := _ |}).
  assert (Hm1 : metadata db1 !! userId (client s1) =
                Some (mergeGender g (metadata db !! userId (client s))))
    by apply lookup_insert_eq.
  destruct (loadData_gender zone now db1 s1 g _ eq_refl Hm1 eq_refl Hne)
    as (db2 & Hdb2 & Hl2 & _ & _ & Hres & Hgen & Hprof & _ & _).
  split; [exact Hres|]. split; [exact Hgen|]. split.
  - destruct (loadData_document zone now db1 s1 eq_refl)
      as (_ & _ & _ & _ & _ & m & Hm & _ & Hg).
    exists m. split; [exact Hm|]. rewrite Hg, Hm1. reflexivity.
  - intros q. rewrite Hprof, list_elem_of_fmap. simpl. fold uid. split.
    + intros (cd & -> & Hcd). apply elem_of_unwipedProfiles in Hcd.
      destruct Hcd as (Hin & Hid & Hsw & Hgd). exists cd.
      repeat split; auto. intros Hex. apply Hsw.
      apply elem_of_mySwipes. rewrite Hl2. exact Hex.
    + intros (cd & Hin & <- & Hgd & Hid & Hsw). exists cd.
      split; [reflexivity|]. apply elem_of_unwipedProfiles.
      repeat split; auto. intros Hex. apply Hsw.
      apply elem_of_mySwipes in Hex. rewrite Hl2 in Hex. exact Hex.
Qed.

Lemma chosen_gender_deals_the_other_witness :
  let s := freshSession "alice" in
  let db := emptyFirestore in
  let uid := userId (client s) in
  let r := chooseGender SwipeScreen.utc "female" 1000 db s in
  snd r = Loaded /\
  userGender (snd (fst r)) = Some "female" /\
  (exists m, metadata (fst (fst r)) !! uid = Some m /\
     docUserGender m = Some "female") /\
  forall q, q ∈ profiles (client (snd (fst r))) <->
    exists cd, cd ∈ MOCK_PROFILES /\ cardProfile cd = q /\
      cardGender cd = (if String.eqb "female" "male" then "female" else "male") /\
      profileId q <> uid /\
      ~ (exists k d, likes db !! (uid, k) = Some d /\ likedProfileId d = profileId q).
Proof.
  apply (chosen_gender_deals_the_other SwipeScreen.utc "female" 1000 emptyFirestore
           (freshSession "alice")).
  - reflexivity.
  - discriminate.
Defined.

End MatchMakerLoadFacts.

Section ChatAppFacts.

Import ChatApp.

Lemma swipe_profiles w s : profiles (client (swipe w s)) = profiles (client w).
Proof.
  destruct s as [now|]; simpl; [|reflexivity].
  unfold handleLike. destruct (currentProfile (client w)); [|reflexivity].
  destruct (connected (client w)) eqn:E; simpl; first [reflexivity|exact E].
Qed.

Lemma swipe_connected w s : connected (client (swipe w s)) = connected (client w).
Proof.
  destruct s as [now|]; simpl; [|reflexivity].
  unfold handleLike. destruct (currentProfile (client w)); [|reflexivity].
  destruct (connected (client w)) eqn:E; simpl; first [reflexivity|exact E].
Qed.

Lemma currentProfile_Some c i :
  profiles c <> [] -> currentProfileIndex c = Some i ->
  currentProfile c = profiles c !! (i mod length (profiles c))%nat /\
  is_Some (currentProfile c).
Proof.
  intros Hne Hi. unfold currentProfile. rewrite Hi.
  destruct (profiles c) as [|p ps] eqn:E; [congruence|].
  split; [reflexivity|]. apply lookup_lt_is_Some.
  apply Nat.mod_upper_bound. simpl. lia.
Qed.

Lemma swipe_index w s i :
  connected (client w) = true -> profiles (client w) <> [] ->
  currentProfileIndex (client w) = Some i ->
  currentProfileIndex (client (swipe w s)) =
    Some ((i + 1) mod length (profiles (client w)))%nat.
Proof.
  intros Hc Hne Hi.
  assert (Hn : nextIndex (client w) =
               Some ((i + 1) mod length (profiles (client w)))%nat).
  { unfold nextIndex. rewrite Hi.
    destruct (profiles (client w)) as [|p ps]; [congruence|]. reflexivity. }
  destruct s as [now|]; simpl; [|exact Hn].
  unfold handleLike.
  destruct (currentProfile_Some (client w) i Hne Hi) as [_ [p Hp]].
  rewrite Hp, Hc. simpl. exact Hn.
Qed.

Lemma swipes_index : forall ss w i,
  connected (client w) = true -> profiles (client w) <> [] ->
  currentProfileIndex (client w) = Some i ->
  profiles (client (swipes ss w)) = profiles (client w) /\
  connected (client (swipes ss w)) = true /\
  exists j, currentProfileIndex (client (swipes ss w)) = Some j /\
    (j mod length (profiles (client w)) =
     (i + length ss) mod length (profiles (client w)))%nat.
Proof.
  induction ss as [|s ss IH]; intros w i Hc Hne Hi.
  - simpl. split; [reflexivity|]. split; [exact Hc|]. exists i.
    rewrite Nat.add_0_r. auto.
  - change (swipes (s :: ss) w) with (swipes ss (swipe w s)).
    pose proof (swipe_index w s i Hc Hne Hi) as Hs.
    pose proof (swipe_profiles w s) as Hp.
    pose proof (swipe_connected w s) as Hcs.
    destruct (IH (swipe w s) _ (eq_trans Hcs Hc)
                ltac:(rewrite Hp; exact Hne) Hs) as (Hq & Hcq & j & Hj & Hm).
    rewrite Hp in *. split; [exact Hq|]. split; [exact Hcq|].
    exists j. split; [exact Hj|].
    rewrite Hm. rewrite Nat.Div0.add_mod_idemp_l. f_equal. simpl. lia.
Qed.

(** Property X18. The deck goes round: with a signed-in user and a deck
    that is not empty, after any swipes, to the right or to the left, the
    card on top is the one as many places further as there were swipes,
    counted round the deck; there is always a card on top, and after as
    many swipes as the deck has cards the same card is back. *)
Theorem deck_goes_round (ss : list Swipe) (w : World) (i : nat) :
  connected (client w) = true -> profiles (client w) <> [] ->
  currentProfileIndex (client w) = Some i ->
  let n := length (profiles (client w)) in
  currentProfile (client (swipes ss w)) =
    profiles (client w) !! ((i + length ss) mod n)%nat /\
  is_Some (currentProfile (client (swipes ss w))) /\
  (length ss = n ->
   currentProfile (client (swipes ss w)) = currentProfile (client w)).
Proof.
  intros Hc Hne Hi n.
  destruct (swipes_index ss w i Hc Hne Hi) as (Hq & _ & j & Hj & Hm).
  assert (Hne' : profiles (client (swipes ss w)) <> []) by (rewrite Hq; exact Hne).
  destruct (currentProfile_Some _ j Hne' Hj) as [Hcur Hsome].
  rewrite Hq in Hcur. fold n in Hcur, Hm. rewrite Hm in Hcur.
  split; [exact Hcur|]. split; [exact Hsome|].
  intros Hlen. rewrite Hcur.
  destruct (currentProfile_Some _ i Hne Hi) as [Hcur0 _]. rewrite Hcur0.
  fold n. rewrite Hlen. f_equal.
  rewrite <- (Nat.Div0.add_mod_idemp_r i n n), Nat.Div0.mod_same, Nat.add_0_r.
  reflexivity.
Qed.

Lemma deck_goes_round_witness :
  let w := startWorld in
  let ss := [SwipeRight 10; SwipeLeft; SwipeRight 20; SwipeLeft] in
  let n := length (profiles (client w)) in
  currentProfile (client (swipes ss w)) =
    profiles (client w) !! ((0 + length ss) mod n)%nat /\
  is_Some (currentProfile (client (swipes ss w))) /\
  (length ss = n ->
   currentProfile (client (swipes ss w)) = currentProfile (client w)).
Proof.
  apply (deck_goes_round [SwipeRight 10; SwipeLeft; SwipeRight 20; SwipeLeft]
           startWorld 0).
  - reflexivity.
  - discriminate.
  - reflexivity.
Defined.

(** Property X19. A like opens the chat afresh: for a signed-in user with
    [p] on top, [handleLike] followed by the "go to chat" button leaves
    the chat document [chat_<id of p>] holding the greeting as its only
    message, whatever the document held before, selects that chat on the
    chat tab with the pop-up closed, and leaves every other chat document
    as it was. *)
Theorem like_opens_chat_afresh (now : Z) (w : World) (p : Profile) :
  connected (client w) = true -> currentProfile (client w) = Some p ->
  let chatId := "chat_" +:+ profileId p in
  let w' := handleGoToChat (handleLike now w) in
  chats w' !! chatId =
    Some {| user := profileName p; chatProfileId := profileId p;
            lastActive := now;
            messages := Some [matchGreeting (profileName p)] |} /\
  (forall other, other <> chatId -> chats w' !! other = chats w !! other) /\
  selectedChatId (client w') = Some chatId /\
  activeTab (client w') = TabChat /\
  isMatchModalOpen (client w') = false /\
  isMatchModalOpen (client (handleLike now w)) = true /\
  matchedUserName (client (handleLike now w)) = profileName p.
Proof.
  intros Hc Hp chatId w'. subst w'. unfold handleLike. rewrite Hp, Hc. simpl.
  split; [apply lookup_insert_eq|].
  split.
  { intros other Hne. apply lookup_insert_ne. intros E. apply Hne.
    rewrite <- E. reflexivity. }
  repeat split.
Qed.

Lemma like_opens_chat_afresh_witness :
  let w := swipes [SwipeLeft; SwipeLeft] chattingWorld in
  let p := {| profileId := "profile_0"; profileName := "Alexander R." |} in
  let chatId := "chat_" +:+ profileId p in
  let w' := handleGoToChat (handleLike 40 w) in
  chats w' !! chatId =
    Some {| user := profileName p; chatProfileId := profileId p;
            lastActive := 40;
            messages := Some [matchGreeting (profileName p)] |} /\
  (forall other, other <> chatId -> chats w' !! other = chats w !! other) /\
  selectedChatId (client w') = Some chatId /\
  activeTab (client w') = TabChat /\
  isMatchModalOpen (client w') = false /\
  isMatchModalOpen (client (handleLike 40 w)) = true /\
  matchedUserName (client (handleLike 40 w)) = profileName p.
Proof.
  apply (like_opens_chat_afresh 40
           (swipes [SwipeLeft; SwipeLeft] chattingWorld)
           {| profileId := "profile_0"; profileName := "Alexander R." |}).
  - reflexivity.
  - reflexivity.
Defined.

Section TrimFacts.

Variable trim : string -> string.

(** What a message that passes the checks does. *)
Lemma handleSendMessage_sent now w chatId d :
  connected (client w) = true -> selectedChatId (client w) = Some chatId ->
  chatId <> "" -> trim (chatInput (client w)) <> "" ->
  chats w !! chatId = Some d ->
  handleSendMessage trim now w =
    setChatInputStable ""
      {| chats :=
           <[ chatId :=
                {| user := user d; chatProfileId := chatProfileId d;
                   lastActive := now;
                   messages :=
                     Some (default [] (messages d) ++
                           [ {| sender := me;
                                text := trim (chatInput (client w));
                                timestamp := Some now |} ]) |} ]> (chats w);
         client := client w |}.
Proof.
  intros Hc Hsel Hid Htext Hd. unfold handleSendMessage.
  rewrite Hsel, Hc, Hd. unfold truthy.
  destruct (String.eqb_spec (trim (chatInput (client w))) ""); [congruence|].
  destruct (String.eqb_spec chatId ""); [congruence|]. reflexivity.
Qed.

Lemma last_cons_default {A} : forall (l : list A) (x d1 d2 : A),
  List.last (x :: l) d1 = List.last (x :: l) d2.
Proof.
  induction l as [|y l IH]; intros x d1 d2; [reflexivity|].
  change (List.last (y :: l) d1 = List.last (y :: l) d2). apply IH.
Qed.

Lemma conversation_sent : forall (ms : list (string * Z)) w chatId d,
  connected (client w) = true -> selectedChatId (client w) = Some chatId ->
  chatId <> "" -> Forall (fun m => trim (fst m) <> "") ms ->
  chats w !! chatId = Some d ->
  let w' := conversation trim ms w in
  chats w' !! chatId =
    Some {| user := user d; chatProfileId := chatProfileId d;
            lastActive := List.last (map snd ms) (lastActive d);
            messages :=
              match ms with
              | [] => messages d
              | _ => Some (default [] (messages d) ++ map (sent trim) ms)
              end |} /\
  (forall other, other <> chatId -> chats w' !! other = chats w !! other) /\
  connected (client w') = true /\ selectedChatId (client w') = Some chatId /\
  (ms <> [] -> chatInput (client w') = "").
Proof.
  induction ms as [|m ms IH]; intros w chatId d Hc Hsel Hid Hall Hd.
  - simpl. rewrite Hd. destruct d. repeat split; auto. congruence.
  - change (conversation trim (m :: ms) w)
      with (conversation trim ms (typeAndSend trim w m)).
    inversion Hall as [|? ? Hm Hms]; subst.
    set (d1 := {| user := user d; chatProfileId := chatProfileId d;
                  lastActive := snd m;
                  messages := Some (default [] (messages d) ++
                    [ {| sender := me; text := trim (fst m);
                         timestamp := Some (snd m) |} ]) |}).
    set (w1 := setChatInputStable ""
                 {| chats := <[ chatId := d1 ]> (chats w);
                    client := client (setChatInputStable (fst m) w) |}).
    assert (Hstep : typeAndSend trim w m = w1).
    { unfold typeAndSend.
      rewrite (handleSendMessage_sent (snd m) (setChatInputStable (fst m) w)
                 chatId d); auto. }
    rewrite Hstep.
    destruct (IH w1 chatId d1) as (Hdoc & Hoth & Hc' & Hsel' & Hin); auto.
    { subst w1. simpl. apply lookup_insert_eq. }
    cbv zeta. rewrite Hdoc. split.
    + f_equal. subst d1. simpl. f_equal.
      * destruct ms as [|m' ms']; [reflexivity|].
        simpl map. rewrite (last_cons_default _ _ (snd m) (lastActive d)).
        reflexivity.
      * destruct ms as [|m' ms']; [reflexivity|].
        rewrite <- app_assoc. reflexivity.
    + split.
      * intros other Hne. rewrite Hoth by exact Hne. subst w1. simpl.
        apply lookup_insert_ne. congruence.
      * split; [exact Hc'|]. split; [exact Hsel'|]. intros _.
        destruct ms as [|m' ms']; [reflexivity|]. apply Hin. discriminate.
Qed.

(** Property X20. Messages are appended in the order sent: with a
    signed-in user and a selected chat whose document exists, typing and
    sending texts, none empty after trimming, leaves the chat with its
    earlier messages followed by the trimmed texts, in order, each with
    its time; the document's other fields keep their values but for
    [lastActive], which is the time of the last message, no other chat
    changes, and the input is empty afterwards. *)
Theorem messages_appended_in_order (ms : list (string * Z)) (w : World)
    (chatId : string) (d : ChatDoc) :
  connected (client w) = true -> selectedChatId (client w) = Some chatId ->
  chatId <> "" -> ms <> [] -> Forall (fun m => trim (fst m) <> "") ms ->
  chats w !! chatId = Some d ->
  let w' := conversation trim ms w in
  chats w' !! chatId =
    Some {| user := user d; chatProfileId := chatProfileId d;
            lastActive := List.last (map snd ms) (lastActive d);
            messages := Some (default [] (messages d) ++ map (sent trim) ms) |} /\
  (forall other, other <> chatId -> chats w' !! other = chats w !! other) /\
  chatInput (client w') = "".
Proof.
  intros Hc Hsel Hid Hne Hall Hd w'.
  destruct (conversation_sent ms w chatId d Hc Hsel Hid Hall Hd)
    as (Hdoc & Hoth & _ & _ & Hin).
  subst w'. cbv zeta in Hdoc. rewrite Hdoc.
  destruct ms as [|m ms']; [congruence|].
  split; [reflexivity|]. split; [exact Hoth|]. apply Hin. discriminate.
Qed.

(** Property X21. A message that fails a check changes nothing: when the
    text is empty after trimming, or no chat is selected, or the user is
    not signed in, or the selected chat has no document,
    [handleSendMessage] leaves the chats and the client as they were; it
    never creates a chat document and the typed text stays in the input. *)
Theorem unsendable_message_changes_nothing (now : Z) (w : World) :
  trim (chatInput (client w)) = "" \/
  connected (client w) = false \/
  match selectedChatId (client w) with
  | Some chatId => chatId = "" \/ chats w !! chatId = None
  | None => True
  end ->
  handleSendMessage trim now w = w.
Proof.
  intros H. unfold handleSendMessage.
  destruct (selectedChatId (client w)) as [chatId|]; [|reflexivity].
  destruct H as [H | [H | [H | H]]].
  - rewrite H. reflexivity.
  - rewrite H. rewrite !orb_true_r. reflexivity.
  - subst chatId. simpl. rewrite orb_true_r. reflexivity.
  - rewrite H. destruct (_ || _); reflexivity.
Qed.

End TrimFacts.

Lemma messages_appended_in_order_witness :
  let ms := [("hello", 20); (" are you there? ", 30)] in
  let w := handleGoToChat (handleLike 10 startWorld) in
  let d := {| user := "Alexander R."; chatProfileId := "profile_0";
              lastActive := 10;
              messages := Some [matchGreeting "Alexander R."] |} in
  let w' := conversation trimSpaces ms w in
  chats w' !! "chat_profile_0" =
    Some {| user := user d; chatProfileId := chatProfileId d;
            lastActive := List.last (map snd ms) (lastActive d);
            messages := Some (default [] (messages d) ++ map (sent trimSpaces) ms) |} /\
  (forall other, other <> "chat_profile_0" ->
     chats w' !! other = chats w !! other) /\
  chatInput (client w') = "".
Proof.
  apply (messages_appended_in_order trimSpaces
           [("hello", 20); (" are you there? ", 30)]
           (handleGoToChat (handleLike 10 startWorld)) "chat_profile_0"
           {| user := "Alexander R."; chatProfileId := "profile_0";
              lastActive := 10;
              messages := Some [matchGreeting "Alexander R."] |}).
  - reflexivity.
  - reflexivity.
  - discriminate.
  - discriminate.
  - constructor; [vm_compute; discriminate|].
    constructor; [vm_compute; discriminate|]. constructor.
  - reflexivity.
Defined.

Lemma unsendable_message_changes_nothing_witness :
  handleSendMessage trimSpaces 50 (setChatInputStable "   " chattingWorld) =
    setChatInputStable "   " chattingWorld.
Proof.
  apply (unsendable_message_changes_nothing trimSpaces 50
           (setChatInputStable "   " chattingWorld)).
  left. reflexivity.
Defined.

End ChatAppFacts.

Section RetryFacts.

Import Retry.

Lemma errorOf_cases o :
  (exists r, o = Resolved r /\ ok r = true /\ errorOf o = None) \/
  (exists e, errorOf o = Some e).
Proof.
  destruct o as [r|reason]; simpl.
  - destruct (ok r) eqn:E; [left; exists r; auto | right; eauto].
  - right. eauto.
Qed.

(** The loop from call [i] on, when the next [k] calls fail and the one
    after them succeeds. *)
Lemma attempts_success fetch retries r : forall k remaining i w,
  (i + remaining = retries)%nat -> (k < remaining)%nat ->
  (forall j, (j < k)%nat -> errorOf (fetch (i + j)%nat) <> None) ->
  fetch (i + k)%nat = Resolved r -> ok r = true ->
  attempts fetch retries remaining i w =
    {| ending := Returned r; calls := S (i + k);
       waited := w + (2 ^ Z.of_nat (i + k) - 2 ^ Z.of_nat i) * 1000 |}.
Proof.
  induction k as [|k IH]; intros remaining i w Hsum Hlt Hfail Hk Hok.
  - destruct remaining as [|remaining]; [lia|]. simpl.
    rewrite Nat.add_0_r in *. rewrite Hk, Hok. f_equal. lia.
  - destruct remaining as [|remaining]; [lia|]. simpl.
    assert (Hi : errorOf (fetch i) <> None).
    { specialize (Hfail 0%nat). rewrite Nat.add_0_r in Hfail. apply Hfail. lia. }
    assert (Hnot : (i =? retries - 1)%nat = false) by (apply Nat.eqb_neq; lia).
    assert (Hrec : attempts fetch retries remaining (S i) (w + 2 ^ Z.of_nat i * 1000) =
      {| ending := Returned r; calls := S (i + S k);
         waited := w + (2 ^ Z.of_nat (i + S k) - 2 ^ Z.of_nat i) * 1000 |}).
    { rewrite (IH remaining (S i) (w + 2 ^ Z.of_nat i * 1000)); try lia.
      - f_equal; [f_equal; lia|].
        replace (S i + k)%nat with (i + S k)%nat by lia.
        replace (Z.of_nat (S i)) with (Z.of_nat i + 1) by lia.
        rewrite Z.pow_add_r by lia. lia.
      - intros j Hj. replace (S i + j)%nat with (i + S j)%nat by lia.
        apply Hfail. lia.
      - replace (S i + k)%nat with (i + S k)%nat by lia. exact Hk.
      - exact Hok. }
    destruct (fetch i) as [r0|reason]; simpl in Hi.
    + destruct (ok r0); [congruence|]. rewrite Hnot. exact Hrec.
    + rewrite Hnot. exact Hrec.
Qed.

(** When the calls fail one after the other until the last one allowed. *)
Lemma attempts_exhausted fetch retries : forall remaining i w,
  (i + remaining = retries)%nat -> (0 < remaining)%nat ->
  (forall j, (j < remaining)%nat -> errorOf (fetch (i + j)%nat) <> None) ->
  exists e,
    errorOf (fetch (retries - 1)%nat) = Some e /\
    attempts fetch retries remaining i w =
      {| ending := Thrown e; calls := retries;
         waited := w + (2 ^ Z.of_nat (retries - 1) - 2 ^ Z.of_nat i) * 1000 |}.
Proof.
  induction remaining as [|remaining IH]; intros i w Hsum Hpos Hfail; [lia|].
  simpl.
  assert (Hi : errorOf (fetch i) <> None).
  { specialize (Hfail 0%nat). rewrite Nat.add_0_r in Hfail. apply Hfail. lia. }
  destruct (Nat.eqb_spec i (retries - 1)) as [Hlast|Hmore].
  - assert (Hc : retries = S i) by lia.
    replace (retries - 1)%nat with i by lia.
    replace (w + (2 ^ Z.of_nat i - 2 ^ Z.of_nat i) * 1000) with w by lia.
    rewrite Hc.
    destruct (fetch i) as [r0|reason]; simpl in *.
    + destruct (ok r0); [congruence|]. eexists. split; reflexivity.
    + eexists. split; reflexivity.
  - destruct (IH (S i) (w + 2 ^ Z.of_nat i * 1000)) as (e & He & Hrun); try lia.
    { intros j Hj. replace (S i + j)%nat with (i + S j)%nat by lia.
      apply Hfail. lia. }
    assert (Hrun' : attempts fetch retries remaining (S i) (w + 2 ^ Z.of_nat i * 1000) =
      {| ending := Thrown e; calls := retries;
         waited := w + (2 ^ Z.of_nat (retries - 1) - 2 ^ Z.of_nat i) * 1000 |}).
    { rewrite Hrun. f_equal.
      replace (Z.of_nat (S i)) with (Z.of_nat i + 1) by lia.
      rewrite Z.pow_add_r by lia. lia. }
    exists e. split; [exact He|].
    destruct (fetch i) as [r0|reason]; simpl in Hi.
    + destruct (ok r0); [congruence|]. exact Hrun'.
    + exact Hrun'.
Qed.

Lemma attempts_calls fetch retries : forall remaining i w,
  (i + remaining = retries)%nat ->
  (calls (attempts fetch retries remaining i w) <= retries)%nat /\
  (ending (attempts fetch retries remaining i w) = ReturnedUndefined ->
   remaining = 0%nat).
Proof.
  induction remaining as [|remaining IH]; intros i w Hsum; simpl.
  - split; [lia|reflexivity].
  - destruct (IH (S i) (w + 2 ^ Z.of_nat i * 1000)) as [Hc Hu]; [lia|].
    destruct (Nat.eqb_spec i (retries - 1)) as [Hlast|Hmore].
    + destruct (fetch i) as [r0|reason]; [destruct (ok r0)|]; simpl;
        (split; [lia|discriminate]).
    + destruct (fetch i) as [r0|reason]; [destruct (ok r0)|]; simpl;
        try (split; [lia|discriminate]);
        (split; [exact Hc|]); intros Hend; specialize (Hu Hend); lia.
Qed.

(** Property X22. The first response that is [ok] is returned: when the
    calls before call [k] fail and call [k], one of the [retries] allowed,
    succeeds, [fetchWithRetry] returns its response after [k + 1] calls,
    having waited 1 s, 2 s, 4 s, ... after the failures, [(2^k - 1)]
    seconds in all. *)
Theorem fetchWithRetry_first_success fetch (retries k : nat) (r : Response) :
  (k < retries)%nat -> allFail fetch k ->
  fetch k = Resolved r -> ok r = true ->
  fetchWithRetry fetch retries =
    {| ending := Returned r; calls := S k;
       waited := (2 ^ Z.of_nat k - 1) * 1000 |}.
Proof.
  intros Hk Hfail Hr Hok. unfold fetchWithRetry.
  rewrite (attempts_success fetch retries r k retries 0 0); auto.
Qed.

Lemma fetchWithRetry_first_success_witness :
  fetchWithRetry flakyServer 3 =
    {| ending := Returned goodResponse; calls := 3;
       waited := (2 ^ Z.of_nat 2 - 1) * 1000 |}.
Proof.
  apply (fetchWithRetry_first_success flakyServer 3 2 goodResponse).
  - lia.
  - intros j Hj. destruct j as [|[|j]]; [discriminate|discriminate|lia].
  - reflexivity.
  - reflexivity.
Defined.

(** Property X23. When all the [retries] calls fail, the error of the last
    call is thrown, after exactly [retries] calls and [(2^(retries-1) -
    1)] seconds of delay: no delay follows the last failure. *)
Theorem fetchWithRetry_gives_up fetch (retries : nat) :
  (0 < retries)%nat -> allFail fetch retries ->
  exists e,
    errorOf (fetch (retries - 1)%nat) = Some e /\
    fetchWithRetry fetch retries =
      {| ending := Thrown e; calls := retries;
         waited := (2 ^ Z.of_nat (retries - 1) - 1) * 1000 |}.
Proof.
  intros Hpos Hfail. unfold fetchWithRetry.
  destruct (attempts_exhausted fetch retries retries 0 0) as (e & He & Hrun);
    auto.
  exists e. split; [exact He|]. rewrite Hrun. f_equal.
Qed.

Lemma fetchWithRetry_gives_up_witness :
  exists e,
    errorOf (deadNetwork (3 - 1)%nat) = Some e /\
    fetchWithRetry deadNetwork 3 =
      {| ending := Thrown e; calls := 3;
         waited := (2 ^ Z.of_nat (3 - 1) - 1) * 1000 |}.
Proof.
  apply (fetchWithRetry_gives_up deadNetwork 3).
  - lia.
  - intros j Hj. discriminate.
Defined.

(** Property X24. [fetch] is never called more than [retries] times, and
    the function ends without a response and without an error, returning
    [undefined], exactly when [retries] is 0. *)
Theorem fetchWithRetry_undefined_iff_no_retries fetch (retries : nat) :
  (calls (fetchWithRetry fetch retries) <= retries)%nat /\
  (ending (fetchWithRetry fetch retries) = ReturnedUndefined <-> retries = 0%nat).
Proof.
  unfold fetchWithRetry.
  destruct (attempts_calls fetch retries retries 0 0 eq_refl) as [Hc Hu].
  split; [exact Hc|]. split; [exact Hu|]. intros ->. reflexivity.
Qed.

End RetryFacts.

Section AdvisorFacts.

Import Retry Advisor.

Variable trim : string -> string.
Variable server : string -> nat -> FetchOutcome.

Lemma answerOf_not_empty run : answerOf run <> "".
Proof.
  unfold answerOf. destruct (ending run) as [r|e|]; try discriminate.
  destruct (json r) as [[text|]|]; try discriminate.
  destruct (String.eqb_spec text ""); [discriminate|assumption].
Qed.

Lemma three_attempts fetch :
  (calls (fetchWithRetry fetch 3) <= 3)%nat /\
  0 <= waited (fetchWithRetry fetch 3) <= 3000.
Proof.
  unfold fetchWithRetry. simpl.
  destruct (fetch 0%nat) as [r0|?]; [destruct (ok r0)|]; simpl; try lia;
    (destruct (fetch 1%nat) as [r1|?]; [destruct (ok r1)|]; simpl; try lia);
    (destruct (fetch 2%nat) as [r2|?]; [destruct (ok r2)|]; simpl; lia).
Qed.

(** Property X25. The advisor always answers: a question that is not empty
    after trimming ends with the loading flag down, the input cleared and
    a response that is not empty, after at most three calls of [fetch] and
    at most three seconds of waiting between them; when one of the three
    calls is the first to succeed and its body carries a text that is not
    empty, that text is the response. *)
Theorem advisor_always_answers (s : Chatbot) :
  trim (chatbotQuery s) <> "" ->
  let prompt := promptPrefix +:+ trim (chatbotQuery s) in
  exists run,
    handleChatbotSubmit trim server s =
      ({| chatbotQuery := ""; chatbotResponse := answerOf run;
          isChatbotLoading := false |}, Some run) /\
    answerOf run <> "" /\
    (calls run <= 3)%nat /\ 0 <= waited run <= 3000 /\
    (forall k r text,
       (k < 3)%nat -> allFail (server prompt) k ->
       server prompt k = Resolved r -> ok r = true ->
       json r = Some (Some text) -> text <> "" ->
       answerOf run = text /\ calls run = S k).
Proof.
  intros Hq prompt. unfold handleChatbotSubmit.
  destruct (String.eqb_spec (trim (chatbotQuery s)) ""); [congruence|].
  fold prompt. eexists. split; [reflexivity|].
  split; [apply answerOf_not_empty|].
  destruct (three_attempts (server prompt)) as [Hc Hw].
  split; [exact Hc|]. split; [exact Hw|].
  intros k r text Hk Hfail Hr Hok Hjson Htext.
  unfold fetchWithRetry.
  rewrite (attempts_success (server prompt) 3 r k 3 0 0); auto.
  unfold answerOf. simpl. rewrite Hjson.
  destruct (String.eqb_spec text ""); [congruence|]. auto.
Qed.

End AdvisorFacts.

Lemma advisor_always_answers_witness :
  let s := {| Advisor.chatbotQuery := " How do I say hi? ";
              Advisor.chatbotResponse := "";
              Advisor.isChatbotLoading := false |} in
  let prompt :=
    Advisor.promptPrefix +:+ ChatApp.trimSpaces (Advisor.chatbotQuery s) in
  exists run,
    Advisor.handleChatbotSubmit ChatApp.trimSpaces Advisor.echoServer s =
      ({| Advisor.chatbotQuery := "";
          Advisor.chatbotResponse :=
            Advisor.answerOf run;
          Advisor.isChatbotLoading := false |}, Some run) /\
    Advisor.answerOf run <> "" /\
    (Retry.calls run <= 3)%nat /\ 0 <= Retry.waited run <= 3000 /\
    (forall k r text,
       (k < 3)%nat -> Retry.allFail (Advisor.echoServer prompt) k ->
       Advisor.echoServer prompt k = Retry.Resolved r -> Retry.ok r = true ->
       Retry.json r = Some (Some text) -> text <> "" ->
       Advisor.answerOf run = text /\ Retry.calls run = S k).
Proof.
  apply (advisor_always_answers ChatApp.trimSpaces Advisor.echoServer
           {| Advisor.chatbotQuery := " How do I say hi? ";
              Advisor.chatbotResponse := "";
              Advisor.isChatbotLoading := false |}).
  vm_compute. discriminate.
Defined.

Section WavEncodingFacts.

Import WavEncoding.

Lemma bind_Some_eq {A B} (m : option A) (f : A -> option B) a r :
  m = Some a -> f a = r -> m ≫= f = r.
Proof. intros -> <-. reflexivity. Qed.

Lemma setUint8_next done x rest v :
  setUint8 (length done) v (done ++ x :: rest) =
    Some ((done ++ [v mod 256]) ++ rest).
Proof.
  unfold setUint8. rewrite length_app. simpl.
  destruct (Nat.ltb_spec (length done) (length done + S (length rest))); [|lia].
  f_equal. rewrite <- (Nat.add_0_r (length done)) at 1.
  rewrite insert_app_r. simpl. rewrite <- app_assoc. reflexivity.
Qed.

Lemma writeLoop_fill : forall vs done o i old rest,
  length old = length vs -> (o + i)%nat = length done ->
  writeLoop o i vs (done ++ old ++ rest) = Some ((done ++ bytesOf vs) ++ rest).
Proof.
  induction vs as [|v vs IH]; intros done o i old rest Hlen Hoff.
  - destruct old; [|discriminate]. simpl. rewrite app_nil_r. reflexivity.
  - destruct old as [|x old]; [discriminate|]. simpl.
    rewrite Hoff, setUint8_next.
    rewrite (IH (done ++ [v mod 256]) o (S i) old rest).
    + rewrite <- !app_assoc. reflexivity.
    + simpl in Hlen. lia.
    + rewrite length_app. simpl. lia.
Qed.

Lemma length_charCodes s : length (charCodes s) = String.length s.
Proof.
  unfold charCodes. rewrite length_map.
  induction s as [|a s IH]; simpl; [reflexivity|]. rewrite IH. reflexivity.
Qed.

Lemma length_bytesOf vs : length (bytesOf vs) = length vs.
Proof. unfold bytesOf. apply length_map. Qed.

Lemma writeString_zeros s done k :
  writeString s (done ++ replicate (String.length s + k) 0, length done) =
    Some ((done ++ bytesOf (charCodes s)) ++ replicate k 0,
          length (done ++ bytesOf (charCodes s))).
Proof.
  unfold writeString. simpl fst. simpl snd.
  rewrite replicate_add.
  rewrite (writeLoop_fill (charCodes s) done (length done) 0);
    [| rewrite length_replicate, length_charCodes; reflexivity | lia].
  simpl. rewrite length_app, length_bytesOf, length_charCodes. reflexivity.
Qed.

Lemma putUint16_zeros v done k :
  putUint16 v (done ++ replicate (2 + k) 0, length done) =
    Some ((done ++ littleEndian16 v) ++ replicate k 0,
          length (done ++ littleEndian16 v)).
Proof.
  change (replicate (2 + k) 0) with (0 :: 0 :: replicate k 0).
  unfold putUint16, setUint16. cbn [fst snd].
  destruct (Nat.leb_spec (length done + 2) (length (done ++ 0 :: 0 :: replicate k 0)))
    as [H|H]; [|rewrite length_app in H; simpl in H; lia].
  cbn [mbind option_bind]. rewrite length_app. f_equal. f_equal.
  rewrite <- (Nat.add_0_r (length done)) at 2.
  rewrite !insert_app_r. simpl. rewrite <- app_assoc. reflexivity.
Qed.

Lemma putUint32_zeros v done k :
  putUint32 v (done ++ replicate (4 + k) 0, length done) =
    Some ((done ++ littleEndian32 v) ++ replicate k 0,
          length (done ++ littleEndian32 v)).
Proof.
  change (replicate (4 + k) 0) with (0 :: 0 :: 0 :: 0 :: replicate k 0).
  unfold putUint32, setUint32. cbn [fst snd].
  destruct (Nat.leb_spec (length done + 4)
              (length (done ++ 0 :: 0 :: 0 :: 0 :: replicate k 0)))
    as [H|H]; [|rewrite length_app in H; simpl in H; lia].
  cbn [mbind option_bind]. rewrite length_app. f_equal. f_equal.
  rewrite <- (Nat.add_0_r (length done)) at 4.
  rewrite !insert_app_r. simpl. rewrite <- app_assoc. reflexivity.
Qed.

Lemma writeLoop_last vs done :
  writeLoop (length done) 0 vs (done ++ replicate (length vs) 0) =
    Some (done ++ bytesOf vs).
Proof.
  pose proof (writeLoop_fill vs done (length done) 0
                (replicate (length vs) 0) []) as H.
  rewrite !app_nil_r in H. apply H; [apply length_replicate|lia].
Qed.

(** The bytes that [pcmToWav] produces: no write falls outside the
    buffer, and the buffer is filled from the first byte to the last. *)
Lemma pcmToWav_layout pcmData sampleRate :
  pcmToWav pcmData sampleRate =
    Some (wavHeader sampleRate (length pcmData) ++ bytesOf pcmData).
Proof.
  unfold pcmToWav. cbv zeta.
  set (n := length pcmData).
  eapply bind_Some_eq; [exact (writeString_zeros "RIFF" [] (40 + n))|cbv beta].
  eapply bind_Some_eq; [exact (putUint32_zeros _ _ (36 + n))|cbv beta].
  eapply bind_Some_eq; [exact (writeString_zeros "WAVE" _ (32 + n))|cbv beta].
  eapply bind_Some_eq; [exact (writeString_zeros "fmt " _ (28 + n))|cbv beta].
  eapply bind_Some_eq; [exact (putUint32_zeros _ _ (24 + n))|cbv beta].
  eapply bind_Some_eq; [exact (putUint16_zeros _ _ (22 + n))|cbv beta].
  eapply bind_Some_eq; [exact (putUint16_zeros _ _ (20 + n))|cbv beta].
  eapply bind_Some_eq; [exact (putUint32_zeros _ _ (16 + n))|cbv beta].
  eapply bind_Some_eq; [exact (putUint32_zeros _ _ (12 + n))|cbv beta].
  eapply bind_Some_eq; [exact (putUint16_zeros _ _ (10 + n))|cbv beta].
  eapply bind_Some_eq; [exact (putUint16_zeros _ _ (8 + n))|cbv beta].
  eapply bind_Some_eq; [exact (writeString_zeros "data" _ (4 + n))|cbv beta].
  eapply bind_Some_eq; [exact (putUint32_zeros _ _ n)|cbv beta].
  eapply eq_trans; [exact (writeLoop_last pcmData _)|]. f_equal.
Qed.

Lemma littleEndian32_value v :
  v mod 256 + 256 * ((v / 256) mod 256) + 65536 * ((v / 65536) mod 256) +
  16777216 * ((v / 16777216) mod 256) = v mod 4294967296.
Proof.
  assert (H1 : v / 65536 = v / 256 / 256)
    by (rewrite Z.div_div by lia; reflexivity).
  assert (H2 : v / 16777216 = v / 256 / 256 / 256)
    by (rewrite !Z.div_div by lia; reflexivity).
  rewrite H1, H2.
  change 4294967296 with (256 * (256 * (256 * 256))).
  rewrite (Z.rem_mul_r v 256 (256 * (256 * 256))) by lia.
  rewrite (Z.rem_mul_r (v / 256) 256 (256 * 256)) by lia.
  rewrite (Z.rem_mul_r (v / 256 / 256) 256 256) by lia.
  lia.
Qed.

Lemma header_length sampleRate n : length (wavHeader sampleRate n) = 44%nat.
Proof. reflexivity. Qed.

Lemma readHeader_layout sampleRate n data :
  readHeader (wavHeader sampleRate n ++ data) =
    {| riffTag := charCodes "RIFF";
       riffSize := Some ((36 + Z.of_nat n) mod 4294967296);
       waveTag := charCodes "WAVE";
       fmtTag := charCodes "fmt ";
       fmtSize := Some 16;
       audioFormat := Some 1;
       channels := Some 1;
       rate := Some (sampleRate mod 4294967296);
       bytesPerSecond := Some ((sampleRate * 2) mod 4294967296);
       frameSize := Some 2;
       bitsPerSample := Some 16;
       dataTag := charCodes "data";
       dataLength := Some (Z.of_nat n mod 4294967296) |}.
Proof.
  unfold readHeader, getUint32, getUint16, getTag, wavHeader.
  cbn [app bytesOf map charCodes String.list_ascii_of_string littleEndian32
       littleEndian16 lookup list_lookup drop take Nat.add mbind option_bind].
  rewrite !littleEndian32_value.
  change (1 * (16 / 8)) with 2.
  reflexivity.
Qed.

(** Property X26. The header that [pcmToWav] writes can be read back: the
    call never writes outside its buffer, the file is 44 bytes longer than
    the data, and a reader of the canonical 44-byte header finds the four
    tags, one channel of 16-bit PCM, a frame of 2 bytes, and the sample
    rate, the byte rate (twice the sample rate) and the two chunk sizes,
    each reduced modulo 2^32 by the 32-bit field that holds it. *)
Theorem pcmToWav_header_reads_back (pcmData : list Z) (sampleRate : Z) :
  exists wav,
    pcmToWav pcmData sampleRate = Some wav /\
    length wav = (44 + length pcmData)%nat /\
    readHeader wav =
      {| riffTag := charCodes "RIFF";
         riffSize := Some ((36 + Z.of_nat (length pcmData)) mod 4294967296);
         waveTag := charCodes "WAVE";
         fmtTag := charCodes "fmt ";
         fmtSize := Some 16;
         audioFormat := Some 1;
         channels := Some 1;
         rate := Some (sampleRate mod 4294967296);
         bytesPerSecond := Some ((sampleRate * 2) mod 4294967296);
         frameSize := Some 2;
         bitsPerSample := Some 16;
         dataTag := charCodes "data";
         dataLength := Some (Z.of_nat (length pcmData) mod 4294967296) |}.
Proof.
  eexists. split; [apply pcmToWav_layout|]. split.
  - rewrite length_app, header_length, length_bytesOf. reflexivity.
  - apply readHeader_layout.
Qed.

Lemma bytesOf_bytes vs : Forall isByte vs -> bytesOf vs = vs.
Proof.
  induction 1 as [|v vs Hv _ IH]; [reflexivity|]. simpl.
  rewrite IH. f_equal. apply Z.mod_small. exact Hv.
Qed.

(** Property X27. The data and the sample rate survive the round trip:
    when the input consists of bytes, the sample rate fits 32 bits and the
    file is shorter than 4 GiB, the bytes after the header are the input,
    the sample rate read back is the one given, the data size read back is
    the number of bytes that follow the header, and the RIFF size is the
    length of the file less the 8 bytes before it. *)
Theorem pcmToWav_round_trip (pcmData : list Z) (sampleRate : Z) :
  Forall isByte pcmData -> 0 <= sampleRate < 4294967296 ->
  Z.of_nat (length pcmData) + 44 <= 4294967296 ->
  exists wav,
    pcmToWav pcmData sampleRate = Some wav /\
    readData wav = pcmData /\
    rate (readHeader wav) = Some sampleRate /\
    dataLength (readHeader wav) = Some (Z.of_nat (length (readData wav))) /\
    riffSize (readHeader wav) = Some (Z.of_nat (length wav) - 8).
Proof.
  intros Hbytes Hrate Hsize.
  eexists. split; [apply pcmToWav_layout|].
  rewrite readHeader_layout. rewrite (bytesOf_bytes _ Hbytes). simpl rate.
  simpl dataLength. simpl riffSize.
  assert (Hdata : readData (wavHeader sampleRate (length pcmData) ++ pcmData) = pcmData)
    by reflexivity.
  rewrite Hdata. split; [reflexivity|].
  split; [rewrite Z.mod_small by lia; reflexivity|].
  split; [rewrite Z.mod_small by lia; reflexivity|].
  rewrite Z.mod_small by lia. rewrite length_app, header_length. f_equal. lia.
Qed.

Lemma pcmToWav_round_trip_witness :
  exists wav,
    pcmToWav sampleData 24000 = Some wav /\
    readData wav = sampleData /\
    rate (readHeader wav) = Some 24000 /\
    dataLength (readHeader wav) = Some (Z.of_nat (length (readData wav))) /\
    riffSize (readHeader wav) = Some (Z.of_nat (length wav) - 8).
Proof.
  apply (pcmToWav_round_trip sampleData 24000).
  - repeat constructor; unfold isByte; lia.
  - lia.
  - simpl. lia.
Defined.

End WavEncodingFacts.

Section DocumentPathFacts.

Import DocumentPath.

Lemma getSafeAppId_no_slash id : hasSlash (getSafeAppId id) = false.
Proof.
  induction id as [|a id IH]; [reflexivity|]. simpl.
  destruct (Ascii.eqb a slash) eqn:E; simpl.
  - exact IH.
  - rewrite E, IH. reflexivity.
Qed.

Lemma getSafeAppId_without_slash id :
  hasSlash id = false -> getSafeAppId id = id.
Proof.
  induction id as [|a id IH]; [reflexivity|]. simpl.
  destruct (Ascii.eqb a slash); simpl; [discriminate|].
  intros H. rewrite IH by exact H. reflexivity.
Qed.

(** Property X28. The application id becomes one path segment: the result
    of [getSafeAppId] holds no slash, it is the id itself when the id
    holds none, a second application changes nothing, and every slash of
    the id has become two characters. *)
Theorem safe_app_id_is_one_segment (id : string) :
  hasSlash (getSafeAppId id) = false /\
  (hasSlash id = false -> getSafeAppId id = id) /\
  getSafeAppId (getSafeAppId id) = getSafeAppId id /\
  String.length (getSafeAppId id) = (String.length id + countSlashes id)%nat.
Proof.
  split; [apply getSafeAppId_no_slash|].
  split; [apply getSafeAppId_without_slash|].
  split; [apply getSafeAppId_without_slash, getSafeAppId_no_slash|].
  induction id as [|a id IH]; [reflexivity|]. simpl.
  destruct (Ascii.eqb a slash); simpl; rewrite IH; lia.
Qed.

End DocumentPathFacts.
